(** * The admin change list and its filter specs

    A shallow embedding of [django/contrib/admin/views/main.py] and
    [django/contrib/admin/filterspecs.py] (Python 2, Django 1.3), and the
    properties of the change-list controller proved over it.

    Conventions of the embedding.
    - Text ([str] and [unicode] objects alike) is a [string]; the string
      methods the code calls are written out below.
    - A Python dictionary is a [gmap string pyval]; dictionaries are objects,
      so they live in a store ([heap]) and are handled through references.
      The order in which a dictionary is iterated is the order of
      [map_to_list].
    - Code that can raise runs in the monad [M], state (the store) plus
      errors (the exception raised).
    - The ORM, the paginator, the model admin and the URL encoder are not part
      of these two modules: they are the fields of the class [Framework] and
      of the records [ModelAdmin], [Options] and [Paginator]. *)

From stdpp Require Import gmap strings list fin_maps pretty.

From Stdlib Require Ascii.
Import (notations) Stdlib.Strings.Ascii.

(** ** Python text *)

Module Py.

(** [s.startswith(prefix)] *)
Definition startswith (s prefix : string) : bool := String.prefix prefix s.

(** [s.endswith(suffix)] *)
Definition endswith (s suffix : string) : bool :=
  String.prefix (String.rev suffix) (String.rev s).

(** [sub in s] *)
Fixpoint contains (sub s : string) : bool :=
  String.prefix sub s ||
  match s with
  | "" => false
  | String _ s' => contains sub s'
  end.

(** [s.split(sep)] for a one-character separator: never the empty list. *)
Fixpoint split (sep : Ascii.ascii) (s : string) : list string :=
  match s with
  | "" => [""]
  | String a s' =>
      if Ascii.eqb a sep then "" :: split sep s'
      else match split sep s' with
           | w :: ws => String a w :: ws
           | [] => [String a ""]
           end
  end.

(** [s.split()]: the words between runs of white space. *)
Definition split_ws (s : string) : list string := String.words s.

Definition lower_ascii (a : Ascii.ascii) : Ascii.ascii :=
  let n := Ascii.N_of_ascii a in
  if ((65 <=? n) && (n <=? 90))%N then Ascii.ascii_of_N (n + 32) else a.

(** [s.lower()], on the letters of ASCII. *)
Fixpoint lower (s : string) : string :=
  match s with
  | "" => ""
  | String a s' => String (lower_ascii a) (lower s')
  end.

(** [s.rpartition(sep)] for a one-character separator: the text before the
    last separator, the separator, the text after it; two empty strings and
    [s] when there is no separator. *)
Fixpoint rpartition (sep : Ascii.ascii) (s : string)
    : string * string * string :=
  match s with
  | "" => ("", "", "")
  | String a s' =>
      let '(hd, sp, tl) := rpartition sep s' in
      if String.eqb sp "" then
        if Ascii.eqb a sep then ("", String sep "", s')
        else ("", "", String a s')
      else (String a hd, sp, tl)
  end.

(** [s[1:]] *)
Definition tail (s : string) : string :=
  match s with
  | "" => ""
  | String _ s' => s'
  end.

(** Truth value of a list: non-empty. *)
Definition truthy_list {A} (l : list A) : bool :=
  match l with [] => false | _ => true end.

(** Truth value of a string: non-empty. *)
Definition truthy_str (s : string) : bool := negb (String.eqb s "").

(** [int(s)] in base ten, [None] for [ValueError]: white space, an optional
    sign, white space again (Python 2 allows it there), digits, white space. *)
Fixpoint lstrip (s : string) : string :=
  match s with
  | String a s' => if Ascii.is_space a then lstrip s' else s
  | "" => ""
  end.

Fixpoint digits (acc : option N) (s : string) : option N * string :=
  match s with
  | String a s' =>
      match Ascii.is_nat a with
      | Some n => digits (Some (10 * default 0 acc + N.of_nat n)%N) s'
      | None => (acc, s)
      end
  | "" => (acc, "")
  end.

Definition int (s : string) : option Z :=
  let s := lstrip s in
  let '(neg, s) :=
    match s with
    | String "+"%char s' => (false, s')
    | String "-"%char s' => (true, s')
    | _ => (false, s)
    end in
  match digits None (lstrip s) with
  | (Some n, rest) =>
      if String.eqb (lstrip rest) ""
      then Some (if neg : bool then - Z.of_N n else Z.of_N n)%Z
      else None
  | (None, _) => None
  end.

(** [l[i]], [None] for [IndexError]; a negative index counts from the end. *)
Definition index {A} (l : list A) (i : Z) : option A :=
  if (0 <=? i)%Z then l !! Z.to_nat i
  else if (- Z.of_nat (length l) <=? i)%Z
       then l !! Z.to_nat (Z.of_nat (length l) + i)
       else None.

(** [reduce(f, l)] without an initial value, [None] for the [TypeError] on
    an empty list. *)
Definition reduce {A} (f : A → A → A) (l : list A) : option A :=
  match l with
  | [] => None
  | x :: l' => Some (foldl f x l')
  end.

(** [a or b] on values that are [None] or lists. *)
Definition or_list {A} (a b : option (list A)) : option (list A) :=
  match a with
  | Some (_ :: _) => a
  | _ => b
  end.

End Py.

Global Arguments Py.startswith : simpl never.
Global Arguments Py.endswith : simpl never.

(** ** Python values and exceptions *)

(** The values that the dictionaries of these modules hold: query-string
    values are strings; [get_query_set] stores lists of strings and booleans;
    callers of [get_query_string] pass integers (primary keys) and [None]. *)
Inductive pyval :=
  | PNone
  | PBool (b : bool)
  | PInt (z : Z)
  | PStr (s : string)
  | PList (l : list string).

Global Instance pyval_eq_dec : EqDecision pyval.
Proof. solve_decision. Defined.

(** The exceptions these modules raise, catch or let through.
    [PageNotAnInteger] and [EmptyPage] are the subclasses of [InvalidPage]. *)
Inductive exn :=
  | IncorrectLookupParameters
  | SuspiciousOperation (msg : string)
  | InvalidPage
  | PageNotAnInteger
  | EmptyPage
  | KeyError (key : string)
  | AttributeError
  | OtherError (name : string).

Global Instance exn_eq_dec : EqDecision exn.
Proof. solve_decision. Defined.

(** [isinstance(e, InvalidPage)] *)
Definition is_InvalidPage (e : exn) : bool :=
  match e with
  | InvalidPage | PageNotAnInteger | EmptyPage => true
  | _ => false
  end.

(** ** The store of dictionaries and the monad of the code *)

Definition loc := nat.
Abbreviation heap := (gmap loc (gmap string pyval)).

Definition M (A : Type) : Type := heap → (exn + A) * heap.

Definition ret {A} (a : A) : M A := λ h, (inr a, h).
Definition raise {A} (e : exn) : M A := λ h, (inl e, h).
Definition bind {A B} (m : M A) (f : A → M B) : M B :=
  λ h, match m h with
       | (inr a, h') => f a h'
       | (inl e, h') => (inl e, h')
       end.

Global Instance M_ret : MRet M := @ret.
Global Instance M_bind : MBind M := λ A B f m, bind m f.

(** A call that returns or raises without touching the store. *)
Definition lift {A} (r : exn + A) : M A := λ h, (r, h).

(** [try: m except: handler(e)] *)
Definition try_except {A} (m : M A) (handler : exn → M A) : M A :=
  λ h, match m h with
       | (inl e, h') => handler e h'
       | r => r
       end.

(** A generator that yields [body(x)] for each [x] of [l], run to its end. *)
Fixpoint for_yield {A B} (l : list A) (body : A → M B) : M (list B) :=
  match l with
  | [] => ret []
  | x :: l' => y ← body x; ys ← for_yield l' body; ret (y :: ys)
  end.

(** [for x in l: body(x)] *)
Fixpoint for_each {A} (l : list A) (body : A → M unit) : M unit :=
  match l with
  | [] => ret ()
  | x :: l' => body x ;; for_each l' body
  end.

(** A [for] loop that carries local variables [s] from one turn to the next. *)
Fixpoint for_fold {A S} (l : list A) (s : S) (body : S → A → M S) : M S :=
  match l with
  | [] => ret s
  | x :: l' => s' ← body s x; for_fold l' s' body
  end.

(** The dictionary a reference points to. *)
Definition deref (h : heap) (l : loc) : gmap string pyval :=
  default ∅ (h !! l).
Global Arguments deref : simpl never.

Definition dict_read (l : loc) : M (gmap string pyval) :=
  λ h, (inr (deref h l), h).

(** [d.copy()]: a new object with the same items. *)
Definition dict_copy (l : loc) : M loc :=
  λ h, let l' := fresh (dom h) in (inr l', <[l' := deref h l]> h).

(** [k in d] *)
Definition dict_contains (l : loc) (k : string) : M bool :=
  d ← dict_read l; ret (bool_decide (is_Some (d !! k))).

(** [del d[k]] *)
Definition dict_del (l : loc) (k : string) : M unit :=
  λ h, match deref h l !! k with
       | Some _ => (inr (), <[l := delete k (deref h l)]> h)
       | None => (inl (KeyError k), h)
       end.

(** [d[k] = v] *)
Definition dict_set (l : loc) (k : string) (v : pyval) : M unit :=
  λ h, (inr (), <[l := <[k := v]> (deref h l)]> h).

(** [d.items()] and [d.keys()]: lists, built when called (Python 2). *)
Definition dict_items (l : loc) : M (list (string * pyval)) :=
  d ← dict_read l; ret (map_to_list d).
Definition dict_keys (l : loc) : M (list string) :=
  d ← dict_read l; ret (map_to_list d).*1.

(** ** The host framework

    What these modules take from the rest of Django: the query-set methods of
    the ORM, [django.utils.http.urlencode], and the text conversions of
    [django.utils.encoding] and [django.utils.translation]. *)

(** A [models.Q] object with one keyword argument, and [q1 | q2]. *)
Inductive Q :=
  | QLookup (lookup value : string)
  | QOr (q1 q2 : Q).

Class Framework := {
  QuerySet : Type;
  (** [qs.filter] with its positional and its keyword arguments; it
      validates them and can raise. *)
  qs_filter : QuerySet → list Q → gmap string pyval → exn + QuerySet;
  qs_order_by : QuerySet → list string → QuerySet;
  qs_select_related : QuerySet → QuerySet;
  qs_distinct : QuerySet → QuerySet;
  qs_count : QuerySet → Z;
  qs_clone : QuerySet → QuerySet;
  (** truth values of [qs.query.where] and [qs.query.select_related] *)
  query_where : QuerySet → bool;
  query_select_related : QuerySet → bool;
  urlencode : gmap string pyval → string;
  (** [isinstance(key, str)], and the conversions to [str] and [unicode] *)
  is_str : string → bool;
  smart_str : string → string;
  smart_unicode : pyval → string;
  ugettext : string → string;
}.

(** The attributes of a field ([models.Field] or
    [models.related.RelatedObject]) that the admin reads. *)
Record Field := {
  f_name : string;
  f_var_name : string;
  f_verbose_name : string;
  (** [isinstance(f, models.related.RelatedObject)] *)
  is_RelatedObject : bool;
  (** [hasattr(f, 'rel')], [bool(f.rel)], [isinstance(f.rel, ManyToOneRel)] *)
  has_rel : bool;
  f_rel : bool;
  rel_is_ManyToOneRel : bool;
  (** [f.null], and [f.field.null] of a related object *)
  f_null : bool;
  f_field_null : bool;
  (** [isinstance(f, models.X)] for the field classes that are tested *)
  is_BooleanField : bool;
  is_NullBooleanField : bool;
  is_DateField : bool;
  is_DateTimeField : bool;
  is_ManyToManyField : bool;
  (** [bool(f.choices)], [f.flatchoices] and
      [f.get_choices(include_blank=False)] *)
  f_choices : bool;
  f_flatchoices : list (pyval * string);
  f_get_choices : list (pyval * string);
  (** of [get_model_from_relation(f)]: [_meta.verbose_name], [_meta.pk.name] *)
  other_verbose_name : string;
  other_pk_name : string;
}.

(** A method or callable named in [list_display]; [admin_order_field] is
    [None] when the attribute is not set. *)
Record Attr := { admin_order_field : option string }.

(** An entry of [list_display]: a name or a callable. *)
Inductive Column :=
  | ColumnName (name : string)
  | ColumnCallable (attr : Attr).

(** A model class: [getattr(model, name)], [None] for [AttributeError], and
    the values an [AllValuesFilterSpec] reads from the database for a field
    path (distinct, ordered by the field). *)
Record Model := {
  m_getattr : string → option Attr;
  m_values_list : string → list pyval;
}.

(** [request.GET], a dictionary of text. *)
Record Request := { GET : gmap string string }.

(** [model._meta]. [get_field] is [None] for [FieldDoesNotExist]. *)
Record Options := {
  opts_ordering : option (list string);
  pk_name : string;
  get_field : string → option Field;
}.

Section WithFramework.
Context `{F : Framework}.

Record Paginator := {
  count : Z;
  (** [paginator.page(n).object_list], or the exception [page] raises *)
  page : Z → exn + QuerySet;
}.

Record ModelAdmin := {
  ma_ordering : option (list string);
  lookup_allowed : string → bool;
  get_paginator : QuerySet → Z → Paginator;
  (** [getattr(model_admin, name)], [None] when [hasattr] is false *)
  ma_getattr : string → option Attr;
}.

(** What [filter_spec.get_query_set(cl, qs)] returns. *)
Inductive spec_result :=
  | ReturnsNone
  | ReturnsFalse
  | ReturnsQuerySet (qs : QuerySet).

(** A filter spec as [ChangeList.get_query_set] sees it. [get_filters] builds
    every spec with the [params] of the change list, which [__init__] keeps
    as [self.params]: [fs_get_query_set] is given what that dictionary holds
    when the method is called, and the query set. The change list that is
    passed to the method is the one the spec belongs to. *)
Record FilterSpec := {
  fs_get_query_set : gmap string pyval → QuerySet → exn + spec_result;
  fs_consumed_params : list string;
}.

(** [FilterSpec.get_query_set] and [FilterSpec.consumed_params], which the
    field filter specs inherit. *)
Definition base_FilterSpec : FilterSpec :=
  {| fs_get_query_set := λ _ _, inr ReturnsFalse; fs_consumed_params := [] |}.

(** The attributes of a [ChangeList] that its methods read. *)
Record ChangeList := {
  model : Model;
  lookup_opts : Options;
  root_query_set : QuerySet;
  list_display : list Column;
  search_fields : list string;
  list_select_related : bool;
  list_per_page : Z;
  model_admin : ModelAdmin;
  page_num : Z;
  show_all : bool;
  params : loc;
  filter_specs : list FilterSpec;
  ordering : list string;
  query : string;
  query_set : QuerySet;
}.

Definition MAX_SHOW_ALL_ALLOWED : Z := 200.

Definition ALL_VAR := "all".
Definition ORDER_VAR := "o".
Definition ORDER_TYPE_VAR := "ot".
Definition PAGE_VAR := "p".
Definition SEARCH_VAR := "q".
Definition TO_FIELD_VAR := "t".
Definition IS_POPUP_VAR := "pop".
Definition ERROR_FLAG := "e".
Definition EMPTY_CHANGELIST_VALUE := "(None)".

(** Lines 99-102 of [get_query_string]. *)
Definition delete_prefixed (p : loc) (remove : list string) : M unit :=
  for_each remove (λ r,
    ks ← dict_keys p;
    for_each ks (λ k,
      if Py.startswith k r then dict_del p k else mret ())).

(** Lines 103-108 of [get_query_string]. *)
Definition update_params (p : loc) (new_params : gmap string pyval)
    : M unit :=
  for_each (map_to_list new_params) (λ '(k, v),
    match v with
    | PNone =>
        b ← dict_contains p k;
        if b : bool then dict_del p k else mret ()
    | _ => dict_set p k v
    end).

(** [ChangeList.get_query_string] (main.py, lines 95-109). *)
Definition get_query_string (self : ChangeList)
    (new_params : option (gmap string pyval)) (remove : option (list string))
    : M string :=
  let new_params := default ∅ new_params in
  let remove := default [] remove in
  p ← dict_copy (params self);
  delete_prefixed p remove;;
  update_params p new_params;;
  d ← dict_read p;
  mret ("?" +:+ urlencode d).

(** The attributes [get_results] sets on the change list. *)
Record Results := {
  result_count : Z;
  full_result_count : Z;
  result_list : QuerySet;
  can_show_all : bool;
  multi_page : bool;
  paginator : Paginator;
}.

(** [ChangeList.get_results] (main.py, lines 111-142). It does not touch the
    dictionaries, and returns the attributes it sets. *)
Definition get_results (self : ChangeList) : exn + Results :=
  let paginator :=
    get_paginator (model_admin self) (query_set self) (list_per_page self) in
  let result_count := count paginator in
  let full_result_count :=
    if negb (query_where (query_set self)) then result_count
    else qs_count (root_query_set self) in
  let can_show_all := (result_count <=? MAX_SHOW_ALL_ALLOWED)%Z in
  let multi_page := (result_count >? list_per_page self)%Z in
  let result_list :=
    if (show_all self && can_show_all) || negb multi_page
    then inr (qs_clone (query_set self))
    else match page paginator (page_num self + 1)%Z with
         | inr object_list => inr object_list
         | inl e =>
             if is_InvalidPage e then inl IncorrectLookupParameters
             else inl e
         end in
  match result_list with
  | inl e => inl e
  | inr result_list =>
      inr {| result_count := result_count;
             full_result_count := full_result_count;
             result_list := result_list;
             can_show_all := can_show_all;
             multi_page := multi_page;
             paginator := paginator |}
  end.

(** [lookup_opts.get_field(field_name)] on an entry of [list_display]; a
    callable is the name of no field. *)
Definition column_field (opts : Options) (col : Column) : option Field :=
  match col with
  | ColumnName name => get_field opts name
  | ColumnCallable _ => None
  end.

(** Lines 160-176 of [get_ordering]: the name to order by for a column, [None]
    where the code does [continue]. *)
Definition order_field_name (self : ChangeList) (field_name : Column)
    : option string :=
  match column_field (lookup_opts self) field_name with
  | Some f => Some (f_name f)
  | None =>
      let attr :=
        match field_name with
        | ColumnCallable a => Some a
        | ColumnName name =>
            match ma_getattr (model_admin self) name with
            | Some a => Some a
            | None => m_getattr (model self) name
            end
        end in
      match attr with
      | Some a => admin_order_field a
      | None => None
      end
  end.

(** One turn of the loop of [get_ordering] (lines 157-181). *)
Definition order_step (self : ChangeList) (ordering : list string)
    (p : string) : list string :=
  let '(none, pfx, idx) := Py.rpartition "-" p in
  match Py.int idx with
  | None => ordering
  | Some i =>
      match Py.index (list_display self) i with
      | None => ordering
      | Some field_name =>
          match order_field_name self field_name with
          | None => ordering
          | Some field_name => ordering ++ [pfx +:+ field_name]
          end
      end
  end.

(** [value.split(',')] and [value.lower()] on a dictionary value; only text
    has these methods. *)
Definition value_split (value : pyval) : M (list string) :=
  match value with
  | PStr s => mret (Py.split "," s)
  | _ => raise AttributeError
  end.
Definition value_lower (value : pyval) : M string :=
  match value with
  | PStr s => mret (Py.lower s)
  | _ => raise AttributeError
  end.

(** [ChangeList.get_ordering] (main.py, lines 144-183). *)
Definition get_ordering (self : ChangeList) : M (list string) :=
  let ordering :=
    default []
      (Py.or_list (ma_ordering (model_admin self))
         (Py.or_list (opts_ordering (lookup_opts self))
            (Some ["-" +:+ pk_name (lookup_opts self)]))) in
  params ← dict_read (params self);
  match params !! ORDER_VAR with
  | Some value =>
      order_params ← value_split value;
      mret (foldl (order_step self) [] order_params)
  | None => mret ordering
  end.

(** Lines 196-198 of [get_query_set]. *)
Definition strip_control_params (lookup_params : loc) : M unit :=
  for_each [ALL_VAR; ORDER_VAR; ORDER_TYPE_VAR; SEARCH_VAR; IS_POPUP_VAR]
    (λ i, b ← dict_contains lookup_params i;
          if b : bool then dict_del lookup_params i else mret ()).

(** The loop of lines 200-216 of [get_query_set], over the list [items]; the
    result is the variable [key] as the loop leaves it. *)
Definition normalise_loop (lookup_params : loc)
    (items : list (string * pyval)) (key : string) : M string :=
  for_fold items key (λ _ '(key, value),
    (if negb (is_str key)
     then dict_del lookup_params key;;
          dict_set lookup_params (smart_str key) value
     else mret ());;
    (if Py.endswith key "__in"
     then l ← value_split value; dict_set lookup_params key (PList l)
     else mret ());;
    (if Py.endswith key "__isnull"
     then v ← value_lower value;
          if bool_decide (v ∈ [""; "false"])
          then dict_set lookup_params key (PBool false)
          else dict_set lookup_params key (PBool true)
     else mret ());;
    mret key).

(** Lines 199-216 of [get_query_set]. *)
Definition normalise_lookup_params (lookup_params : loc) : M string :=
  let key := "" in
  items ← dict_items lookup_params;
  normalise_loop lookup_params items key.

(** Lines 224-228 of [get_query_set]. *)
Definition consume_params (lookup_params : loc) (consumed : list string)
    : M unit :=
  for_each consumed (λ param,
    try_except (dict_del lookup_params param)
      (λ e, match e with KeyError _ => mret () | _ => raise e end)).

(** One turn of the loop over the filter specs (lines 219-233). *)
Definition filter_spec_step (self : ChangeList) (lookup_params : loc)
    (key : string) (qs : QuerySet) (filter_spec : FilterSpec) : M QuerySet :=
  spec_params ← dict_read (params self);
  new_qs ← lift (fs_get_query_set filter_spec spec_params qs);
  qs ← match new_qs with
       | ReturnsQuerySet new_qs =>
           consume_params lookup_params (fs_consumed_params filter_spec);;
           mret new_qs
       | ReturnsNone | ReturnsFalse => mret qs
       end;
  if negb (lookup_allowed (model_admin self) key)
  then raise (SuspiciousOperation ("Filtering by " +:+ key +:+ " not allowed"))
  else mret qs.

(** Lines 236-244. *)
Definition apply_lookup_params (lookup_params : loc) (qs : QuerySet)
    : M QuerySet :=
  kwargs ← dict_read lookup_params;
  try_except (lift (qs_filter qs [] kwargs))
    (λ _, raise IncorrectLookupParameters).

(** The loop of lines 253-261, which stops at the first column that is a
    many-to-one relation. *)
Fixpoint select_related_loop (opts : Options) (cols : list Column)
    (qs : QuerySet) : QuerySet :=
  match cols with
  | [] => qs
  | field_name :: cols' =>
      match column_field opts field_name with
      | Some f =>
          if rel_is_ManyToOneRel f then qs_select_related qs
          else select_related_loop opts cols' qs
      | None => select_related_loop opts cols' qs
      end
  end.

(** Lines 249-261. *)
Definition apply_select_related (self : ChangeList) (qs : QuerySet)
    : QuerySet :=
  if negb (query_select_related qs) then
    if list_select_related self then qs_select_related qs
    else select_related_loop (lookup_opts self) (list_display self) qs
  else qs.

(** Lines 264-265. *)
Definition apply_ordering (self : ChangeList) (qs : QuerySet) : QuerySet :=
  if Py.truthy_list (ordering self) then qs_order_by qs (ordering self)
  else qs.

(** [construct_search] (lines 268-276). *)
Definition construct_search (field_name : string) : string :=
  if Py.startswith field_name "^" then Py.tail field_name +:+ "__istartswith"
  else if Py.startswith field_name "=" then Py.tail field_name +:+ "__iexact"
  else if Py.startswith field_name "@" then Py.tail field_name +:+ "__search"
  else field_name +:+ "__icontains".

(** The loop of lines 282-285, which stops at the first name with [__]. *)
Fixpoint distinct_loop (fields : list string) (qs : QuerySet) : QuerySet :=
  match fields with
  | [] => qs
  | field_name :: fields' =>
      if Py.contains "__" field_name then qs_distinct qs
      else distinct_loop fields' qs
  end.

(** Lines 278-285. *)
Definition apply_search (self : ChangeList) (qs : QuerySet) : M QuerySet :=
  if Py.truthy_list (search_fields self) && Py.truthy_str (query self) then
    qs ← for_fold (Py.split_ws (query self)) qs (λ qs bit,
      let or_queries :=
        (λ field_name, QLookup (construct_search field_name) bit)
          <$> search_fields self in
      match Py.reduce QOr or_queries with
      | Some q => lift (qs_filter qs [q] ∅)
      | None => raise (OtherError "TypeError")
      end);
    mret (distinct_loop (search_fields self) qs)
  else mret qs.

(** Lines 194-233 of [get_query_set]: the query set and the dictionary of
    lookup parameters that reach [qs.filter]. *)
Definition prepare_lookup_params (self : ChangeList) : M (QuerySet * loc) :=
  let qs := root_query_set self in
  lookup_params ← dict_copy (params self);
  strip_control_params lookup_params;;
  key ← normalise_lookup_params lookup_params;
  qs ← for_fold (filter_specs self) qs
         (filter_spec_step self lookup_params key);
  mret (qs, lookup_params).

(** [ChangeList.get_query_set] (main.py, lines 193-287). *)
Definition get_query_set (self : ChangeList) : M QuerySet :=
  '(qs, lookup_params) ← prepare_lookup_params self;
  qs ← apply_lookup_params lookup_params qs;
  let qs := apply_select_related self qs in
  let qs := apply_ordering self qs in
  apply_search self qs.

(** ** Filter specs (filterspecs.py) *)

(** A choice that [choices] yields. *)
Record Choice := {
  selected : bool;
  query_string : string;
  display : string;
}.

(** Truth value of a value of [request.GET.get(key, None)]. *)
Definition truthy_opt (v : option string) : bool :=
  match v with
  | Some s => Py.truthy_str s
  | None => false
  end.

(** [FieldFilterSpec.__init__] (lines 63-71): the field path. *)
Definition init_field_path (f : Field) (field_path : option string) : string :=
  match field_path with
  | Some fp => fp
  | None => if is_RelatedObject f then f_var_name f else f_name f
  end.

Record RelatedFilterSpec := {
  rel_params : loc;
  rel_field : Field;
  rel_field_path : string;
  rel_lookup_title : string;
  rel_lookup_kwarg : string;
  rel_lookup_kwarg_isnull : string;
  rel_lookup_val : option string;
  rel_lookup_val_isnull : option string;
  rel_lookup_choices : list (pyval * string);
}.

(** [RelatedFilterSpec.__init__] (lines 93-111). *)
Definition RelatedFilterSpec_init (f : Field) (request : Request)
    (params : loc) (model : Model) (field_path : option string)
    : RelatedFilterSpec :=
  let field_path := init_field_path f field_path in
  let lookup_kwarg := field_path +:+ "__" +:+ other_pk_name f +:+ "__exact" in
  let lookup_kwarg_isnull := field_path +:+ "__isnull" in
  {| rel_params := params;
     rel_field := f;
     rel_field_path := field_path;
     rel_lookup_title :=
       if is_ManyToManyField f || is_RelatedObject f
       then other_verbose_name f else f_verbose_name f;
     rel_lookup_kwarg := lookup_kwarg;
     rel_lookup_kwarg_isnull := lookup_kwarg_isnull;
     rel_lookup_val := GET request !! lookup_kwarg;
     rel_lookup_val_isnull := GET request !! lookup_kwarg_isnull;
     rel_lookup_choices := f_get_choices f |}.

(** The test of lines 114-116 and 139-141: a relation that can be null. *)
Definition nullable_relation (f : Field) : bool :=
  is_RelatedObject f && f_field_null f || has_rel f && f_null f.

(** [RelatedFilterSpec.has_output] (lines 113-120). *)
Definition RelatedFilterSpec_has_output (self : RelatedFilterSpec) : bool :=
  let extra := if nullable_relation (rel_field self) then 1 else 0 in
  Nat.ltb 1 (length (rel_lookup_choices self) + extra).

(** [RelatedFilterSpec.choices] (lines 125-146). *)
Definition RelatedFilterSpec_choices (self : RelatedFilterSpec)
    (cl : ChangeList) : M (list Choice) :=
  q ← get_query_string cl (Some ∅)
         (Some [rel_lookup_kwarg self; rel_lookup_kwarg_isnull self]);
  let first :=
    {| selected := bool_decide (rel_lookup_val self = None)
                   && negb (truthy_opt (rel_lookup_val_isnull self));
       query_string := q;
       display := ugettext "All" |} in
  middle ← for_yield (rel_lookup_choices self) (λ '(pk_val, val),
    q ← get_query_string cl (Some {[rel_lookup_kwarg self := pk_val]})
           (Some [rel_lookup_kwarg_isnull self]);
    mret {| selected :=
              bool_decide (rel_lookup_val self = Some (smart_unicode pk_val));
            query_string := q;
            display := val |});
  last ← (if nullable_relation (rel_field self)
          then
            q ← get_query_string cl
                   (Some {[rel_lookup_kwarg_isnull self := PStr "True"]})
                   (Some [rel_lookup_kwarg self]);
            mret [{| selected := truthy_opt (rel_lookup_val_isnull self);
                     query_string := q;
                     display := EMPTY_CHANGELIST_VALUE |}]
          else mret []);
  mret (first :: middle ++ last).

Record BooleanFieldFilterSpec := {
  bool_params : loc;
  bool_field : Field;
  bool_field_path : string;
  bool_lookup_kwarg : string;
  bool_lookup_kwarg2 : string;
  bool_lookup_val : option string;
  bool_lookup_val2 : option string;
}.

(** [BooleanFieldFilterSpec.__init__] (lines 153-161). *)
Definition BooleanFieldFilterSpec_init (f : Field) (request : Request)
    (params : loc) (model : Model) (field_path : option string)
    : BooleanFieldFilterSpec :=
  let field_path := init_field_path f field_path in
  let lookup_kwarg := field_path +:+ "__exact" in
  let lookup_kwarg2 := field_path +:+ "__isnull" in
  {| bool_params := params;
     bool_field := f;
     bool_field_path := field_path;
     bool_lookup_kwarg := lookup_kwarg;
     bool_lookup_kwarg2 := lookup_kwarg2;
     bool_lookup_val := GET request !! lookup_kwarg;
     bool_lookup_val2 := GET request !! lookup_kwarg2 |}.

(** A value of a dictionary literal: [None] or text. *)
Definition opt_val (v : option string) : pyval :=
  match v with
  | Some s => PStr s
  | None => PNone
  end.

(** [BooleanFieldFilterSpec.choices] (lines 163-175). *)
Definition BooleanFieldFilterSpec_choices (self : BooleanFieldFilterSpec)
    (cl : ChangeList) : M (list Choice) :=
  let pairs :=
    [(ugettext "All", None); (ugettext "Yes", Some "1");
     (ugettext "No", Some "0")] in
  first ← for_yield pairs (λ '(k, v),
      q ← get_query_string cl (Some {[bool_lookup_kwarg self := opt_val v]})
             (Some [bool_lookup_kwarg2 self]);
      mret {| selected := bool_decide (bool_lookup_val self = v)
                          && negb (truthy_opt (bool_lookup_val2 self));
              query_string := q;
              display := k |});
  last ← (if is_NullBooleanField (bool_field self)
          then
            q ← get_query_string cl
                   (Some {[bool_lookup_kwarg2 self := PStr "True"]})
                   (Some [bool_lookup_kwarg self]);
            mret [{| selected :=
                       bool_decide (bool_lookup_val2 self = Some "True");
                     query_string := q;
                     display := ugettext "Unknown" |}]
          else mret []);
  mret (first ++ last).

Record ChoicesFilterSpec := {
  ch_params : loc;
  ch_field : Field;
  ch_field_path : string;
  ch_lookup_kwarg : string;
  ch_lookup_val : option string;
}.

(** [ChoicesFilterSpec.__init__] (lines 181-187). *)
Definition ChoicesFilterSpec_init (f : Field) (request : Request)
    (params : loc) (model : Model) (field_path : option string)
    : ChoicesFilterSpec :=
  let field_path := init_field_path f field_path in
  let lookup_kwarg := field_path +:+ "__exact" in
  {| ch_params := params;
     ch_field := f;
     ch_field_path := field_path;
     ch_lookup_kwarg := lookup_kwarg;
     ch_lookup_val := GET request !! lookup_kwarg |}.


(** A [DateFieldFilterSpec], without its [links], which depend on the day
    the request is served. *)
Record DateFieldFilterSpec := {
  date_params_ref : loc;
  date_field : Field;
  date_field_path : string;
  field_generic : string;
  date_params : gmap string pyval;
}.

(** [DateFieldFilterSpec.__init__] (lines 202-211). *)
Definition DateFieldFilterSpec_init (f : Field) (request : Request)
    (params : loc) (model : Model) (field_path : option string)
    : M DateFieldFilterSpec :=
  let field_path := init_field_path f field_path in
  let field_generic := field_path +:+ "__" in
  items ← dict_items params;
  mret {| date_params_ref := params;
          date_field := f;
          date_field_path := field_path;
          field_generic := field_generic;
          date_params :=
            list_to_map
              (List.filter (λ kv, Py.startswith kv.1 field_generic) items) |}.

Record AllValuesFilterSpec := {
  all_params : loc;
  all_field : Field;
  all_field_path : string;
  all_lookup_kwarg : string;
  all_lookup_kwarg_isnull : string;
  all_lookup_val : option string;
  all_lookup_val_isnull : option string;
  all_lookup_choices : list pyval;
}.

(** [AllValuesFilterSpec.__init__] (lines 247-266). *)
Definition AllValuesFilterSpec_init (f : Field) (request : Request)
    (params : loc) (model : Model) (field_path : option string)
    : AllValuesFilterSpec :=
  let field_path := init_field_path f field_path in
  let lookup_kwarg := field_path in
  let lookup_kwarg_isnull := field_path +:+ "__isnull" in
  {| all_params := params;
     all_field := f;
     all_field_path := field_path;
     all_lookup_kwarg := lookup_kwarg;
     all_lookup_kwarg_isnull := lookup_kwarg_isnull;
     all_lookup_val := GET request !! lookup_kwarg;
     all_lookup_val_isnull := GET request !! lookup_kwarg_isnull;
     all_lookup_choices := m_values_list model field_path |}.

(** The loop of [AllValuesFilterSpec.choices] (lines 276-288): whether
    [None] was met, and the choices yielded. *)
Definition AllValuesFilterSpec_values (self : AllValuesFilterSpec)
    (cl : ChangeList) (lookup_choices : list pyval) (include_none : bool)
    (yielded : list Choice) : M (bool * list Choice) :=
  for_fold lookup_choices (include_none, yielded)
    (λ '(include_none, yielded) val,
      match val with
      | PNone => mret (true, yielded)
      | _ =>
          let val := smart_unicode val in
          q ← get_query_string cl
                 (Some {[all_lookup_kwarg self := PStr val]})
                 (Some [all_lookup_kwarg_isnull self]);
          mret (include_none,
                yielded ++
                [{| selected := bool_decide (all_lookup_val self = Some val);
                    query_string := q;
                    display := val |}])
      end).

(** [AllValuesFilterSpec.choices] (lines 268-294). *)
Definition AllValuesFilterSpec_choices (self : AllValuesFilterSpec)
    (cl : ChangeList) : M (list Choice) :=
  q ← get_query_string cl (Some ∅)
         (Some [all_lookup_kwarg self; all_lookup_kwarg_isnull self]);
  let first :=
    {| selected := bool_decide (all_lookup_val self = None)
                   && bool_decide (all_lookup_val_isnull self = None);
       query_string := q;
       display := ugettext "All" |} in
  let include_none := false in
  '(include_none, middle) ←
    AllValuesFilterSpec_values self cl (all_lookup_choices self)
      include_none [];
  last ← (if include_none : bool
          then
            q ← get_query_string cl
                   (Some {[all_lookup_kwarg_isnull self := PStr "True"]})
                   (Some [all_lookup_kwarg self]);
            mret [{| selected := truthy_opt (all_lookup_val_isnull self);
                     query_string := q;
                     display := EMPTY_CHANGELIST_VALUE |}]
          else mret []);
  mret (first :: middle ++ last).

(** An instance of one of the five field filter spec classes. *)
Inductive FieldFilterSpec :=
  | Related (spec : RelatedFilterSpec)
  | Boolean (spec : BooleanFieldFilterSpec)
  | Choices (spec : ChoicesFilterSpec)
  | Date (spec : DateFieldFilterSpec)
  | AllValues (spec : AllValuesFilterSpec).

(** A registered test and a registered factory. A factory is called with
    the field, the request, the parameters, the model and the field path
    (the model admin, which no class reads, is left out). *)
Definition Test := Field → bool.
Definition Factory :=
  Field → Request → loc → Model → option string → M FieldFilterSpec.

(** The class attributes [field_filter_specs] and [_high_priority_index] of
    [FieldFilterSpec]. *)
Record Registry := {
  field_filter_specs : list (Test * Factory);
  high_priority_index : nat;
}.

(** The attributes as the class statement leaves them (lines 60-61). *)
Definition empty_registry : Registry :=
  {| field_filter_specs := []; high_priority_index := 0 |}.

(** [l.insert(i, x)] *)
Definition list_insert_at {A} (i : nat) (x : A) (l : list A) : list A :=
  take i l ++ x :: drop i l.

(** [FieldFilterSpec.register] (lines 76-82), called on the class
    [FieldFilterSpec] itself, as the module does. *)
Definition register (cls : Registry) (test : Test) (factory : Factory)
    (high_priority : bool) : Registry :=
  if high_priority then
    {| field_filter_specs :=
         list_insert_at (high_priority_index cls) (test, factory)
           (field_filter_specs cls);
       high_priority_index := high_priority_index cls + 1 |}
  else
    {| field_filter_specs := field_filter_specs cls ++ [(test, factory)];
       high_priority_index := high_priority_index cls |}.

(** The loop of [FieldFilterSpec.create] (lines 85-88); falling off its end
    returns [None]. *)
Fixpoint create_loop (specs : list (Test * Factory)) (f : Field)
    (request : Request) (params : loc) (model : Model)
    (field_path : option string) : M (option FieldFilterSpec) :=
  match specs with
  | [] => mret None
  | (test, factory) :: specs' =>
      if test f
      then spec ← factory f request params model field_path; mret (Some spec)
      else create_loop specs' f request params model field_path
  end.

(** [FieldFilterSpec.create] (lines 84-89). *)
Definition create (cls : Registry) (f : Field) (request : Request)
    (params : loc) (model : Model) (field_path : option string)
    : M (option FieldFilterSpec) :=
  create_loop (field_filter_specs cls) f request params model field_path.

(** The tests and factories of the five module-level calls of [register]
    (lines 148-150, 177-179, 199, 240-241 and 296). *)
Definition related_test : Test :=
  λ f, has_rel f && f_rel f || is_RelatedObject f.
Definition boolean_test : Test :=
  λ f, is_BooleanField f || is_NullBooleanField f.
Definition choices_test : Test := λ f, f_choices f.
Definition date_test : Test := λ f, is_DateField f.
Definition all_values_test : Test := λ f, true.

Definition related_factory : Factory :=
  λ f request params model field_path,
    mret (Related (RelatedFilterSpec_init f request params model field_path)).
Definition boolean_factory : Factory :=
  λ f request params model field_path,
    mret (Boolean
            (BooleanFieldFilterSpec_init f request params model field_path)).
Definition choices_factory : Factory :=
  λ f request params model field_path,
    mret (Choices (ChoicesFilterSpec_init f request params model field_path)).
Definition date_factory : Factory :=
  λ f request params model field_path,
    spec ← DateFieldFilterSpec_init f request params model field_path;
    mret (Date spec).
Definition all_values_factory : Factory :=
  λ f request params model field_path,
    mret (AllValues
            (AllValuesFilterSpec_init f request params model field_path)).

(** The registry once the module is loaded. *)
Definition builtin_registry : Registry :=
  let cls := empty_registry in
  let cls := register cls related_test related_factory false in
  let cls := register cls boolean_test boolean_factory false in
  let cls := register cls choices_test choices_factory false in
  let cls := register cls date_test date_factory false in
  register cls all_values_test all_values_factory false.

End WithFramework.

(** ** The query-string dictionary, as the specification words it *)

(** [k] starts with some element of [remove]. *)
Definition starts_with_any (remove : list string) (k : string) : bool :=
  existsb (Py.startswith k) remove.

(** The effect of [new_params] on one key: [None] deletes it, another value
    sets it, and a key that [new_params] does not have is kept. *)
Definition apply_new_param (nv ov : option pyval) : option pyval :=
  match nv with
  | Some PNone => None
  | Some v => Some v
  | None => ov
  end.

Definition query_string_dict (d new_params : gmap string pyval)
    (remove : list string) : gmap string pyval :=
  merge apply_new_param new_params
    (filter (λ kv, starts_with_any remove kv.1 = false) d).

(** ** The lookup parameters, as the specification words them *)

Definition control_params : list string := ["all"; "o"; "ot"; "q"; "pop"].

(** The value that goes to the ORM for a key and its query-string value:
    the list of the comma-separated parts for a key that ends in [__in], a
    boolean for a key that ends in [__isnull] ([False] when the lowercased
    text is empty or [false]), and the value itself for another key. *)
Definition lookup_value (key : string) (value : pyval) : pyval :=
  match value with
  | PStr s =>
      if Py.endswith key "__in" then PList (Py.split "," s)
      else if Py.endswith key "__isnull"
      then PBool (negb (bool_decide (Py.lower s ∈ [""; "false"])))
      else value
  | _ => value
  end.

(** The lookup parameters of a query string [d]. *)
Definition lookup_params_of (d : gmap string pyval) : gmap string pyval :=
  map_imap (λ k v, Some (lookup_value k v))
    (filter (λ kv, kv.1 ∉ control_params) d).

(** The values of a query string are text. *)
Definition is_text (v : pyval) : bool :=
  match v with PStr _ => true | _ => false end.
Definition text_values (d : gmap string pyval) : Prop :=
  map_Forall (λ _ v, is_text v = true) d.

(** The key that the loop over the lookup parameters leaves in [key]. *)
Definition leftover_key (d : gmap string pyval) : string :=
  List.last (map_to_list (filter (λ kv, kv.1 ∉ control_params) d)).*1 "".

Section Specification.
Context `{F : Framework}.

(** Every key is a [str] already or is left as it is by [smart_str], which
    is so for the keys of ASCII text. *)
Definition plain_keys (d : gmap string pyval) : Prop :=
  map_Forall (λ k _, is_str k || bool_decide (smart_str k = k) = true) d.

(** What one turn of the loop of lines 200-216 does to the dictionary, for a
    key whose value is the text [s]. *)
Definition normalise_step (key s : string) (d : gmap string pyval)
    : gmap string pyval :=
  let d := if is_str key then d
           else <[smart_str key := PStr s]> (delete key d) in
  let d := if Py.endswith key "__in"
           then <[key := PList (Py.split "," s)]> d else d in
  if Py.endswith key "__isnull"
  then <[key := PBool (negb (bool_decide (Py.lower s ∈ [""; "false"])))]> d
  else d.

(** The dictionary after the turns for [items]. *)
Definition normalise_steps (items : list (string * pyval))
    (d : gmap string pyval) : gmap string pyval :=
  foldl (λ d kv, match kv.2 with
                 | PStr s => normalise_step kv.1 s d
                 | _ => d
                 end) d items.

(** The loop over the filter specs (lines 219-233) as a function of what
    [self.params] holds ([d]), of [key] and of the working query set: the
    exception it raises, or the query set it ends with and the parameters
    consumed by the specs that returned a new query set. *)
Fixpoint filter_specs_result (self : ChangeList) (d : gmap string pyval)
    (key : string) (qs : QuerySet) (specs : list FilterSpec)
    : exn + (QuerySet * list string) :=
  match specs with
  | [] => inr (qs, [])
  | filter_spec :: specs' =>
      match fs_get_query_set filter_spec d qs with
      | inl e => inl e
      | inr new_qs =>
          if lookup_allowed (model_admin self) key then
            match new_qs with
            | ReturnsQuerySet new_qs =>
                match filter_specs_result self d key new_qs specs' with
                | inl e => inl e
                | inr (qs', consumed) =>
                    inr (qs', fs_consumed_params filter_spec ++ consumed)
                end
            | ReturnsNone | ReturnsFalse =>
                filter_specs_result self d key qs specs'
            end
          else inl (SuspiciousOperation
                      ("Filtering by " +:+ key +:+ " not allowed"))
      end
  end.

(** The lookup that a search field stands for, by its first character. *)
Definition search_lookup (field_name : string) : string :=
  match field_name with
  | String "^" rest => rest +:+ "__istartswith"
  | String "=" rest => rest +:+ "__iexact"
  | String "@" rest => rest +:+ "__search"
  | _ => field_name +:+ "__icontains"
  end.

(** The query for one word: the OR, from the left, of one [Q] object per
    search field. *)
Definition word_query (fields : list string) (word : string) : option Q :=
  match fields with
  | [] => None
  | field_name :: fields' =>
      Some (foldl
              (λ q field_name, QOr q (QLookup (search_lookup field_name) word))
              (QLookup (search_lookup field_name) word) fields')
  end.

(** One [filter] per word, in order; the first exception ends it. *)
Fixpoint filter_words (fields words : list string) (qs : QuerySet)
    : exn + QuerySet :=
  match words with
  | [] => inr qs
  | word :: words' =>
      match word_query fields word with
      | None => inl (OtherError "TypeError")
      | Some q =>
          match qs_filter qs [q] ∅ with
          | inl e => inl e
          | inr qs' => filter_words fields words' qs'
          end
      end
  end.

(** The search as a whole: the filters, then [distinct] once when some
    search field has [__] in its name. *)
Definition searched (fields : list string) (query : string) (qs : QuerySet)
    : exn + QuerySet :=
  match filter_words fields (Py.split_ws query) qs with
  | inl e => inl e
  | inr qs' =>
      inr (if existsb (Py.contains "__") fields then qs_distinct qs' else qs')
  end.

(** The number of results with the admin filters applied, and whether
    [get_results] shows them all on one page. *)
Definition filtered_count (self : ChangeList) : Z :=
  count (get_paginator (model_admin self) (query_set self)
           (list_per_page self)).
Definition shows_full_result (self : ChangeList) : bool :=
  show_all self && bool_decide (filtered_count self ≤ 200)%Z
  || bool_decide (filtered_count self ≤ list_per_page self)%Z.



(** The name to order by for a column of [list_display]: the name of the
    model field it names; otherwise the [admin_order_field] of the callable,
    of the attribute of the model admin with that name or, when the model
    admin has none, of the attribute of the model. *)
Definition column_order_name (self : ChangeList) (col : Column)
    : option string :=
  match col with
  | ColumnCallable a => admin_order_field a
  | ColumnName name =>
      match get_field (lookup_opts self) name with
      | Some f => Some (f_name f)
      | None =>
          match ma_getattr (model_admin self) name with
          | Some a => admin_order_field a
          | None => a ← m_getattr (model self) name; admin_order_field a
          end
      end
  end.

(** The ordering entry for one comma-separated part [p] of the [o]
    parameter: the part after the last [-] is the index, a [-] in [p] is the
    prefix; [None] when the part is skipped. *)
Definition order_entry (self : ChangeList) (p : string) : option string :=
  let '(_, pfx, idx) := Py.rpartition "-" p in
  n ← Py.int idx;
  col ← list_display self !! Z.to_nat n;
  name ← column_order_name self col;
  Some (pfx +:+ name).

(** The class of a field filter spec. *)
Inductive spec_class :=
  | RelatedClass
  | BooleanClass
  | ChoicesClass
  | DateClass
  | AllValuesClass.


(** The class that the built-in registrations give to a field. *)
Definition builtin_class (f : Field) : spec_class :=
  if has_rel f && f_rel f || is_RelatedObject f then RelatedClass
  else if is_BooleanField f || is_NullBooleanField f then BooleanClass
  else if f_choices f then ChoicesClass
  else if is_DateField f then DateClass
  else AllValuesClass.

(** A sequence of calls of [register], each a test, a factory and the
    priority flag. *)
Definition register_all (regs : list (Test * Factory * bool))
    (cls : Registry) : Registry :=
  foldl (λ cls r, register cls r.1.1 r.1.2 r.2) cls regs.


(** What a choice shows and whether it is selected. *)
Definition flag (c : Choice) : string * bool := (display c, selected c).

(** A lookup parameter is not in the request; it is not in the request or
    is empty. *)
Definition absent (v : option string) : bool := bool_decide (v = None).
Definition unset (v : option string) : bool := negb (truthy_opt v).

(** The choices of a [RelatedFilterSpec]: [All], selected when the exact
    lookup is absent and the null lookup is unset; one choice per related
    object, selected when the exact lookup is its stringified key; and, for
    a nullable relation, the empty choice, selected when the null lookup is
    set. *)
Definition related_flags (self : RelatedFilterSpec) : list (string * bool) :=
  (ugettext "All",
   absent (rel_lookup_val self) && unset (rel_lookup_val_isnull self))
  :: ((λ c : pyval * string,
         (c.2, bool_decide (rel_lookup_val self = Some (smart_unicode c.1))))
      <$> rel_lookup_choices self)
  ++ (if nullable_relation (rel_field self)
      then [("(None)", truthy_opt (rel_lookup_val_isnull self))]
      else []).

(** The choices of a [BooleanFieldFilterSpec]: [All], [Yes] and [No],
    selected when the exact lookup is absent, [1] and [0] respectively and
    the null lookup is unset; and, for a [NullBooleanField], [Unknown],
    selected when the null lookup is the text [True]. *)
Definition boolean_flags (self : BooleanFieldFilterSpec)
    : list (string * bool) :=
  [(ugettext "All",
    absent (bool_lookup_val self) && unset (bool_lookup_val2 self));
   (ugettext "Yes",
    bool_decide (bool_lookup_val self = Some "1")
    && unset (bool_lookup_val2 self));
   (ugettext "No",
    bool_decide (bool_lookup_val self = Some "0")
    && unset (bool_lookup_val2 self))]
  ++ (if is_NullBooleanField (bool_field self)
      then [(ugettext "Unknown",
             bool_decide (bool_lookup_val2 self = Some "True"))]
      else []).


(** The choices of an [AllValuesFilterSpec]: [All], selected when both
    lookups are absent; one choice per database value other than [None],
    selected when the lookup is its stringified value; and, when [None] is
    among the values, the empty choice, selected when the null lookup is
    set. *)
Definition all_values_flags (self : AllValuesFilterSpec)
    : list (string * bool) :=
  (ugettext "All",
   absent (all_lookup_val self) && absent (all_lookup_val_isnull self))
  :: ((λ v : pyval,
         (smart_unicode v,
          bool_decide (all_lookup_val self = Some (smart_unicode v))))
      <$> List.filter (λ v, negb (bool_decide (v = PNone)))
            (all_lookup_choices self))
  ++ (if bool_decide (PNone ∈ all_lookup_choices self)
      then [("(None)", truthy_opt (all_lookup_val_isnull self))]
      else []).

End Specification.

(** ** A framework to run the model on

    Query sets are the terms built from the calls made on them, so that a
    run shows which ORM calls the code made and with which arguments.
    [filter] refuses a keyword whose field name is not in [fields] (a
    [FieldError]). The keys of a request are [unicode] objects of ASCII
    text: none is a [str], and [smart_str] gives the [str] of the same
    text, which is the same dictionary key. *)
Module Sym.

Inductive qs :=
  | Root (fields : list string) (rows : Z)
  | Filter (q : qs) (args : list Q) (kwargs : list (string * pyval))
  | OrderBy (q : qs) (fields : list string)
  | SelectRelated (q : qs)
  | Distinct (q : qs)
  | Clone (q : qs)
  | Slice (q : qs) (bottom top : Z).

Fixpoint fields_of (q : qs) : list string :=
  match q with
  | Root fields _ => fields
  | Filter q _ _ | OrderBy q _ | SelectRelated q | Distinct q | Clone q
  | Slice q _ _ => fields_of q
  end.

Fixpoint rows_of (q : qs) : Z :=
  match q with
  | Root _ rows => rows
  | Filter q _ _ | OrderBy q _ | SelectRelated q | Distinct q | Clone q
  | Slice q _ _ => rows_of q
  end.

Fixpoint has_where (q : qs) : bool :=
  match q with
  | Root _ _ => false
  | Filter q args kwargs =>
      has_where q || Py.truthy_list args || Py.truthy_list kwargs
  | OrderBy q _ | SelectRelated q | Distinct q | Clone q | Slice q _ _ =>
      has_where q
  end.

Fixpoint has_select_related (q : qs) : bool :=
  match q with
  | Root _ _ => false
  | SelectRelated _ => true
  | Filter q _ _ | OrderBy q _ | Distinct q | Clone q | Slice q _ _ =>
      has_select_related q
  end.

(** The field a lookup keyword names: the text before the first [__]. *)
Fixpoint field_of (lookup : string) : string :=
  match lookup with
  | "" => ""
  | String a s' =>
      if String.prefix "__" lookup then "" else String a (field_of s')
  end.

Definition filter (q : qs) (args : list Q) (kwargs : gmap string pyval)
    : exn + qs :=
  if forallb (λ kv, bool_decide (field_of kv.1 ∈ fields_of q))
       (map_to_list kwargs)
  then inr (Filter q args (map_to_list kwargs))
  else inl (OtherError "FieldError").

Definition show (v : pyval) : string :=
  match v with
  | PNone => "None"
  | PBool true => "True"
  | PBool false => "False"
  | PInt z => pretty z
  | PStr s => s
  | PList l => String.concat "," l
  end.

(** [k1=v1&k2=v2...], without quoting. *)
Definition encode (d : gmap string pyval) : string :=
  String.concat "&" ((λ kv, kv.1 +:+ "=" +:+ show kv.2) <$> map_to_list d).

Definition framework : Framework := {|
  QuerySet := qs;
  qs_filter := filter;
  qs_order_by := OrderBy;
  qs_select_related := SelectRelated;
  qs_distinct := Distinct;
  qs_count := rows_of;
  qs_clone := Clone;
  query_where := has_where;
  query_select_related := has_select_related;
  urlencode := encode;
  is_str := λ _, false;
  smart_str := λ k, k;
  smart_unicode := show;
  ugettext := λ s, s;
|}.

End Sym.

(** ** The change lists of the regression tests

    The models and admins of [regressiontests/admin_filterspecs/tests.py], on
    the framework [Sym]. *)
Module Demo.

#[local] Existing Instance Sym.framework.

Definition plain_field (name : string) : Field :=
  {| f_name := name; f_var_name := name; f_verbose_name := name;
     is_RelatedObject := false; has_rel := true; f_rel := false;
     rel_is_ManyToOneRel := false; f_null := false; f_field_null := false;
     is_BooleanField := false; is_NullBooleanField := false;
     is_DateField := false; is_DateTimeField := false;
     is_ManyToManyField := false; f_choices := false; f_flatchoices := [];
     f_get_choices := []; other_verbose_name := ""; other_pk_name := "" |}.

(** [Book.year], an [IntegerField] that can be null. *)
Definition year : Field :=
  {| f_name := "year"; f_var_name := "year"; f_verbose_name := "year";
     is_RelatedObject := false; has_rel := true; f_rel := false;
     rel_is_ManyToOneRel := false; f_null := true; f_field_null := false;
     is_BooleanField := false; is_NullBooleanField := false;
     is_DateField := false; is_DateTimeField := false;
     is_ManyToManyField := false; f_choices := false; f_flatchoices := [];
     f_get_choices := []; other_verbose_name := ""; other_pk_name := "" |}.

(** [Book.author], a [ForeignKey] to [User] that can be null. *)
Definition author : Field :=
  {| f_name := "author"; f_var_name := "author"; f_verbose_name := "author";
     is_RelatedObject := false; has_rel := true; f_rel := true;
     rel_is_ManyToOneRel := true; f_null := true; f_field_null := false;
     is_BooleanField := false; is_NullBooleanField := false;
     is_DateField := false; is_DateTimeField := false;
     is_ManyToManyField := false; f_choices := false; f_flatchoices := [];
     f_get_choices := [(PInt 1, "alfred"); (PInt 2, "bob"); (PInt 3, "lisa")];
     other_verbose_name := "user"; other_pk_name := "id" |}.

(** [BoolTest.completed], a [BooleanField]. *)
Definition completed : Field :=
  {| f_name := "completed"; f_var_name := "completed";
     f_verbose_name := "completed";
     is_RelatedObject := false; has_rel := true; f_rel := false;
     rel_is_ManyToOneRel := false; f_null := false; f_field_null := false;
     is_BooleanField := true; is_NullBooleanField := false;
     is_DateField := false; is_DateTimeField := false;
     is_ManyToManyField := false; f_choices := false; f_flatchoices := [];
     f_get_choices := []; other_verbose_name := ""; other_pk_name := "" |}.

Definition book_opts : Options :=
  {| opts_ordering := Some [];
     pk_name := "id";
     get_field := λ name,
       if String.eqb name "year" then Some year
       else if String.eqb name "author" then Some author
       else if bool_decide (name ∈ ["id"; "title"])
            then Some (plain_field name)
            else None |}.

Definition Book : Model :=
  {| m_getattr := λ _, None;
     m_values_list := λ field_path,
       if String.eqb field_path "year"
       then [PNone; PInt 1999; PInt 2002] else [] |}.

Definition books : Sym.qs :=
  Sym.Root ["id"; "title"; "year"; "author"; "contributors"] 3.

(** [django.core.paginator.Paginator] over a symbolic query set. *)
Definition paginate (object_list : Sym.qs) (per_page : Z)
    : @Paginator Sym.framework :=
  let count := Sym.rows_of object_list in
  {| count := count;
     page := λ number,
       (if (number <? 1)%Z then inl EmptyPage
        else if ((number - 1) * per_page <? Z.max count 1)%Z
             then inr (Sym.Slice object_list ((number - 1) * per_page)
                         (Z.min (number * per_page) count))
             else inl EmptyPage) : exn + Sym.qs |}.

Definition BookAdmin : @ModelAdmin Sym.framework :=
  {| ma_ordering := None;
     lookup_allowed := λ _, true;
     get_paginator := paginate;
     ma_getattr := λ _, None |}.

(** [return qs.filter(...)] in a filter spec. *)
Definition return_filter (r : exn + Sym.qs)
    : exn + @spec_result Sym.framework :=
  match r with
  | inl e => inl e
  | inr qs => inr (ReturnsQuerySet qs)
  end.

(** [DjangoBookFilterSpec] (tests.py, lines 227-256). *)
Definition DjangoBookFilterSpec : @FilterSpec Sym.framework :=
  {| fs_get_query_set := λ params qs,
       if bool_decide (is_Some (params !! "about_django"))
       then return_filter
              (Sym.filter qs [] {["title__icontains" := PStr "django"]})
       else if bool_decide (is_Some (params !! "about_jazz"))
       then return_filter
              (Sym.filter qs [] {["title__icontains" := PStr "gypsy"]})
       else inr (ReturnsQuerySet qs);
     fs_consumed_params := ["about_django"; "about_music"; ""] |}.

(** The change list of a [BookAdmin] whose [params] is the dictionary at
    reference [0]. *)
Definition book_changelist (filter_specs : list (@FilterSpec Sym.framework))
    : @ChangeList Sym.framework :=
  {| model := Book;
     lookup_opts := book_opts;
     root_query_set := books;
     list_display := [ColumnName "__str__"];
     search_fields := [];
     list_select_related := false;
     list_per_page := 100;
     model_admin := BookAdmin;
     page_num := 0;
     show_all := false;
     params := 0;
     filter_specs := filter_specs;
     ordering := ["-id"];
     query := "";
     query_set := books |}.

(** [BoolTest] and the change list of its admin. *)
Definition BoolTest : Model :=
  {| m_getattr := λ _, None; m_values_list := λ _, [] |}.

Definition booltest_opts : Options :=
  {| opts_ordering := Some [];
     pk_name := "id";
     get_field := λ name,
       if String.eqb name "completed" then Some completed
       else if String.eqb name "id" then Some (plain_field name)
       else None |}.

Definition booltests : Sym.qs := Sym.Root ["id"; "completed"] 2.

Definition booltest_changelist : @ChangeList Sym.framework :=
  {| model := BoolTest;
     lookup_opts := booltest_opts;
     root_query_set := booltests;
     list_display := [ColumnName "__str__"];
     search_fields := [];
     list_select_related := false;
     list_per_page := 100;
     model_admin := BookAdmin;
     page_num := 0;
     show_all := false;
     params := 0;
     filter_specs := [base_FilterSpec];
     ordering := ["-id"];
     query := "";
     query_set := booltests |}.

(** A model of people and its admin. The change list has a column for a
    model field, a column for the method [colored_name] of the model admin,
    which orders by [last_name], a column for a method without
    [admin_order_field] and a callable that orders by [birthday]; the admin
    allows no lookup on the password. *)
Definition Person : Model :=
  {| m_getattr := λ _, None; m_values_list := λ _, [] |}.

Definition person_opts : Options :=
  {| opts_ordering := Some ["last_name"];
     pk_name := "id";
     get_field := λ name,
       if bool_decide (name ∈ ["id"; "first_name"; "last_name"; "birthday"])
       then Some (plain_field name) else None |}.

Definition PersonAdmin : @ModelAdmin Sym.framework :=
  {| ma_ordering := None;
     lookup_allowed := λ key, negb (Py.startswith key "password");
     get_paginator := paginate;
     ma_getattr := λ name,
       if String.eqb name "colored_name"
       then Some {| admin_order_field := Some "last_name" |}
       else if String.eqb name "initials"
       then Some {| admin_order_field := None |}
       else None |}.

Definition people : Sym.qs :=
  Sym.Root ["id"; "first_name"; "last_name"; "birthday"; "password"] 450.

Definition person_changelist (filter_specs : list (@FilterSpec Sym.framework))
    (query_set : Sym.qs) (show_all : bool) (page_num : Z)
    : @ChangeList Sym.framework :=
  {| model := Person;
     lookup_opts := person_opts;
     root_query_set := people;
     list_display :=
       [ColumnName "first_name"; ColumnName "colored_name";
        ColumnName "initials";
        ColumnCallable {| admin_order_field := Some "birthday" |}];
     search_fields := ["^first_name"; "=last_name"; "family__name"];
     list_select_related := false;
     list_per_page := 100;
     model_admin := PersonAdmin;
     page_num := page_num;
     show_all := show_all;
     params := 0;
     filter_specs := filter_specs;
     ordering := ["last_name"];
     query := "ada  lovelace";
     query_set := query_set |}.

(** The store of a request with the given query string. *)
Definition store (params : gmap string pyval) : heap := {[ 0 := params ]}.

(** The query string of the request [?year__isnull=True&o=1]. *)
Definition request_year_isnull : gmap string pyval :=
  {[ "year__isnull" := PStr "True"; "o" := PStr "1" ]}.


(** The request [?about_django=1&year__isnull=&id__in=1,2&o=1&all=]. *)
Definition request_lookups : gmap string pyval :=
  {[ "about_django" := PStr "1"; "year__isnull" := PStr "";
     "id__in" := PStr "1,2"; "o" := PStr "1"; "all" := PStr "" ]}.

(** The request [?last_name=ada&password__startswith=a]. *)
Definition request_password : gmap string pyval :=
  {[ "password__startswith" := PStr "a"; "last_name" := PStr "ada" ]}.

(** The request [?o=1]. *)
Definition request_order : gmap string pyval := {[ "o" := PStr "1" ]}.

(** The request [?completed__exact=1&completed__isnull=True], and the filter
    spec of [BoolTest.completed] for it. *)
Definition request_completed : Request :=
  {| GET := {[ "completed__exact" := "1"; "completed__isnull" := "True" ]} |}.

Definition completed_spec : BooleanFieldFilterSpec :=
  BooleanFieldFilterSpec_init completed request_completed 0 BoolTest None.

End Demo.

(** ** The rest of the change list (main.py) *)

Section MoreChangeList.
Context `{F : Framework}.

(** [d[k] = v] on a [SortedDict], the items in the order in which their keys
    were first set: a key that is there keeps its place. *)
Fixpoint sorted_dict_set (k v : string) (d : list (string * string))
    : list (string * string) :=
  match d with
  | [] => [(k, v)]
  | (k', v') :: d' =>
      if String.eqb k' k then (k', v) :: d'
      else (k', v') :: sorted_dict_set k v d'
  end.

(** [ChangeList.get_ordering_fields] (main.py, lines 185-191). *)
Definition get_ordering_fields (self : ChangeList) : list (string * string) :=
  foldl (λ ordering_fields o,
           let '(none, t, f) := Py.rpartition "-" o in
           sorted_dict_set f (if String.eqb t "-" then "desc" else "asc")
             ordering_fields)
    [] (ordering self).


(** Lines 46-49 of [ChangeList.__init__]: the page number, 0 when the
    request has none or [int] raises [ValueError]. *)
Definition init_page_num (request : Request) : Z :=
  match GET request !! PAGE_VAR with
  | None => 0
  | Some p =>
      match Py.int p with
      | Some n => n
      | None => 0
      end
  end.

(** Lines 50-52 of [ChangeList.__init__]. *)
Definition init_show_all (request : Request) : bool :=
  bool_decide (is_Some (GET request !! ALL_VAR)).
Definition init_is_popup (request : Request) : bool :=
  bool_decide (is_Some (GET request !! IS_POPUP_VAR)).
Definition init_to_field (request : Request) : option string :=
  GET request !! TO_FIELD_VAR.

(** [dict(items)]: a new object. *)
Definition dict_new (items : gmap string pyval) : M loc :=
  λ h, let l := fresh (dom h) in (inr l, <[l := items]> h).

(** Lines 53-59 of [ChangeList.__init__]: [self.params]. *)
Definition init_params (request : Request) : M loc :=
  params ← dict_new (PStr <$> GET request);
  (b ← dict_contains params PAGE_VAR;
   if b : bool then dict_del params PAGE_VAR else mret ());;
  (b ← dict_contains params TO_FIELD_VAR;
   if b : bool then dict_del params TO_FIELD_VAR else mret ());;
  (b ← dict_contains params ERROR_FLAG;
   if b : bool then dict_del params ERROR_FLAG else mret ());;
  mret params.

(** Lines 61-64 of [ChangeList.__init__]. *)
Definition init_list_editable (is_popup : bool) (list_editable : list string)
    : list string :=
  if is_popup then [] else list_editable.

(** The request that a browser sends for a link of the change list: the keys
    of the dictionary that [get_query_string] encoded, each with the text of
    its value. *)
Definition request_of_link (p : gmap string pyval) : Request :=
  {| GET := smart_unicode <$> p |}.

(** ** The links of a [DateFieldFilterSpec] (filterspecs.py) *)

(** What [DateFieldFilterSpec.__init__] takes from the clock (lines 213-217):
    the texts [str(today.year)], [str(today.month)] and [str(today.day)],
    and the dates of today and of one week ago in the format [%Y-%m-%d]. *)
Record Today := {
  today_year : string;
  today_month : string;
  today_day : string;
  today_date : string;
  one_week_ago_date : string;
}.

(** [self.links] (lines 215-230) for the day the filter spec is made. *)
Definition DateFieldFilterSpec_links (self : DateFieldFilterSpec)
    (today : Today) : list (string * gmap string pyval) :=
  let field_path := date_field_path self in
  let today_str :=
    if is_DateTimeField (date_field self)
    then today_date today +:+ " 23:59:59"
    else today_date today in
  [ (ugettext "Any date", ∅);
    (ugettext "Today",
     {[ field_path +:+ "__year" := PStr (today_year today);
        field_path +:+ "__month" := PStr (today_month today);
        field_path +:+ "__day" := PStr (today_day today) ]});
    (ugettext "Past 7 days",
     {[ field_path +:+ "__gte" := PStr (one_week_ago_date today);
        field_path +:+ "__lte" := PStr today_str ]});
    (ugettext "This month",
     {[ field_path +:+ "__year" := PStr (today_year today);
        field_path +:+ "__month" := PStr (today_month today) ]});
    (ugettext "This year",
     {[ field_path +:+ "__year" := PStr (today_year today) ]}) ].

(** [DateFieldFilterSpec.choices] (lines 232-238). *)
Definition DateFieldFilterSpec_choices (self : DateFieldFilterSpec)
    (today : Today) (cl : ChangeList) : M (list Choice) :=
  for_yield (DateFieldFilterSpec_links self today) (λ '(title, param_dict),
    q ← get_query_string cl (Some param_dict) (Some [field_generic self]);
    mret {| selected := bool_decide (date_params self = param_dict);
            query_string := q;
            display := title |}).

(** ** [ChangeList.get_filters] (main.py, lines 73-93) *)

(** A filter spec as [get_filters] sees it: an instance of one of the five
    field filter spec classes, or of another subclass of [FilterSpec], of
    which the loop reads [has_output()]. An instance is true: [FilterSpec]
    defines neither [__len__] nor [__nonzero__]. *)
Inductive SpecObject :=
  | FieldSpec (spec : FieldFilterSpec)
  | OtherSpec (spec : FilterSpec) (has_output : bool).

(** [spec.has_output()]: [RelatedFilterSpec] has its own, the other field
    filter specs inherit [FilterSpec.has_output], which returns [True]. *)
Definition SpecObject_has_output (spec : SpecObject) : bool :=
  match spec with
  | FieldSpec (Related spec) => RelatedFilterSpec_has_output spec
  | FieldSpec _ => true
  | OtherSpec _ has_output => has_output
  end.

(** What [list_filter] names a field by: a field path, which is text, or an
    instance of [models.Field]. *)
Inductive FieldRef :=
  | FieldPath (field_path : string)
  | FieldInstance (f : Field).

(** An item of [list_filter]: a callable, called with the request, the
    parameters and the model; a pair of a field and a factory; or a field
    alone. A callable returns a filter spec or [None]. *)
Inductive ListFilterItem :=
  | ItemCallable (item : Request → loc → Model → M (option SpecObject))
  | ItemPair (field : FieldRef)
      (factory : Field → Request → loc → Model → option string
                 → M (option SpecObject))
  | ItemField (field : FieldRef).

Section GetFilters.

(** [django.contrib.admin.util.get_fields_from_path] *)
Variable get_fields_from_path : Model → string → exn + list Field.

(** Lines 85-87: the field and the field path of a field of [list_filter];
    [[-1]] raises [IndexError] on an empty list. *)
Definition resolve_field (model : Model) (field : FieldRef)
    : M (Field * option string) :=
  match field with
  | FieldInstance f => mret (f, None)
  | FieldPath field_path =>
      fields ← lift (get_fields_from_path model field_path);
      match last fields with
      | Some f => mret (f, Some field_path)
      | None => raise (OtherError "IndexError")
      end
  end.

(** Lines 77-89: the filter spec for an item. The unpacking of line 82 fails
    on a field instance and on text that does not have two characters; on
    text of two characters it gives the first character as the field and
    the second as the factory, and the call of line 88 raises [TypeError]. *)
Definition make_spec (cls : Registry) (self : ChangeList) (request : Request)
    (item : ListFilterItem) : M (option SpecObject) :=
  match item with
  | ItemCallable item => item request (params self) (model self)
  | ItemPair field factory =>
      '(field, field_path) ← resolve_field (model self) field;
      factory field request (params self) (model self) field_path
  | ItemField (FieldPath (String a (String b ""))) =>
      '(field, field_path) ←
        resolve_field (model self) (FieldPath (String a ""));
      raise (OtherError "TypeError")
  | ItemField field =>
      '(field, field_path) ← resolve_field (model self) field;
      spec ← create cls field request (params self) (model self) field_path;
      mret (FieldSpec <$> spec)
  end.

(** One turn of the loop (lines 76-92). *)
Definition get_filters_step (cls : Registry) (self : ChangeList)
    (request : Request) (filter_specs : list SpecObject)
    (item : ListFilterItem) : M (list SpecObject) :=
  spec ← make_spec cls self request item;
  match spec with
  | Some spec =>
      if SpecObject_has_output spec then mret (filter_specs ++ [spec])
      else mret filter_specs
  | None => mret filter_specs
  end.

(** [ChangeList.get_filters], for the class attributes [cls] of
    [FieldFilterSpec] and the [list_filter] of the change list. *)
Definition get_filters (cls : Registry) (list_filter : list ListFilterItem)
    (self : ChangeList) (request : Request) : M (list SpecObject * bool) :=
  filter_specs ← for_fold list_filter []
                   (get_filters_step cls self request);
  mret (filter_specs, Py.truthy_list filter_specs).

End GetFilters.


End MoreChangeList.

(** The parameters of a request that are no lookups: those that
    [ChangeList.__init__] and [get_query_set] take out. *)
Definition request_params : list string := ["p"; "t"; "e"].
Definition reserved_params : list string :=
  ["p"; "t"; "e"; "all"; "o"; "ot"; "q"; "pop"].

(** ** More objects to run the model on *)

Module Examples.

#[local] Existing Instance Sym.framework.

(** [get_fields_from_path] for the paths that name a field of [Book]. *)
Definition get_fields_from_path (model : Model) (path : string)
    : exn + list Field :=
  match get_field Demo.book_opts path with
  | Some f => inr [f]
  | None => inl (OtherError "FieldDoesNotExist")
  end.

(** A [DateField] named [pub_date]. *)
Definition pub_date : Field :=
  {| f_name := "pub_date"; f_var_name := "pub_date";
     f_verbose_name := "publication date";
     is_RelatedObject := false; has_rel := true; f_rel := false;
     rel_is_ManyToOneRel := false; f_null := false; f_field_null := false;
     is_BooleanField := false; is_NullBooleanField := false;
     is_DateField := true; is_DateTimeField := false;
     is_ManyToManyField := false; f_choices := false; f_flatchoices := [];
     f_get_choices := []; other_verbose_name := ""; other_pk_name := "" |}.

(** The 14th of March 2011. *)
Definition today : Today :=
  {| today_year := "2011"; today_month := "3"; today_day := "14";
     today_date := "2011-03-14"; one_week_ago_date := "2011-03-07" |}.

(** A date filter spec on [pub_date]. *)
Definition pub_date_spec : DateFieldFilterSpec :=
  {| date_params_ref := 0;
     date_field := pub_date;
     date_field_path := "pub_date";
     field_generic := "pub_date__";
     date_params := ∅ |}.

(** The [list_filter] of [BookAdmin] in tests.py, without [contributors]. *)
Definition list_filter : list ListFilterItem :=
  [ItemField (FieldPath "year"); ItemField (FieldPath "author");
   ItemCallable
     (λ _ _ _, mret (Some (OtherSpec Demo.DjangoBookFilterSpec true)))].



(** The request [?p=2&all=&year=1999]. *)
Definition request_page : Request :=
  {| GET := {[ "p" := "2"; "all" := ""; "year" := "1999" ]} |}.

(** The parameters [?year__isnull=True&pub_date__gte=2011-01-01]. *)
Definition request_dates : gmap string pyval :=
  {[ "year__isnull" := PStr "True"; "pub_date__gte" := PStr "2011-01-01" ]}.

End Examples.

(** * Properties *)

Section Properties.
Context `{F : Framework}.

Ltac run :=
  repeat (progress (unfold mbind, M_bind, bind, mret, M_ret, ret, raise,
                      dict_keys, dict_items, dict_read, dict_contains,
                      dict_set, dict_copy;
                    cbn beta iota zeta)).

Lemma deref_insert (h : heap) l d : deref (<[l := d]> h) l = d.
Proof. unfold deref. by rewrite lookup_insert_eq. Qed.

Lemma deref_lookup (h : heap) l d : h !! l = Some d → deref h l = d.
Proof. unfold deref. by intros ->. Qed.

Lemma deref_insert_ne (h : heap) l l' d :
  l ≠ l' → deref (<[l := d]> h) l' = deref h l'.
Proof. intros. unfold deref. by rewrite lookup_insert_ne. Qed.

Lemma remove_prefix_run (p : loc) (r : string) (ks : list string)
    (d : gmap string pyval) (h : heap) :
  NoDup ks → (∀ k, k ∈ ks → is_Some (d !! k)) →
  for_each ks (λ k, if Py.startswith k r then dict_del p k else mret ())
    (<[p := d]> h)
  = (inr (),
     <[p := filter (λ kv, ¬ (kv.1 ∈ ks ∧ Py.startswith kv.1 r = true)) d]>
       h).
Proof.
  intros Hnd. revert d. induction Hnd as [|k ks Hk Hnd IH]; intros d Hin.
  - cbn. unfold ret. f_equal. f_equal. symmetry. apply map_filter_id.
    intros i x _ [Hi _]. cbn in Hi. set_solver.
  - cbn [for_each]. unfold mbind, M_bind, bind.
    destruct (Py.startswith k r) eqn:Hs.
    + unfold dict_del at 1. rewrite deref_insert.
      destruct (Hin k) as [v Hv]; [set_solver|]. rewrite Hv.
      rewrite insert_insert_eq. rewrite IH.
      2:{ intros k' Hk'. rewrite lookup_delete_ne; [apply Hin; set_solver|].
          intros ->. done. }
      f_equal. f_equal. apply map_eq. intros i.
      rewrite !map_lookup_filter.
      destruct (decide (i = k)) as [->|Hne].
      * rewrite lookup_delete_eq, Hv. cbn. rewrite option_guard_False; [done|].
        intros Hneg. apply Hneg. cbn. split; [set_solver|done].
      * rewrite lookup_delete_ne by done. destruct (d !! i) as [x|]; [|done].
        cbn. apply option_guard_iff. cbn. set_solver.
    + cbn. unfold ret. rewrite IH by (intros; apply Hin; set_solver).
      f_equal. f_equal. apply map_eq. intros i. rewrite !map_lookup_filter.
      destruct (d !! i) as [x|]; [|done]. cbn. apply option_guard_iff. cbn.
      split; intros Hn [Hi Hp]; apply Hn; [|set_solver].
      split; [|done]. apply elem_of_cons in Hi as [Hi|]; [|done].
      subst i. congruence.
Qed.

Lemma delete_prefixed_run (p : loc) (remove : list string)
    (d : gmap string pyval) (h : heap) :
  delete_prefixed p remove (<[p := d]> h)
  = (inr (), <[p := filter (λ kv, starts_with_any remove kv.1 = false) d]> h).
Proof.
  unfold delete_prefixed.
  revert d. induction remove as [|r remove IH]; intros d.
  - cbn. unfold ret. f_equal. f_equal. symmetry. by apply map_filter_id.
  - cbn [for_each]. run. rewrite deref_insert.
    rewrite remove_prefix_run.
    2:{ apply NoDup_fst_map_to_list. }
    2:{ intros k [v Hk]%list_elem_of_fmap. destruct Hk as [-> Hk].
        destruct v as [k' v]. apply elem_of_map_to_list in Hk. by exists v. }
    rewrite IH. f_equal. f_equal. apply map_eq. intros i.
    rewrite !map_lookup_filter. destruct (d !! i) as [x|] eqn:Hx; [|done].
    cbn. destruct (Py.startswith i r) eqn:Hs.
    + rewrite (option_guard_False (¬ _)); [|].
      2:{ intros Hn. apply Hn. split; [|done]. apply list_elem_of_fmap.
          exists (i, x). split; [done|]. by apply elem_of_map_to_list. }
      cbn. by rewrite option_guard_False.
    + rewrite (option_guard_True (¬ _)) by (intros [_ ?]; congruence). done.
Qed.

Lemma update_params_loop (p : loc) (l : list (string * pyval))
    (d : gmap string pyval) (h : heap) :
  NoDup l.*1 →
  for_each l (λ '(k, v),
    match v with
    | PNone =>
        b ← dict_contains p k;
        if b : bool then dict_del p k else mret ()
    | _ => dict_set p k v
    end) (<[p := d]> h)
  = (inr (), <[p := merge apply_new_param (list_to_map l) d]> h).
Proof.
  revert d. induction l as [|[k v] l IH]; intros d Hnd.
  - cbn. unfold ret. f_equal. f_equal. apply map_eq. intros i.
    rewrite lookup_merge, lookup_empty. by destruct (d !! i).
  - apply NoDup_cons in Hnd as [Hk Hnd]. cbn [for_each].
    assert (Hl : (list_to_map l : gmap string pyval) !! k = None).
    { by apply not_elem_of_list_to_map_1. }
    assert (∀ d1 : gmap string pyval,
      d1 !! k = apply_new_param (Some v) (d !! k) →
      (∀ i, i ≠ k → d1 !! i = d !! i) →
      merge apply_new_param (list_to_map l) d1
      = merge apply_new_param (list_to_map ((k, v) :: l)) d) as Hstep.
    { intros d1 Hd1 Hd1'. apply map_eq. intros i. rewrite !lookup_merge. cbn.
      destruct (decide (i = k)) as [->|Hne].
      - rewrite lookup_insert_eq, Hl, Hd1. cbn.
        by destruct v, (d !! k).
      - by rewrite lookup_insert_ne, Hd1'. }
    destruct v; run;
      try (rewrite deref_insert, insert_insert_eq, IH by done;
           f_equal; f_equal; apply Hstep;
           [by rewrite lookup_insert_eq
           |by intros; rewrite lookup_insert_ne]).
    rewrite deref_insert. case_bool_decide as Hk'.
    + unfold dict_del. rewrite deref_insert. destruct Hk' as [x Hx].
      rewrite Hx, insert_insert_eq, IH by done. f_equal. f_equal.
      apply Hstep; [by rewrite lookup_delete_eq
                   |by intros; rewrite lookup_delete_ne].
    + rewrite IH by done. f_equal. f_equal.
      apply Hstep; [|done]. cbn. by apply eq_None_not_Some.
Qed.

Lemma update_params_run (p : loc) (new_params d : gmap string pyval)
    (h : heap) :
  update_params p new_params (<[p := d]> h)
  = (inr (), <[p := merge apply_new_param new_params d]> h).
Proof.
  unfold update_params.
  rewrite update_params_loop by apply NoDup_fst_map_to_list.
  by rewrite list_to_map_to_list.
Qed.

Lemma get_query_string_run (self : ChangeList)
    (new_params : option (gmap string pyval)) (remove : option (list string))
    (h : heap) (d : gmap string pyval) :
  h !! params self = Some d →
  let p := query_string_dict d (default ∅ new_params) (default [] remove) in
  get_query_string self new_params remove h
  = (inr ("?" +:+ urlencode p), <[fresh (dom h) := p]> h)
  ∧ (<[fresh (dom h) := p]> h) !! params self = Some d.
Proof.
  intros Hd p.
  assert (Hfresh : fresh (dom h) ≠ params self).
  { intros Heq. apply (is_fresh (dom h)). rewrite Heq.
    apply elem_of_dom. by exists d. }
  split; [|by rewrite lookup_insert_ne].
  unfold get_query_string. run. rewrite (deref_lookup _ _ _ Hd).
  by rewrite delete_prefixed_run, update_params_run, deref_insert.
Qed.

(** C3. For every parameter dictionary [d] of the change list,
    [get_query_string(new_params, remove)] returns ["?"] followed by the
    URL encoding of the dictionary obtained from [d] by deleting every key
    that starts with an element of [remove] and then applying [new_params]
    ([None] deletes the key, another value sets it); the work is done on a
    copy, a new object of the store, and [self.params] still holds [d]. *)
Theorem get_query_string_spec (self : ChangeList)
    (new_params : option (gmap string pyval)) (remove : option (list string))
    (h : heap) (d : gmap string pyval) :
  h !! params self = Some d →
  let p := query_string_dict d (default ∅ new_params) (default [] remove) in
  get_query_string self new_params remove h
  = (inr ("?" +:+ urlencode p), <[fresh (dom h) := p]> h)
  ∧ (<[fresh (dom h) := p]> h) !! params self = Some d.
Proof. apply get_query_string_run. Qed.

(** ** The lookup parameters of [get_query_set] *)

Lemma delete_present_run (l : loc) (ks : list string)
    (d : gmap string pyval) (h : heap) :
  for_each ks (λ i, b ← dict_contains l i;
                    if b : bool then dict_del l i else mret ()) (<[l := d]> h)
  = (inr (), <[l := filter (λ kv, kv.1 ∉ ks) d]> h).
Proof.
  revert d. induction ks as [|k ks IH]; intros d.
  - cbn. unfold ret. f_equal. f_equal. symmetry. apply map_filter_id.
    intros. set_solver.
  - cbn [for_each]. run. rewrite deref_insert.
    assert (filter (λ kv : string * pyval, kv.1 ∉ ks) (delete k d)
            = filter (λ kv : string * pyval, kv.1 ∉ k :: ks) d) as Hf.
    { apply map_eq. intros i. rewrite !map_lookup_filter.
      destruct (decide (i = k)) as [->|Hne].
      - rewrite lookup_delete_eq. destruct (d !! k); [|done]. cbn.
        rewrite option_guard_False; [done|set_solver].
      - rewrite lookup_delete_ne by done. destruct (d !! i); [|done]. cbn.
        apply option_guard_iff. set_solver. }
    case_bool_decide as Hk.
    + unfold dict_del. rewrite deref_insert. destruct Hk as [x Hx].
      rewrite Hx, insert_insert_eq, IH. by rewrite Hf.
    + rewrite IH, <- Hf. f_equal. f_equal. f_equal. symmetry.
      apply delete_id. by apply eq_None_not_Some.
Qed.

Lemma strip_control_params_run (l : loc) (d : gmap string pyval) (h : heap) :
  strip_control_params l (<[l := d]> h)
  = (inr (), <[l := filter (λ kv, kv.1 ∉ control_params) d]> h).
Proof. apply delete_present_run. Qed.

Lemma endswith_in_isnull (key : string) :
  Py.endswith key "__in" = true → Py.endswith key "__isnull" = false.
Proof.
  unfold Py.endswith.
  destruct (String.rev key) as [|[[] [] [] [] [] [] [] []] s]; done.
Qed.

Lemma normalise_loop_cons (l : loc) (k s : string)
    (items : list (string * pyval)) (key0 : string)
    (d : gmap string pyval) (h : heap) :
  is_Some (d !! k) →
  normalise_loop l ((k, PStr s) :: items) key0 (<[l := d]> h)
  = normalise_loop l items k (<[l := normalise_step k s d]> h).
Proof.
  intros [x Hx]. unfold normalise_loop, normalise_step. cbn [for_fold].
  unfold value_split, value_lower. run.
  destruct (is_str k); cbn [negb]; run; unfold dict_del;
    rewrite ?deref_insert, ?Hx;
    destruct (Py.endswith k "__in"); run;
    destruct (Py.endswith k "__isnull"); run;
    repeat case_bool_decide; cbn [negb]; run;
    rewrite ?deref_insert, ?insert_insert_eq; done.
Qed.

Lemma normalise_step_present (k s k' : string) (d : gmap string pyval) :
  k' ≠ k → is_Some (d !! k') → is_Some (normalise_step k s d !! k').
Proof.
  intros Hne Hk'. unfold normalise_step.
  assert (is_Some ((if is_str k then d
                    else <[smart_str k:=PStr s]> (delete k d)) !! k')) as H1.
  { destruct (is_str k); [done|].
    destruct (decide (smart_str k = k')) as [->|].
    - rewrite lookup_insert_eq. eauto.
    - by rewrite lookup_insert_ne, lookup_delete_ne. }
  destruct (Py.endswith k "__in"), (Py.endswith k "__isnull");
    by rewrite ?lookup_insert_ne.
Qed.

Lemma last_cons_default {A} (x d : A) (l : list A) :
  List.last (x :: l) d = List.last l x.
Proof.
  revert x d. induction l as [|y l IH]; intros x d; [done|].
  change (List.last (x :: y :: l) d) with (List.last (y :: l) d).
  by rewrite (IH y d), (IH y x).
Qed.

Lemma normalise_loop_run (l : loc) (items : list (string * pyval))
    (key0 : string) (d : gmap string pyval) (h : heap) :
  NoDup items.*1 →
  (∀ k v, (k, v) ∈ items → is_Some (d !! k) ∧ is_text v = true) →
  normalise_loop l items key0 (<[l := d]> h)
  = (inr (List.last items.*1 key0), <[l := normalise_steps items d]> h).
Proof.
  revert key0 d. induction items as [|[k v] items IH]; intros key0 d Hnd Hin.
  - done.
  - rewrite fmap_cons in Hnd. apply NoDup_cons in Hnd as [Hk Hnd].
    destruct (Hin k v) as [Hkd Hv]; [set_solver|].
    destruct v as [| | |s|]; try done.
    rewrite normalise_loop_cons by done. rewrite IH; [|done|].
    + by rewrite fmap_cons, last_cons_default.
    + intros k' v' Hin'. destruct (Hin k' v') as [??]; [set_solver|].
      split; [|done]. apply normalise_step_present; [|done].
      intros ->. apply Hk. apply list_elem_of_fmap. by exists (k, v').
Qed.

Lemma normalise_lookup_params_run (l : loc) (d : gmap string pyval)
    (h : heap) :
  text_values d →
  normalise_lookup_params l (<[l := d]> h)
  = (inr (List.last (map_to_list d).*1 ""),
     <[l := normalise_steps (map_to_list d) d]> h).
Proof.
  intros Ht. unfold normalise_lookup_params. run. rewrite deref_insert.
  apply normalise_loop_run; [apply NoDup_fst_map_to_list|].
  intros k v Hkv%elem_of_map_to_list. split; [by exists v|].
  by apply (Ht k v).
Qed.

Lemma normalise_step_plain (k s : string) (d : gmap string pyval) :
  d !! k = Some (PStr s) →
  is_str k || bool_decide (smart_str k = k) = true →
  normalise_step k s d = <[k := lookup_value k (PStr s)]> d.
Proof.
  intros Hk Hp. unfold normalise_step, lookup_value.
  assert ((if is_str k then d else <[smart_str k:=PStr s]> (delete k d)) = d)
    as ->.
  { destruct (is_str k); [done|]. cbn in Hp. apply bool_decide_eq_true in Hp.
    rewrite Hp, insert_delete_eq. by apply insert_id. }
  destruct (Py.endswith k "__in") eqn:Hin.
  - by rewrite (endswith_in_isnull _ Hin).
  - destruct (Py.endswith k "__isnull"); [done|]. symmetry. by apply insert_id.
Qed.

Lemma normalise_steps_plain (items : list (string * pyval))
    (d : gmap string pyval) :
  NoDup items.*1 →
  (∀ k v, (k, v) ∈ items →
     d !! k = Some v ∧ is_text v = true
     ∧ is_str k || bool_decide (smart_str k = k) = true) →
  ∀ i, normalise_steps items d !! i
       = match (list_to_map items : gmap string pyval) !! i with
         | Some v => Some (lookup_value i v)
         | None => d !! i
         end.
Proof.
  revert d. induction items as [|[k v] items IH]; intros d Hnd Hin i.
  - done.
  - rewrite fmap_cons in Hnd. apply NoDup_cons in Hnd as [Hk Hnd].
    destruct (Hin k v) as (Hkd & Hv & Hp); [set_solver|].
    destruct v as [| | |s|]; try done.
    unfold normalise_steps. cbn [foldl]. cbn [fst snd].
    rewrite normalise_step_plain by done.
    fold (normalise_steps items (<[k:=lookup_value k (PStr s)]> d)).
    assert (k ∉ items.*1) as Hk' by done.
    rewrite IH; [|done|].
    + cbn [list_to_map foldr]. cbn [fst snd].
      destruct (decide (i = k)) as [->|Hne].
      * rewrite not_elem_of_list_to_map_1 by done.
        by rewrite !lookup_insert_eq.
      * by rewrite !lookup_insert_ne.
    + intros k' v' Hin'. destruct (Hin k' v') as (? & ? & ?); [set_solver|].
      split; [|done]. rewrite lookup_insert_ne; [done|].
      intros ->. apply Hk'. apply list_elem_of_fmap. by exists (k', v').
Qed.

Lemma normalise_steps_lookup_params (d : gmap string pyval) :
  text_values d → plain_keys d →
  normalise_steps (map_to_list d) d
  = map_imap (λ k v, Some (lookup_value k v)) d.
Proof.
  intros Ht Hp. apply map_eq. intros i.
  rewrite normalise_steps_plain.
  - rewrite list_to_map_to_list, map_lookup_imap. by destruct (d !! i).
  - apply NoDup_fst_map_to_list.
  - intros k v Hkv%elem_of_map_to_list. split; [done|].
    split; [by apply (Ht k v)|by apply (Hp k v)].
Qed.

Lemma consume_params_run (l : loc) (consumed : list string)
    (d : gmap string pyval) (h : heap) :
  consume_params l consumed (<[l := d]> h)
  = (inr (), <[l := filter (λ kv, kv.1 ∉ consumed) d]> h).
Proof.
  unfold consume_params.
  revert d. induction consumed as [|k ks IH]; intros d.
  - cbn. unfold ret. f_equal. f_equal. symmetry. apply map_filter_id.
    intros. set_solver.
  - cbn [for_each]. run. unfold try_except, dict_del. rewrite deref_insert.
    assert (filter (λ kv : string * pyval, kv.1 ∉ ks) (delete k d)
            = filter (λ kv : string * pyval, kv.1 ∉ k :: ks) d) as Hf.
    { apply map_eq. intros i. rewrite !map_lookup_filter.
      destruct (decide (i = k)) as [->|Hne].
      - rewrite lookup_delete_eq. destruct (d !! k); [|done]. cbn.
        rewrite option_guard_False; [done|set_solver].
      - rewrite lookup_delete_ne by done. destruct (d !! i); [|done]. cbn.
        apply option_guard_iff. set_solver. }
    destruct (d !! k) as [x|] eqn:Hx.
    + rewrite insert_insert_eq, IH. by rewrite Hf.
    + run. rewrite IH, <- Hf. f_equal. f_equal. f_equal. symmetry.
      by apply delete_id.
Qed.

Lemma filter_filter_consumed (ks1 ks2 : list string)
    (d : gmap string pyval) :
  filter (λ kv : string * pyval, kv.1 ∉ ks2)
    (filter (λ kv : string * pyval, kv.1 ∉ ks1) d)
  = filter (λ kv : string * pyval, kv.1 ∉ ks1 ++ ks2) d.
Proof.
  apply map_eq. intros i. rewrite !map_lookup_filter.
  destruct (d !! i) as [x|]; [|done]. cbn.
  destruct (decide (i ∈ ks1)) as [H1|H1].
  - rewrite (option_guard_False (_ ∉ ks1)) by set_solver. cbn.
    rewrite option_guard_False; [done|set_solver].
  - rewrite (option_guard_True (_ ∉ ks1)) by set_solver. cbn.
    apply option_guard_iff. set_solver.
Qed.

Lemma filter_spec_step_run (self : ChangeList) (l : loc) (key : string)
    (fs : FilterSpec) (qs : QuerySet) (d dl : gmap string pyval)
    (h : heap) :
  h !! params self = Some d → l ≠ params self →
  filter_spec_step self l key qs fs (<[l := dl]> h)
  = match fs_get_query_set fs d qs with
    | inl e => (inl e, <[l := dl]> h)
    | inr r =>
        let '(qs', dl') :=
          match r with
          | ReturnsQuerySet new_qs =>
              (new_qs, filter (λ kv, kv.1 ∉ fs_consumed_params fs) dl)
          | ReturnsNone | ReturnsFalse => (qs, dl)
          end in
        (if lookup_allowed (model_admin self) key then inr qs'
         else inl (SuspiciousOperation
                     ("Filtering by " +:+ key +:+ " not allowed")),
         <[l := dl']> h)
    end.
Proof.
  intros Hd Hl. unfold filter_spec_step. run. unfold lift.
  rewrite deref_insert_ne, (deref_lookup _ _ _ Hd) by done.
  destruct (fs_get_query_set fs d qs) as [e|r]; [reflexivity|].
  destruct r as [| |new_qs]; run; rewrite ?consume_params_run;
    destruct (lookup_allowed (model_admin self) key); reflexivity.
Qed.

Lemma filter_specs_run (self : ChangeList) (l : loc) (key : string)
    (specs : list FilterSpec) (qs : QuerySet) (d dl : gmap string pyval)
    (h : heap) :
  h !! params self = Some d → l ≠ params self →
  ∃ dl', for_fold specs qs (filter_spec_step self l key) (<[l := dl]> h)
         = (match filter_specs_result self d key qs specs with
            | inl e => inl e
            | inr (qs', _) => inr qs'
            end, <[l := dl']> h)
       ∧ ∀ qs' consumed,
           filter_specs_result self d key qs specs = inr (qs', consumed) →
           dl' = filter (λ kv, kv.1 ∉ consumed) dl.
Proof.
  intros Hd Hl. revert qs dl.
  induction specs as [|fs specs IH]; intros qs dl.
  - exists dl. split; [done|]. intros ?? [= <- <-]. symmetry.
    apply map_filter_id. intros. set_solver.
  - cbn [for_fold filter_specs_result]. run.
    rewrite (filter_spec_step_run _ _ _ _ _ d) by done.
    destruct (fs_get_query_set fs d qs) as [e|r]; [by exists dl|].
    destruct (lookup_allowed (model_admin self) key) eqn:Hallow.
    + destruct r as [| |new_qs]; cbn beta iota zeta.
      * destruct (IH qs dl) as (dl' & -> & Hdl'). by exists dl'.
      * destruct (IH qs dl) as (dl' & -> & Hdl'). by exists dl'.
      * destruct (IH new_qs
                    (filter (λ kv, kv.1 ∉ fs_consumed_params fs) dl))
          as (dl' & -> & Hdl').
        exists dl'. split.
        { by destruct (filter_specs_result self d key new_qs specs)
            as [|[??]]. }
        intros qs' consumed.
        destruct (filter_specs_result self d key new_qs specs)
          as [|[qs'' consumed']]; [done|].
        intros [= <- <-]. rewrite (Hdl' _ _ eq_refl).
        apply filter_filter_consumed.
    + destruct r as [| |new_qs]; cbn beta iota zeta;
        eexists; (split; [done|done]).
Qed.

Lemma fresh_ne_params (self : ChangeList) (h : heap) (d : gmap string pyval) :
  h !! params self = Some d → fresh (dom h) ≠ params self.
Proof.
  intros Hd Heq. apply (is_fresh (dom h)). rewrite Heq.
  apply elem_of_dom. by exists d.
Qed.

Lemma text_values_filter (P : string * pyval → Prop)
    `{!∀ kv, Decision (P kv)} (d : gmap string pyval) :
  text_values d → text_values (filter P d).
Proof.
  intros Ht k v [Hk _]%map_lookup_filter_Some. by apply (Ht k v).
Qed.

Lemma plain_keys_filter (P : string * pyval → Prop)
    `{!∀ kv, Decision (P kv)} (d : gmap string pyval) :
  plain_keys d → plain_keys (filter P d).
Proof.
  intros Ht k v [Hk _]%map_lookup_filter_Some. by apply (Ht k v).
Qed.

(** Lines 194-233 as a whole: the copy is a new object [l], and when the
    loop over the filter specs raises nothing [l] holds the normalised
    lookup parameters less the consumed ones. *)
Lemma prepare_lookup_params_run (self : ChangeList) (h : heap)
    (d : gmap string pyval) :
  h !! params self = Some d → text_values d →
  let l := fresh (dom h) in
  let stripped := filter (λ kv, kv.1 ∉ control_params) d in
  let result :=
    filter_specs_result self d (leftover_key d) (root_query_set self)
      (filter_specs self) in
  ∃ dl', prepare_lookup_params self h
         = (match result with
            | inl e => inl e
            | inr (qs', _) => inr (qs', l)
            end, <[l := dl']> h)
       ∧ ∀ qs' consumed,
           result = inr (qs', consumed) →
           dl' = filter (λ kv, kv.1 ∉ consumed)
                   (normalise_steps (map_to_list stripped) stripped).
Proof.
  intros Hd Ht l stripped result.
  pose proof (fresh_ne_params self h d Hd) as Hl.
  unfold prepare_lookup_params. run. rewrite (deref_lookup _ _ _ Hd).
  fold l. rewrite strip_control_params_run. fold stripped.
  rewrite normalise_lookup_params_run by by apply text_values_filter.
  destruct (filter_specs_run self l (leftover_key d) (filter_specs self)
              (root_query_set self) d
              (normalise_steps (map_to_list stripped) stripped) h Hd Hl)
    as (dl' & Hrun & Hdl').
  exists dl'. split; [|done].
  unfold leftover_key in Hrun. fold stripped in Hrun. rewrite Hrun.
  subst result. unfold leftover_key. fold stripped.
  by destruct (filter_specs_result _ _ _ _ _) as [|[??]].
Qed.

(** The rest of [get_query_set], once the lookup parameters are ready. *)
Lemma get_query_set_unfold (self : ChangeList) (h : heap) :
  get_query_set self h
  = match prepare_lookup_params self h with
    | (inl e, h') => (inl e, h')
    | (inr (qs, l), h') =>
        match qs_filter qs [] (deref h' l) with
        | inl _ => (inl IncorrectLookupParameters, h')
        | inr qs =>
            apply_search self
              (apply_ordering self (apply_select_related self qs)) h'
        end
    end.
Proof.
  unfold get_query_set. run.
  destruct (prepare_lookup_params self h) as [[e|[qs l]] h']; [done|].
  unfold apply_lookup_params, try_except, lift. run.
  by destruct (qs_filter qs [] (deref h' l)).
Qed.



(** ** The search *)

Lemma construct_search_lookup (field_name : string) :
  construct_search field_name = search_lookup field_name.
Proof.
  unfold construct_search, search_lookup, Py.startswith.
  destruct field_name as [|[[] [] [] [] [] [] [] []] [|??]]; reflexivity.
Qed.

Lemma or_queries_word_query (fields : list string) (bit : string) :
  Py.reduce QOr ((λ field_name, QLookup (construct_search field_name) bit)
                   <$> fields)
  = word_query fields bit.
Proof.
  destruct fields as [|f fields]; [done|]. cbn. f_equal.
  rewrite construct_search_lookup. generalize (QLookup (search_lookup f) bit).
  induction fields as [|f' fields IH]; intros q; [done|].
  cbn. by rewrite IH, construct_search_lookup.
Qed.

Lemma distinct_loop_existsb (fields : list string) (qs : QuerySet) :
  distinct_loop fields qs
  = if existsb (Py.contains "__") fields then qs_distinct qs else qs.
Proof.
  induction fields as [|f fields IH]; [done|]. cbn [distinct_loop existsb].
  by destruct (Py.contains "__" f).
Qed.

Lemma apply_search_run (self : ChangeList) (qs : QuerySet) (h : heap) :
  Py.truthy_list (search_fields self) = true →
  Py.truthy_str (query self) = true →
  apply_search self qs h
  = (searched (search_fields self) (query self) qs, h).
Proof.
  intros Hf Hq. unfold apply_search, searched. rewrite Hf, Hq. cbn [andb].
  run. generalize (Py.split_ws (query self)) as words. intros words.
  revert qs. induction words as [|w words IH]; intros qs.
  - cbn. by rewrite distinct_loop_existsb.
  - cbn [for_fold filter_words]. run. rewrite or_queries_word_query.
    destruct (word_query (search_fields self) w) as [q|]; [|done].
    unfold lift. destruct (qs_filter qs [q] ∅) as [e|qs']; [done|].
    apply IH.
Qed.

Lemma apply_search_off (self : ChangeList) (qs : QuerySet) (h : heap) :
  Py.truthy_list (search_fields self) && Py.truthy_str (query self) = false →
  apply_search self qs h = (inr qs, h).
Proof. intros Hoff. unfold apply_search. by rewrite Hoff. Qed.


(** ** Exceptions *)





Lemma gtb_bool_decide (a b : Z) :
  (a >? b)%Z = negb (bool_decide (a ≤ b)%Z).
Proof.
  rewrite Z.gtb_ltb.
  case_bool_decide; cbn; [apply Z.ltb_ge|apply Z.ltb_lt]; lia.
Qed.

Lemma leb_bool_decide (a b : Z) : (a <=? b)%Z = bool_decide (a ≤ b)%Z.
Proof. case_bool_decide; [apply Z.leb_le|apply Z.leb_gt]; lia. Qed.

(** C4. [get_query_set] raises [IncorrectLookupParameters] whenever the call
    of [qs.filter] with the lookup parameters raises, whatever it raises; an
    exception raised before that call comes out as it is. [get_results]
    raises [IncorrectLookupParameters] when asking the paginator for page
    [page_num + 1] raises [InvalidPage] (or a subclass), lets any other
    exception of that call through, and in the branch that shows the full
    result it returns, whatever the paginator would answer. *)
Theorem exception_translation (self : ChangeList) :
  (∀ h h' qs l e,
     prepare_lookup_params self h = (inr (qs, l), h') →
     qs_filter qs [] (deref h' l) = inl e →
     get_query_set self h = (inl IncorrectLookupParameters, h'))
  ∧ (∀ h h' e,
       prepare_lookup_params self h = (inl e, h') →
       get_query_set self h = (inl e, h'))
  ∧ (∀ e,
       shows_full_result self = false →
       page (get_paginator (model_admin self) (query_set self)
               (list_per_page self)) (page_num self + 1)%Z = inl e →
       get_results self
       = inl (if is_InvalidPage e then IncorrectLookupParameters else e))
  ∧ (shows_full_result self = true → ∃ r, get_results self = inr r).
Proof.
  split; [|split; [|split]].
  - intros h h' qs l e Hprep Hf.
    by rewrite get_query_set_unfold, Hprep, Hf.
  - intros h h' e Hprep. by rewrite get_query_set_unfold, Hprep.
  - intros e Hfull Hpage. unfold get_results.
    unfold shows_full_result, filtered_count in Hfull.
    rewrite gtb_bool_decide, leb_bool_decide, negb_involutive.
    unfold MAX_SHOW_ALL_ALLOWED.
    rewrite Hfull, Hpage. by destruct (is_InvalidPage e).
  - intros Hfull. unfold get_results.
    unfold shows_full_result, filtered_count in Hfull.
    rewrite gtb_bool_decide, leb_bool_decide, negb_involutive.
    unfold MAX_SHOW_ALL_ALLOWED.
    rewrite Hfull. eauto.
Qed.

(** ** Results and ordering *)

(** C6. When [get_results] returns (the full result is shown, or the
    paginator has page [page_num + 1], whose object list is [object_list]):
    [result_count] is the filtered count; [can_show_all] is true exactly
    when that count is at most [MAX_SHOW_ALL_ALLOWED], which is 200;
    [multi_page] is true exactly when it exceeds [list_per_page];
    [result_list] is a clone of the filtered query set when [show_all and
    can_show_all] holds or [multi_page] is false, and the object list of the
    page otherwise; [full_result_count] is the filtered count when the
    query has no where clause and the count of the root query set
    otherwise. *)
Theorem get_results_spec (self : ChangeList) (object_list : QuerySet) :
  (shows_full_result self = false →
   page (get_paginator (model_admin self) (query_set self)
           (list_per_page self)) (page_num self + 1)%Z = inr object_list) →
  ∃ r, get_results self = inr r
     ∧ result_count r = filtered_count self
     ∧ MAX_SHOW_ALL_ALLOWED = 200%Z
     ∧ (can_show_all r = true
        ↔ (filtered_count self ≤ MAX_SHOW_ALL_ALLOWED)%Z)
     ∧ (multi_page r = true
        ↔ (filtered_count self > list_per_page self)%Z)
     ∧ result_list r
       = (if show_all self && can_show_all r || negb (multi_page r)
          then qs_clone (query_set self) else object_list)
     ∧ full_result_count r
       = (if query_where (query_set self)
          then qs_count (root_query_set self) else filtered_count self).
Proof.
  intros Hpage. unfold get_results. fold (filtered_count self).
  rewrite gtb_bool_decide, leb_bool_decide, negb_involutive.
  unfold shows_full_result in Hpage. unfold MAX_SHOW_ALL_ALLOWED.
  destruct (show_all self && bool_decide (filtered_count self ≤ 200)%Z
            || bool_decide (filtered_count self ≤ list_per_page self)%Z)
    eqn:Hfull.
  - eexists. split; [done|]. cbn.
    rewrite negb_involutive, Hfull, bool_decide_eq_true, negb_true_iff,
      bool_decide_eq_false.
    repeat split; try done; try lia. by destruct (query_where _).
  - rewrite Hpage by done. eexists. split; [done|]. cbn.
    rewrite negb_involutive, Hfull, bool_decide_eq_true, negb_true_iff,
      bool_decide_eq_false.
    repeat split; try done; try lia. by destruct (query_where _).
Qed.

Lemma prefix_char_cons (c a : Ascii.ascii) (s : string) :
  String.prefix (String c "") (String a s) = bool_decide (c = a).
Proof.
  cbn. destruct (Ascii.ascii_dec c a), s; by case_bool_decide.
Qed.

Lemma rpartition_tail (sep : Ascii.ascii) (s hd sp tl : string) :
  Py.rpartition sep s = (hd, sp, tl) →
  Py.contains (String sep "") tl = false ∧ (sp = "" → tl = s).
Proof.
  revert hd sp tl. induction s as [|a s IH]; intros hd sp tl.
  - by intros [= <- <- <-].
  - cbn [Py.rpartition].
    destruct (Py.rpartition sep s) as [[hd' sp'] tl'].
    destruct (IH hd' sp' tl' eq_refl) as [Hc Htl].
    destruct (String.eqb sp' "") eqn:Hsp.
    + apply String.eqb_eq in Hsp. specialize (Htl Hsp). subst tl'.
      destruct (Ascii.eqb a sep) eqn:Ha.
      * by intros [= <- <- <-].
      * intros [= <- <- <-]. split; [|done]. cbn [Py.contains].
        rewrite prefix_char_cons, Hc.
        apply Ascii.eqb_neq in Ha. by rewrite bool_decide_false.
    + intros [= <- <- <-]. split; [done|]. intros ->. by cbn in Hsp.
Qed.

Lemma contains_lstrip (c : Ascii.ascii) (s : string) :
  Py.contains (String c "") s = false →
  Py.contains (String c "") (Py.lstrip s) = false.
Proof.
  induction s as [|a s IH]; [done|]. intros Hc. cbn [Py.lstrip].
  destruct (Ascii.is_space a); [|done]. apply IH.
  cbn [Py.contains] in Hc. by apply orb_false_iff in Hc as [_ ?].
Qed.

Lemma int_nonneg (s : string) (n : Z) :
  Py.contains "-" s = false → Py.int s = Some n → (0 ≤ n)%Z.
Proof.
  intros Hc%contains_lstrip. unfold Py.int.
  destruct (Py.lstrip s) as [|a s'] eqn:Hs.
  - by cbn.
  - assert (a ≠ "-"%char) as Ha.
    { intros ->. cbn [Py.contains] in Hc.
      rewrite prefix_char_cons in Hc. by rewrite bool_decide_true in Hc. }
    assert (∀ s0, match Py.digits None (Py.lstrip s0) with
                  | (Some m, rest) =>
                      if String.eqb (Py.lstrip rest) ""
                      then Some (Z.of_N m) else None
                  | (None, _) => None
                  end = Some n → (0 ≤ n)%Z) as Hpos.
    { intros s0. destruct (Py.digits None (Py.lstrip s0)) as [[m|] rest];
        [|done]. destruct (String.eqb _ _); [|done]. intros [= <-]. lia. }
    destruct a as [[] [] [] [] [] [] [] []]; try apply Hpos; done.
Qed.

Lemma index_nonneg {A} (l : list A) (n : Z) :
  (0 ≤ n)%Z → Py.index l n = l !! Z.to_nat n.
Proof.
  intros Hn. unfold Py.index. by rewrite (proj2 (Z.leb_le 0 n)).
Qed.

Lemma order_field_name_spec (self : ChangeList) (col : Column) :
  order_field_name self col = column_order_name self col.
Proof.
  unfold order_field_name, column_order_name, column_field.
  destruct col as [name|a]; [|done].
  destruct (get_field (lookup_opts self) name); [done|].
  destruct (ma_getattr (model_admin self) name); [done|].
  by destruct (m_getattr (model self) name).
Qed.

Lemma order_step_entry (self : ChangeList) (ordering : list string)
    (p : string) :
  order_step self ordering p
  = ordering ++ option_list (order_entry self p).
Proof.
  unfold order_step, order_entry.
  destruct (Py.rpartition "-" p) as [[hd pfx] idx] eqn:Hp.
  apply rpartition_tail in Hp as [Hc _].
  destruct (Py.int idx) as [n|] eqn:Hn; cbn; [|by rewrite app_nil_r].
  rewrite index_nonneg by by eapply int_nonneg.
  destruct (list_display self !! Z.to_nat n) as [col|]; cbn;
    [|by rewrite app_nil_r].
  rewrite order_field_name_spec.
  destruct (column_order_name self col); cbn; [done|by rewrite app_nil_r].
Qed.

Lemma order_steps_omap (self : ChangeList) (ordering : list string)
    (ps : list string) :
  foldl (order_step self) ordering ps
  = ordering ++ omap (order_entry self) ps.
Proof.
  revert ordering. induction ps as [|p ps IH]; intros ordering.
  - by rewrite app_nil_r.
  - cbn [foldl omap list_omap]. rewrite IH, order_step_entry.
    rewrite <- app_assoc. by destruct (order_entry self p).
Qed.


(** ** The registry of field filter specs *)






(** ** The choices of the field filter specs *)

Lemma get_query_string_returns (cl : ChangeList)
    (new_params : option (gmap string pyval)) (remove : option (list string))
    (h : heap) (d : gmap string pyval) :
  h !! params cl = Some d →
  ∃ q h', get_query_string cl new_params remove h = (inr q, h')
        ∧ h' !! params cl = Some d.
Proof.
  intros Hd.
  destruct (get_query_string_run cl new_params remove h d Hd) as [-> ?].
  eauto.
Qed.

Lemma for_yield_flags {A} (cl : ChangeList) (d : gmap string pyval)
    (l : list A) (body : A → M Choice) (g : A → string * bool) :
  (∀ x h, h !! params cl = Some d →
     ∃ c h', body x h = (inr c, h') ∧ h' !! params cl = Some d
           ∧ flag c = g x) →
  ∀ h, h !! params cl = Some d →
    ∃ cs h', for_yield l body h = (inr cs, h') ∧ h' !! params cl = Some d
           ∧ flag <$> cs = g <$> l.
Proof.
  intros Hbody. induction l as [|x l IH]; intros h Hd.
  - exists [], h. done.
  - cbn [for_yield]. run.
    destruct (Hbody x h Hd) as (c & h1 & -> & Hd1 & Hc).
    destruct (IH h1 Hd1) as (cs & h2 & -> & Hd2 & Hcs).
    exists (c :: cs), h2. by rewrite !fmap_cons, Hc, Hcs.
Qed.

Lemma RelatedFilterSpec_choices_flags (self : RelatedFilterSpec)
    (cl : ChangeList) (h : heap) (d : gmap string pyval) :
  h !! params cl = Some d →
  ∃ cs h', RelatedFilterSpec_choices self cl h = (inr cs, h')
         ∧ h' !! params cl = Some d
         ∧ flag <$> cs = related_flags self.
Proof.
  intros Hd. unfold RelatedFilterSpec_choices, related_flags. run.
  destruct (get_query_string_returns cl (Some ∅)
              (Some [rel_lookup_kwarg self; rel_lookup_kwarg_isnull self])
              h d Hd) as (q0 & h0 & -> & Hd0).
  edestruct (for_yield_flags cl d (rel_lookup_choices self)) as
    (cs & h1 & -> & Hd1 & Hcs); [|exact Hd0|].
  { intros [pk_val val] h' Hd'.
    destruct (get_query_string_returns cl
                (Some {[rel_lookup_kwarg self := pk_val]})
                (Some [rel_lookup_kwarg_isnull self]) h' d Hd')
      as (q & h'' & -> & Hd'').
    eexists _, h''. split; [done|]. split; [done|].
    instantiate (1 := λ c, (c.2, bool_decide
      (rel_lookup_val self = Some (smart_unicode c.1)))). done. }
  destruct (nullable_relation (rel_field self)).
  - destruct (get_query_string_returns cl
                (Some {[rel_lookup_kwarg_isnull self := PStr "True"]})
                (Some [rel_lookup_kwarg self]) h1 d Hd1)
      as (q & h2 & -> & Hd2).
    eexists _, h2. split; [done|]. split; [done|].
    by rewrite fmap_cons, fmap_app, Hcs.
  - eexists _, h1. split; [done|]. split; [done|].
    by rewrite fmap_cons, fmap_app, Hcs.
Qed.

Lemma BooleanFieldFilterSpec_choices_flags (self : BooleanFieldFilterSpec)
    (cl : ChangeList) (h : heap) (d : gmap string pyval) :
  h !! params cl = Some d →
  ∃ cs h', BooleanFieldFilterSpec_choices self cl h = (inr cs, h')
         ∧ h' !! params cl = Some d
         ∧ flag <$> cs = boolean_flags self.
Proof.
  intros Hd. unfold BooleanFieldFilterSpec_choices, boolean_flags. run.
  edestruct (for_yield_flags cl d
               [(ugettext "All", None); (ugettext "Yes", Some "1");
                (ugettext "No", Some "0")])
    as (cs & h1 & -> & Hd1 & Hcs); [|exact Hd|].
  { intros [k v] h' Hd'.
    destruct (get_query_string_returns cl
                (Some {[bool_lookup_kwarg self := opt_val v]})
                (Some [bool_lookup_kwarg2 self]) h' d Hd')
      as (q & h'' & -> & Hd'').
    eexists _, h''. split; [done|]. split; [done|].
    instantiate (1 := λ c, (c.1, bool_decide (bool_lookup_val self = c.2)
                                 && unset (bool_lookup_val2 self))). done. }
  destruct (is_NullBooleanField (bool_field self)).
  - destruct (get_query_string_returns cl
                (Some {[bool_lookup_kwarg2 self := PStr "True"]})
                (Some [bool_lookup_kwarg self]) h1 d Hd1)
      as (q & h2 & -> & Hd2).
    eexists _, h2. split; [done|]. split; [done|].
    rewrite fmap_app, Hcs. cbn. unfold absent. do 3 f_equal.
    by apply bool_decide_ext.
  - eexists _, h1. split; [done|]. split; [done|].
    rewrite fmap_app, Hcs. cbn. unfold absent. do 3 f_equal.
    by apply bool_decide_ext.
Qed.


Lemma AllValuesFilterSpec_values_None (self : AllValuesFilterSpec)
    (cl : ChangeList) (l : list pyval) (include_none : bool)
    (yielded : list Choice) (h : heap) :
  AllValuesFilterSpec_values self cl (PNone :: l) include_none yielded h
  = AllValuesFilterSpec_values self cl l true yielded h.
Proof. reflexivity. Qed.

Lemma AllValuesFilterSpec_values_yield (self : AllValuesFilterSpec)
    (cl : ChangeList) (v : pyval) (l : list pyval) (include_none : bool)
    (yielded : list Choice) (h h1 : heap) (q : string) :
  v ≠ PNone →
  get_query_string cl
    (Some {[all_lookup_kwarg self := PStr (smart_unicode v)]})
    (Some [all_lookup_kwarg_isnull self]) h = (inr q, h1) →
  AllValuesFilterSpec_values self cl (v :: l) include_none yielded h
  = AllValuesFilterSpec_values self cl l include_none
      (yielded ++
       [{| selected :=
             bool_decide (all_lookup_val self = Some (smart_unicode v));
           query_string := q;
           display := smart_unicode v |}]) h1.
Proof.
  intros Hv Hq. unfold AllValuesFilterSpec_values. cbn [for_fold].
  destruct v; try done; run; rewrite Hq; reflexivity.
Qed.

Lemma AllValuesFilterSpec_values_flags (self : AllValuesFilterSpec)
    (cl : ChangeList) (d : gmap string pyval) (l : list pyval)
    (include_none : bool) (yielded : list Choice) (h : heap) :
  h !! params cl = Some d →
  ∃ ys h',
    AllValuesFilterSpec_values self cl l include_none yielded h
    = (inr (include_none || bool_decide (PNone ∈ l), yielded ++ ys), h')
    ∧ h' !! params cl = Some d
    ∧ flag <$> ys
      = (λ v : pyval,
           (smart_unicode v,
            bool_decide (all_lookup_val self = Some (smart_unicode v))))
        <$> List.filter (λ v, negb (bool_decide (v = PNone))) l.
Proof.
  revert include_none yielded h.
  induction l as [|v l IH]; intros include_none yielded h Hd.
  - exists [], h. by rewrite orb_false_r, app_nil_r.
  - cbn [List.filter].
    destruct (decide (v = PNone)) as [->|Hv].
    + rewrite AllValuesFilterSpec_values_None.
      destruct (IH true yielded h Hd) as (ys & h' & -> & Hd' & Hys).
      exists ys, h'. rewrite orb_true_r. by split.
    + destruct (get_query_string_returns cl
                  (Some {[all_lookup_kwarg self := PStr (smart_unicode v)]})
                  (Some [all_lookup_kwarg_isnull self]) h d Hd)
        as (q & h1 & Hq & Hd1).
      rewrite (AllValuesFilterSpec_values_yield _ _ _ _ _ _ _ _ _ Hv Hq).
      edestruct (IH include_none) as (ys & h' & -> & Hd' & Hys);
        [exact Hd1|].
      eexists (_ :: ys), h'.
      rewrite (bool_decide_false (v = PNone)) by done. cbn [negb].
      rewrite <- app_assoc. split; [|split; [done|]].
      * do 4 f_equal. apply bool_decide_ext. set_solver.
      * by rewrite !fmap_cons, <- Hys.
Qed.

Lemma AllValuesFilterSpec_choices_flags (self : AllValuesFilterSpec)
    (cl : ChangeList) (h : heap) (d : gmap string pyval) :
  h !! params cl = Some d →
  ∃ cs h', AllValuesFilterSpec_choices self cl h = (inr cs, h')
         ∧ h' !! params cl = Some d
         ∧ flag <$> cs = all_values_flags self.
Proof.
  intros Hd. unfold AllValuesFilterSpec_choices, all_values_flags. run.
  destruct (get_query_string_returns cl (Some ∅)
              (Some [all_lookup_kwarg self; all_lookup_kwarg_isnull self])
              h d Hd) as (q0 & h0 & -> & Hd0).
  destruct (AllValuesFilterSpec_values_flags self cl d
              (all_lookup_choices self) false [] h0 Hd0)
    as (ys & h1 & -> & Hd1 & Hys).
  cbn [orb app].
  destruct (bool_decide (PNone ∈ all_lookup_choices self)).
  - destruct (get_query_string_returns cl
                (Some {[all_lookup_kwarg_isnull self := PStr "True"]})
                (Some [all_lookup_kwarg self]) h1 d Hd1)
      as (q & h2 & -> & Hd2).
    eexists _, h2. split; [done|]. split; [done|].
    by rewrite fmap_cons, fmap_app, Hys.
  - eexists _, h1. split; [done|]. split; [done|].
    by rewrite fmap_cons, fmap_app, Hys.
Qed.


End Properties.

(** * Runs on the change lists of the tests *)

Section Runs.
#[local] Existing Instance Sym.framework.

Ltac by_evaluation :=
  unfold text_values, plain_keys;
  apply (bool_decide_unpack _); vm_compute; exact I.


(** ** [get_query_string] *)

(** From [test_AllValuesFilterSpec]: the link of the choice [2002]. *)
Example year_2002_query_string :
  (get_query_string (Demo.book_changelist [])
     (Some {[ "year" := PStr "2002" ]}) (Some ["year__isnull"])
     (Demo.store {[ "year__isnull" := PStr "True" ]})).1
  = inr "?year=2002".
Proof. vm_compute. reflexivity. Qed.

(** Removing [year] removes [year__isnull] as well, and [None] deletes. *)
Example remove_by_prefix :
  (get_query_string (Demo.book_changelist [])
     (Some {[ "o" := PNone; "p" := PInt 3 ]}) (Some ["year"])
     (Demo.store Demo.request_year_isnull)).1
  = inr "?p=3".
Proof. vm_compute. reflexivity. Qed.

Lemma get_query_string_spec_witness :
  ∃ q h',
    get_query_string (Demo.book_changelist [])
      (Some {[ "year" := PInt 2002 ]}) (Some ["year__isnull"])
      (Demo.store Demo.request_year_isnull) = (inr q, h')
    ∧ h' !! params (Demo.book_changelist []) = Some Demo.request_year_isnull.
Proof.
  eexists _, _.
  apply (get_query_string_spec (Demo.book_changelist [])
           (Some {[ "year" := PInt 2002 ]}) (Some ["year__isnull"])
           (Demo.store Demo.request_year_isnull) Demo.request_year_isnull).
  vm_compute. reflexivity.
Defined.

(** ** The lookup parameters *)

(** The lookup parameters of a request, in the words of the claim. *)
Example lookup_params_of_request :
  lookup_params_of Demo.request_lookups
  = {[ "about_django" := PStr "1"; "year__isnull" := PBool false;
       "id__in" := PList ["1"; "2"] ]}.
Proof. vm_compute. reflexivity. Qed.

(** Without filter specs they all reach [qs.filter]. *)
Example lookups_without_filter_specs :
  (get_query_set (Demo.book_changelist [])
     (Demo.store Demo.request_year_isnull)).1
  = inr (Sym.OrderBy
           (Sym.Filter Demo.books [] [("year__isnull", PBool true)])
           ["-id"]).
Proof. vm_compute. reflexivity. Qed.



(** ** The filter specs *)


(** A field filter spec leaves the query set and the parameters alone. *)
Example base_filter_spec_step :
  filter_spec_step (Demo.book_changelist [base_FilterSpec]) 1 "year"
    Demo.books base_FilterSpec
    (<[1 := Demo.request_year_isnull]> (Demo.store Demo.request_year_isnull))
  = (inr Demo.books,
     <[1 := Demo.request_year_isnull]> (Demo.store Demo.request_year_isnull)).
Proof. vm_compute. reflexivity. Qed.

(** ** The search *)

(** The search of [person_changelist]: two words, three search fields. *)
Example search_of_two_words :
  (get_query_set (Demo.person_changelist [] Demo.people false 0)
     (Demo.store ∅)).1
  = inr (Sym.Distinct
           (Sym.Filter
              (Sym.Filter
                 (Sym.OrderBy (Sym.Filter Demo.people [] []) ["last_name"])
                 [QOr (QOr (QLookup "first_name__istartswith" "ada")
                         (QLookup "last_name__iexact" "ada"))
                    (QLookup "family__name__icontains" "ada")] [])
              [QOr (QOr (QLookup "first_name__istartswith" "lovelace")
                      (QLookup "last_name__iexact" "lovelace"))
                 (QLookup "family__name__icontains" "lovelace")] [])).
Proof. vm_compute. reflexivity. Qed.


(** ** Exceptions *)


(** Without filter specs the same request is not checked at all. *)
Example no_filter_spec_no_check :
  (get_query_set (Demo.person_changelist [] Demo.people false 0)
     (Demo.store Demo.request_password)).1
  ≠ inl (SuspiciousOperation
           "Filtering by password__startswith not allowed")
  ∧ lookup_allowed Demo.PersonAdmin "password__startswith" = false.
Proof. split; [vm_compute; discriminate|reflexivity]. Qed.

(** A lookup on a field the model does not have makes [filter] raise a
    [FieldError], which comes out as [IncorrectLookupParameters]. *)
Example unknown_field_lookup :
  Sym.filter Demo.books [] {[ "pages__gt" := PStr "10" ]}
  = inl (OtherError "FieldError")
  ∧ (get_query_set (Demo.book_changelist [])
       (Demo.store {[ "pages__gt" := PStr "10" ]})).1
    = inl IncorrectLookupParameters.
Proof. split; vm_compute; reflexivity. Qed.

Lemma exception_translation_witness :
  let self := Demo.person_changelist [] Demo.people false 7 in
  shows_full_result self = false
  ∧ page (get_paginator (model_admin self) (query_set self)
            (list_per_page self)) (page_num self + 1)%Z = inl EmptyPage
  ∧ get_results self = inl IncorrectLookupParameters.
Proof.
  split; [reflexivity|]. split; [reflexivity|].
  apply (proj1 (proj2 (proj2 (exception_translation
           (Demo.person_changelist [] Demo.people false 7)))) EmptyPage);
    reflexivity.
Defined.

(** ** Results *)

(** 450 people, 100 to a page: page 1 of 5, no link to show all. *)
Lemma get_results_spec_witness :
  let self := Demo.person_changelist [] Demo.people true 0 in
  ∃ r, get_results self = inr r
     ∧ result_count r = 450%Z
     ∧ MAX_SHOW_ALL_ALLOWED = 200%Z
     ∧ (can_show_all r = true ↔ (450 ≤ MAX_SHOW_ALL_ALLOWED)%Z)
     ∧ (multi_page r = true ↔ (450 > 100)%Z)
     ∧ result_list r
       = (if true && can_show_all r || negb (multi_page r)
          then Sym.Clone Demo.people else Sym.Slice Demo.people 0 100)
     ∧ full_result_count r = 450%Z.
Proof.
  apply (get_results_spec (Demo.person_changelist [] Demo.people true 0)
           (Sym.Slice Demo.people 0 100)).
  reflexivity.
Defined.

(** 150 filtered people out of 450 and [all] in the request: one page. *)
Example show_all_results :
  let self :=
    Demo.person_changelist []
      (Sym.Filter (Sym.Root [] 150) [] [("last_name", PStr "ada")]) true 7 in
  ∃ r, get_results self = inr r
     ∧ result_list r = Sym.Clone (query_set self)
     ∧ can_show_all r = true ∧ multi_page r = true
     ∧ result_count r = 150%Z ∧ full_result_count r = 450%Z.
Proof. eexists. split; [reflexivity|]. done. Qed.

(** ** Ordering *)



(** Without [o]: the ordering of the model, the admin having none. *)
Example default_ordering_of_people :
  (get_ordering (Demo.person_changelist [] Demo.people false 0)
     (Demo.store ∅)).1 = inr ["last_name"]
  ∧ (get_ordering (Demo.book_changelist []) (Demo.store ∅)).1
    = inr ["-id"].
Proof. split; vm_compute; reflexivity. Qed.

(** ** Field filter specs *)

(** The classes of the filters of [BookAdmin] and [BoolTestAdmin]. *)
Example classes_of_the_test_filters :
  builtin_class Demo.year = AllValuesClass
  ∧ builtin_class Demo.author = RelatedClass
  ∧ builtin_class Demo.completed = BooleanClass.
Proof. done. Qed.

(** A high-priority registration after the module is loaded comes before
    the five built-in pairs. *)
Example high_priority_comes_first :
  field_filter_specs
    (register builtin_registry (λ f, is_DateTimeField f) date_factory true)
  !! 1 = Some (related_test, related_factory)
  ∧ length (field_filter_specs
              (register builtin_registry (λ f, is_DateTimeField f)
                 date_factory true)) = 6.
Proof. done. Qed.


(** From [test_BooleanFilterSpec], the request [?completed__exact=1]. *)
Example completed_yes_selected :
  let spec :=
    BooleanFieldFilterSpec_init Demo.completed
      {| GET := {[ "completed__exact" := "1" ]} |} 0 Demo.BoolTest None in
  (BooleanFieldFilterSpec_choices spec Demo.booltest_changelist
     (Demo.store {[ "completed__exact" := PStr "1" ]})).1
  = inr [ {| selected := false; query_string := "?"; display := "All" |};
          {| selected := true; query_string := "?completed__exact=1";
             display := "Yes" |};
          {| selected := false; query_string := "?completed__exact=0";
             display := "No" |} ].
Proof. vm_compute. reflexivity. Qed.

(** From [test_AllValuesFilterSpec], the request [?year__isnull=True]. *)
Example year_isnull_selected :
  let spec :=
    AllValuesFilterSpec_init Demo.year
      {| GET := {[ "year__isnull" := "True" ]} |} 0 Demo.Book None in
  (AllValuesFilterSpec_choices spec (Demo.book_changelist [])
     (Demo.store {[ "year__isnull" := PStr "True" ]})).1
  = inr [ {| selected := false; query_string := "?"; display := "All" |};
          {| selected := false; query_string := "?year=1999";
             display := "1999" |};
          {| selected := false; query_string := "?year=2002";
             display := "2002" |};
          {| selected := true; query_string := "?year__isnull=True";
             display := "(None)" |} ].
Proof. vm_compute. reflexivity. Qed.

(** From [test_RelatedFilterSpec_ForeignKey], [?author__id__exact=1]. *)
Example author_alfred_selected :
  let spec :=
    RelatedFilterSpec_init Demo.author
      {| GET := {[ "author__id__exact" := "1" ]} |} 0 Demo.Book None in
  (RelatedFilterSpec_choices spec (Demo.book_changelist [])
     (Demo.store {[ "author__id__exact" := PStr "1" ]})).1
  = inr [ {| selected := false; query_string := "?"; display := "All" |};
          {| selected := true; query_string := "?author__id__exact=1";
             display := "alfred" |};
          {| selected := false; query_string := "?author__id__exact=2";
             display := "bob" |};
          {| selected := false; query_string := "?author__id__exact=3";
             display := "lisa" |};
          {| selected := false; query_string := "?author__isnull=True";
             display := "(None)" |} ].
Proof. vm_compute. reflexivity. Qed.


End Runs.

(** * Further properties *)

Section MoreProperties.
Context `{F : Framework}.

Ltac run :=
  repeat (progress (unfold mbind, M_bind, bind, mret, M_ret, ret, raise,
                      dict_keys, dict_items, dict_read, dict_contains,
                      dict_set, dict_copy;
                    cbn beta iota zeta)).

(** ** Query strings *)

Lemma query_string_dict_lookup (d new_params : gmap string pyval)
    (remove : list string) (k : string) :
  query_string_dict d new_params remove !! k
  = match new_params !! k with
    | Some PNone => None
    | Some v => Some v
    | None => if starts_with_any remove k then None else d !! k
    end.
Proof.
  unfold query_string_dict. rewrite lookup_merge, map_lookup_filter.
  unfold apply_new_param.
  destruct (new_params !! k) as [v|]; [by destruct (d !! k ≫= _)|].
  destruct (d !! k) as [x|]; cbn; [|by destruct (starts_with_any remove k)].
  destruct (starts_with_any remove k).
  - by rewrite option_guard_False.
  - by rewrite option_guard_True.
Qed.

Lemma startswith_empty (k : string) : Py.startswith k "" = true.
Proof. unfold Py.startswith. by destruct k. Qed.

(** X1. [get_query_string] at its edges. Called without arguments it encodes
    the parameters of the change list as they are. With the empty string in
    [remove] every parameter goes, since every key starts with the empty
    string: the link holds the entries of [new_params] that are not [None]
    and nothing else. *)
Theorem get_query_string_edge_cases (self : ChangeList) (h : heap)
    (d : gmap string pyval) :
  h !! params self = Some d →
  get_query_string self None None h
  = (inr ("?" +:+ urlencode d), <[fresh (dom h) := d]> h)
  ∧ ∀ new_params remove,
      "" ∈ remove →
      let p := filter (λ kv, kv.2 ≠ PNone) new_params in
      get_query_string self (Some new_params) (Some remove) h
      = (inr ("?" +:+ urlencode p), <[fresh (dom h) := p]> h).
Proof.
  intros Hd. split.
  - destruct (get_query_string_run self None None h d Hd) as [-> _].
    cbn [default id].
    replace (query_string_dict d ∅ []) with d; [done|].
    apply map_eq. intros k. rewrite query_string_dict_lookup.
    by rewrite lookup_empty.
  - intros new_params remove Hin p.
    destruct (get_query_string_run self (Some new_params) (Some remove) h d Hd)
      as [-> _].
    cbn [default id].
    replace (query_string_dict d new_params remove) with p; [done|].
    apply map_eq. intros k. rewrite query_string_dict_lookup.
    unfold p. rewrite map_lookup_filter.
    destruct (new_params !! k) as [v|]; cbn.
    + destruct (decide (v = PNone)) as [->|Hv].
      * by rewrite option_guard_False by (intros Hne; by apply Hne).
      * rewrite option_guard_True by done. by destruct v.
    + replace (starts_with_any remove k) with true; [done|].
      symmetry. unfold starts_with_any. apply existsb_exists.
      exists "". split; [by apply list_elem_of_In|apply startswith_empty].
Qed.

(** ** Ordering *)

(** X2. [get_ordering] reads one parameter, [o]: two requests that agree on it
    get the same ordering, whatever [ot] and the other parameters are, and
    the store is left as it is. *)
Theorem get_ordering_reads_only_o (self : ChangeList) (h1 h2 : heap)
    (d1 d2 : gmap string pyval) :
  h1 !! params self = Some d1 → h2 !! params self = Some d2 →
  d1 !! "o" = d2 !! "o" →
  (get_ordering self h1).1 = (get_ordering self h2).1
  ∧ (get_ordering self h1).2 = h1.
Proof.
  intros H1 H2 Ho. unfold get_ordering. run.
  rewrite (deref_lookup _ _ _ H1), (deref_lookup _ _ _ H2).
  unfold ORDER_VAR. rewrite Ho.
  destruct (d2 !! "o") as [[]|]; done.
Qed.

Lemma rpartition_sep (sep : Ascii.ascii) (s hd sp tl : string) :
  Py.rpartition sep s = (hd, sp, tl) → sp = "" ∨ sp = String sep "".
Proof.
  revert hd sp tl. induction s as [|a s IH]; intros hd sp tl; cbn.
  - intros [= <- <- <-]. by left.
  - destruct (Py.rpartition sep s) as [[hd' sp'] tl'].
    destruct (String.eqb sp' "") eqn:Hsp.
    + destruct (Ascii.eqb a sep); intros [= <- <- <-]; auto.
    + intros [= <- <- <-]. by apply (IH hd' sp' tl').
Qed.

Lemma length_omap_le {A B} (f : A → option B) (l : list A) :
  length (omap f l) ≤ length l.
Proof.
  induction l as [|x l IH]; cbn; [done|].
  destruct (f x); cbn; lia.
Qed.

(** X3. With an [o] parameter, [get_ordering] returns: it has at most one
    entry per comma-separated part of the parameter, and every entry is the
    name to order by of a column of [list_display], as it is or after a
    [-]. No other text of the request gets into the ordering. *)
Theorem get_ordering_names_columns (self : ChangeList) (h : heap)
    (d : gmap string pyval) (s : string) :
  h !! params self = Some d → d !! "o" = Some (PStr s) →
  ∃ l, get_ordering self h = (inr l, h)
     ∧ length l ≤ length (Py.split "," s)
     ∧ ∀ e, e ∈ l →
         ∃ col name, col ∈ list_display self
                   ∧ order_field_name self col = Some name
                   ∧ (e = name ∨ e = "-" +:+ name).
Proof.
  intros Hd Ho. eexists. split; [|split].
  - unfold get_ordering. run. rewrite (deref_lookup _ _ _ Hd).
    unfold ORDER_VAR. rewrite Ho. cbn. run.
    rewrite order_steps_omap. reflexivity.
  - cbn. apply length_omap_le.
  - intros e He. cbn in He. apply list_elem_of_omap in He as (p & _ & He).
    unfold order_entry in He.
    destruct (Py.rpartition "-" p) as [[hd pfx] idx] eqn:Hp.
    destruct (Py.int idx) as [n|]; [|done]. cbn in He.
    destruct (list_display self !! Z.to_nat n) as [col|] eqn:Hcol; [|done].
    cbn in He.
    destruct (column_order_name self col) as [name|] eqn:Hname; [|done].
    cbn in He. injection He as <-.
    exists col, name. split; [by eapply list_elem_of_lookup_2|].
    split; [by rewrite order_field_name_spec|].
    destruct (rpartition_sep _ _ _ _ _ Hp) as [->| ->]; auto.
Qed.

(** ** The parts of [get_query_set] *)

Lemma select_related_loop_existsb (opts : Options) (cols : list Column)
    (qs : QuerySet) :
  select_related_loop opts cols qs
  = if existsb (λ col, match column_field opts col with
                       | Some f => rel_is_ManyToOneRel f
                       | None => false
                       end) cols
    then qs_select_related qs else qs.
Proof.
  induction cols as [|col cols IH]; cbn; [done|].
  destruct (column_field opts col) as [f|]; [|done].
  by destruct (rel_is_ManyToOneRel f).
Qed.

(** X4. [get_query_set] calls [select_related] at most once, and does so
    exactly when the query set has no [select_related] yet and either
    [list_select_related] is set or some column of [list_display] names a
    field that is a many-to-one relation. *)
Theorem select_related_once (self : ChangeList) (qs : QuerySet) :
  apply_select_related self qs
  = if negb (query_select_related qs)
       && (list_select_related self
           || existsb (λ col, match column_field (lookup_opts self) col with
                              | Some f => rel_is_ManyToOneRel f
                              | None => false
                              end) (list_display self))
    then qs_select_related qs else qs.
Proof.
  unfold apply_select_related.
  destruct (query_select_related qs); cbn; [done|].
  destruct (list_select_related self); cbn; [done|].
  apply select_related_loop_existsb.
Qed.

Lemma apply_search_store (self : ChangeList) (qs : QuerySet) (h : heap) :
  (apply_search self qs h).2 = h.
Proof.
  destruct (Py.truthy_list (search_fields self)) eqn:Hf;
    [destruct (Py.truthy_str (query self)) eqn:Hq|].
  - by rewrite apply_search_run.
  - by rewrite apply_search_off by (rewrite Hf, Hq; done).
  - by rewrite apply_search_off by (rewrite Hf; done).
Qed.


(** X6. What [get_query_set] does to the store. It allocates one dictionary,
    the copy of the parameters it works on, and writes to that one only:
    every dictionary that was there, [self.params] among them, is as
    before. *)
Theorem get_query_set_store (self : ChangeList) (h : heap)
    (d : gmap string pyval) :
  h !! params self = Some d → text_values d →
  ∃ dl, (get_query_set self h).2 = <[fresh (dom h) := dl]> h
      ∧ ∀ l x, h !! l = Some x → (get_query_set self h).2 !! l = Some x.
Proof.
  intros Hd Htext.
  assert (∃ dl, (get_query_set self h).2 = <[fresh (dom h) := dl]> h)
    as [dl Hdl].
  { rewrite get_query_set_unfold.
    destruct (prepare_lookup_params_run self h d Hd Htext)
      as (dl & -> & _).
    exists dl.
    destruct (filter_specs_result _ _ _ _ _) as [e|[qs consumed]]; [done|].
    destruct (qs_filter _ _ _); [done|].
    apply apply_search_store. }
  exists dl. split; [done|].
  intros l x Hl. rewrite Hdl, lookup_insert_ne; [done|].
  intros <-. apply (is_fresh (dom h)), elem_of_dom. by eexists.
Qed.






(** ** [get_ordering_fields] *)

Lemma sorted_dict_set_keys (k v : string) (d : list (string * string)) :
  (sorted_dict_set k v d).*1
  = if bool_decide (k ∈ d.*1) then d.*1 else d.*1 ++ [k].
Proof.
  induction d as [|[k' v'] d IH]; cbn; [done|].
  destruct (String.eqb_spec k' k) as [->|Hne]; cbn.
  - rewrite bool_decide_eq_true_2 by left. done.
  - rewrite IH. destruct (decide (k ∈ d.*1)) as [Hin|Hin].
    + rewrite !bool_decide_eq_true_2; [done|by right|done].
    + rewrite !bool_decide_eq_false_2; [done| |done].
      intros [?|?]%elem_of_cons; congruence.
Qed.

Lemma sorted_dict_set_NoDup (k v : string) (d : list (string * string)) :
  NoDup d.*1 → NoDup (sorted_dict_set k v d).*1.
Proof.
  intros Hd. rewrite sorted_dict_set_keys. case_bool_decide; [done|].
  apply NoDup_app. split; [done|]. split; [|apply NoDup_singleton].
  intros x Hx ->%list_elem_of_singleton. done.
Qed.

Lemma sorted_dict_set_elem (k v k' v' : string)
    (d : list (string * string)) :
  NoDup d.*1 →
  (k', v') ∈ sorted_dict_set k v d
  ↔ (k' = k ∧ v' = v) ∨ (k' ≠ k ∧ (k', v') ∈ d).
Proof.
  induction d as [|[k0 v0] d IH]; cbn.
  - intros _. rewrite list_elem_of_singleton. split.
    + intros [= -> ->]. by left.
    + intros [[-> ->]|[_ H]]; [done|by apply elem_of_nil in H].
  - intros [Hk0 Hd]%NoDup_cons.
    destruct (String.eqb_spec k0 k) as [->|Hne].
    + rewrite !elem_of_cons. split.
      * intros [[= -> ->]|Hin]; [by left|]. right. split; [|by right].
        intros ->. apply Hk0. apply list_elem_of_fmap.
        by exists (k, v').
      * intros [[-> ->]|[Hne [[= ? ?]|Hin]]]; [by left|done|by right].
    + rewrite !elem_of_cons, (IH Hd). split.
      * intros [[= -> ->]|[[-> ->]|[? ?]]]; [|by left|].
        -- right. split; [done|by left].
        -- right. split; [done|by right].
      * intros [[-> ->]|[? [[= -> ->]|?]]]; [right; by left|by left|].
        right; right. done.
Qed.





Lemma rpartition_join (sep : Ascii.ascii) (s hd sp tl : string) :
  Py.rpartition sep s = (hd, sp, tl) → s = hd +:+ sp +:+ tl.
Proof.
  revert hd sp tl. induction s as [|a s IH]; intros hd sp tl; cbn.
  - by intros [= <- <- <-].
  - destruct (Py.rpartition sep s) as [[hd' sp'] tl'].
    destruct (String.eqb sp' "") eqn:Hsp.
    + destruct (Ascii.eqb_spec a sep) as [->|?]; by intros [= <- <- <-].
    + intros [= <- <- <-]. by rewrite (IH _ _ _ eq_refl) at 1.
Qed.

(** One turn of the loop of [get_ordering_fields]. *)
Lemma get_ordering_fields_snoc (self : ChangeList) (os : list string)
    (o hd t f : string) (d : list (string * string)) :
  Py.rpartition "-" o = (hd, t, f) →
  foldl (λ ordering_fields o,
           let '(none, t, f) := Py.rpartition "-" o in
           sorted_dict_set f (if String.eqb t "-" then "desc" else "asc")
             ordering_fields) d (os ++ [o])
  = sorted_dict_set f (if String.eqb t "-" then "desc" else "asc")
      (foldl (λ ordering_fields o,
                let '(none, t, f) := Py.rpartition "-" o in
                sorted_dict_set f (if String.eqb t "-" then "desc" else "asc")
                  ordering_fields) d os).
Proof. intros Ho. rewrite foldl_app. cbn. by rewrite Ho. Qed.

Lemma get_ordering_fields_invariant (os : list string)
    (d : list (string * string)) :
  d = foldl (λ ordering_fields o,
               let '(none, t, f) := Py.rpartition "-" o in
               sorted_dict_set f (if String.eqb t "-" then "desc" else "asc")
                 ordering_fields) [] os →
  NoDup d.*1
  ∧ ∀ f v, (f, v) ∈ d →
      Py.contains "-" f = false
      ∧ ((v = "desc" ∧ ∃ hd, hd +:+ "-" +:+ f ∈ os)
         ∨ (v = "asc" ∧ f ∈ os)).
Proof.
  revert d. induction os as [|o os IH] using rev_ind; intros d ->.
  - cbn. split; [apply NoDup_nil_2|]. intros f v H.
    by apply elem_of_nil in H.
  - destruct (Py.rpartition "-" o) as [[hd t] f0] eqn:Ho.
    rewrite foldl_app. cbn. rewrite Ho.
    destruct (IH _ eq_refl) as [Hnd Hin].
    split; [by apply sorted_dict_set_NoDup|].
    intros f v Hfv. apply sorted_dict_set_elem in Hfv; [|done].
    destruct Hfv as [[-> ->]|[Hne Hfv]].
    + destruct (rpartition_tail _ _ _ _ _ Ho) as [Hdash Hs].
      split; [done|].
      destruct (rpartition_sep _ _ _ _ _ Ho) as [->| ->]; cbn.
      * right. split; [done|]. rewrite (Hs eq_refl).
        apply elem_of_app. right. left.
      * left. split; [done|]. exists hd.
        rewrite <-(rpartition_join _ _ _ _ _ Ho).
        apply elem_of_app. right. left.
    + destruct (Hin f v Hfv) as [Hdash Hcase]. split; [done|].
      destruct Hcase as [[-> [hd' ?]]|[-> ?]]; [left|right].
      * split; [done|]. exists hd'. apply elem_of_app. by left.
      * split; [done|]. apply elem_of_app. by left.
Qed.

(** X9. The dictionary of [get_ordering_fields] has each field once, under a
    name without a dash, and with the direction [asc] or [desc]: [desc] for
    a field that some entry of the ordering names after its last dash, and
    [asc] for a field that is an entry itself. What stands before the last
    dash of an entry is dropped. *)
Theorem get_ordering_fields_entries (self : ChangeList) :
  NoDup (get_ordering_fields self).*1
  ∧ ∀ f v, (f, v) ∈ get_ordering_fields self →
      Py.contains "-" f = false
      ∧ ((v = "desc" ∧ ∃ hd, hd +:+ "-" +:+ f ∈ ordering self)
         ∨ (v = "asc" ∧ f ∈ ordering self)).
Proof. by apply get_ordering_fields_invariant. Qed.







(** ** [ChangeList.__init__] *)

Lemma delete_if_present_run (l : loc) (k : string) (d : gmap string pyval)
    (h : heap) :
  (b ← dict_contains l k; if b : bool then dict_del l k else mret ())
    (<[l := d]> h)
  = (inr (), <[l := delete k d]> h).
Proof.
  run. rewrite deref_insert. case_bool_decide as Hk.
  - unfold dict_del. rewrite deref_insert. destruct Hk as [v ->].
    by rewrite insert_insert_eq.
  - rewrite delete_id; [done|]. by apply eq_None_not_Some.
Qed.

Lemma init_params_run (request : Request) (h : heap) :
  init_params request h
  = (inr (fresh (dom h)),
     <[fresh (dom h) := filter (λ kv, kv.1 ∉ request_params)
                          (PStr <$> GET request)]> h).
Proof.
  unfold init_params, dict_new. unfold mbind at 1, M_bind at 1, bind at 1.
  cbn beta iota zeta.
  unfold mbind at 1, M_bind at 1, bind at 1.
  rewrite delete_if_present_run.
  unfold mbind at 1, M_bind at 1, bind at 1.
  rewrite delete_if_present_run.
  unfold mbind at 1, M_bind at 1, bind at 1.
  rewrite delete_if_present_run. cbn. do 2 f_equal.
  apply map_eq. intros k. rewrite map_lookup_filter.
  unfold PAGE_VAR, TO_FIELD_VAR, ERROR_FLAG, request_params.
  destruct (decide (k = "e")) as [->|He];
    [rewrite lookup_delete_eq|rewrite lookup_delete_ne by done;
     destruct (decide (k = "t")) as [->|Ht];
       [rewrite lookup_delete_eq|rewrite lookup_delete_ne by done;
        destruct (decide (k = "p")) as [->|Hp];
          [rewrite lookup_delete_eq|rewrite lookup_delete_ne by done]]].
  1-3: destruct ((PStr <$> GET request) !! _); cbn; [|done];
       rewrite option_guard_False; [done|]; intros H; apply H;
       set_solver.
  destruct ((PStr <$> GET request) !! k); cbn; [|done].
  rewrite option_guard_True; [done|]. set_solver.
Qed.










(** X13. [self.params] as [__init__] leaves it: a new dictionary with the
    parameters of the request other than [p], [t] and [e]. Building it
    raises nothing, and no dictionary that was in the store changes. *)
Theorem init_params_spec (request : Request) (h : heap) :
  ∃ params h',
    init_params request h = (inr params, h')
    ∧ h !! params = None
    ∧ (∀ k, deref h' params !! k
            = if bool_decide (k ∈ ["p"; "t"; "e"]) then None
              else PStr <$> GET request !! k)
    ∧ ∀ l x, h !! l = Some x → h' !! l = Some x.
Proof.
  eexists _, _. split; [apply init_params_run|].
  assert (h !! fresh (dom h) = None) as Hfresh
    by apply not_elem_of_dom, is_fresh.
  split; [done|]. split.
  - intros k. rewrite deref_insert, map_lookup_filter, lookup_fmap.
    unfold request_params.
    destruct (GET request !! k) as [s|]; cbn; [|by case_bool_decide].
    case_bool_decide.
    + rewrite option_guard_False; [done|]. by intros Hk.
    + by rewrite option_guard_True.
  - intros l x Hl. rewrite lookup_insert_ne; [done|]. congruence.
Qed.

Lemma text_values_request (request : Request) :
  text_values (PStr <$> GET request).
Proof.
  intros k v. rewrite lookup_fmap.
  destruct (GET request !! k); cbn; [|done]. by intros [= <-].
Qed.

(** X14. None of the eight parameters that the change list keeps for itself
    reaches the ORM. For a change list on the [params] that [__init__]
    builds from a request, the keyword arguments that [get_query_set] gives
    to [qs.filter] have no [p], [t], [e], [all], [o], [ot], [q] or [pop]. *)
Theorem reserved_params_never_filtered (self : ChangeList)
    (request : Request) (h h1 h2 : heap) (qs : QuerySet) (l : loc) :
  plain_keys (PStr <$> GET request) →
  init_params request h = (inr (params self), h1) →
  prepare_lookup_params self h1 = (inr (qs, l), h2) →
  ∀ k, k ∈ reserved_params → deref h2 l !! k = None.
Proof.
  intros Hplain Hinit Hprep k Hk.
  rewrite init_params_run in Hinit. injection Hinit as Hparams <-.
  set (d := filter (λ kv, kv.1 ∉ request_params) (PStr <$> GET request))
    in *.
  assert (<[fresh (dom h) := d]> h !! params self = Some d) as Hd
    by (by rewrite <-Hparams, lookup_insert_eq).
  assert (text_values d) as Htext
    by apply text_values_filter, text_values_request.
  destruct (prepare_lookup_params_run self _ d Hd Htext)
    as (dl & Hrun & Hdl).
  rewrite Hprep in Hrun.
  destruct (filter_specs_result _ _ _ _ _) as [e|[qs' consumed]];
    [done|].
  injection Hrun as -> -> ->. rewrite deref_insert.
  rewrite (Hdl _ _ eq_refl), normalise_steps_lookup_params.
  2: by apply text_values_filter.
  2: by do 2 apply plain_keys_filter.
  rewrite map_lookup_filter, map_lookup_imap, map_lookup_filter.
  unfold d. rewrite map_lookup_filter.
  destruct ((PStr <$> GET request) !! k) as [v|]; cbn; [|done].
  destruct (decide (k ∈ request_params)) as [Hreq|Hreq].
  { rewrite (option_guard_False (k ∉ request_params)) by (by intros Hn).
    reflexivity. }
  rewrite (option_guard_True (k ∉ request_params)) by done. cbn.
  rewrite (option_guard_False (k ∉ control_params)); [reflexivity|].
  intros Hn. apply Hn.
  unfold reserved_params, request_params, control_params in *.
  set_solver.
Qed.

(** ** The registry of field filter specs *)

Lemma register_keeps (cls : Registry) (test : Test) (factory : Factory)
    (high_priority : bool) (tf : Test * Factory) :
  tf ∈ field_filter_specs cls →
  tf ∈ field_filter_specs (register cls test factory high_priority).
Proof.
  intros Hin. unfold register, list_insert_at.
  destruct high_priority; cbn.
  - rewrite <-(take_drop (high_priority_index cls)) in Hin.
    apply elem_of_app in Hin as [?|?]; apply elem_of_app; [by left|].
    right. by right.
  - apply elem_of_app. by left.
Qed.

Lemma register_all_keeps (regs : list (Test * Factory * bool))
    (cls : Registry) (tf : Test * Factory) :
  tf ∈ field_filter_specs cls →
  tf ∈ field_filter_specs (register_all regs cls).
Proof.
  revert cls. induction regs as [|r regs IH]; intros cls Hin; [done|].
  cbn. by apply IH, register_keeps.
Qed.

Lemma builtin_accepts :
  (all_values_test, all_values_factory) ∈ field_filter_specs builtin_registry.
Proof. cbn. do 4 right. left. Qed.

Lemma create_loop_accepting (specs : list (Test * Factory)) (f : Field)
    (request : Request) (params : loc) (model : Model)
    (field_path : option string) (h : heap) :
  (∃ tf, tf ∈ specs ∧ tf.1 f = true) →
  (create_loop specs f request params model field_path h).1 ≠ inr None
  ∧ ∀ more, create_loop (specs ++ more) f request params model field_path h
            = create_loop specs f request params model field_path h.
Proof.
  intros (tf & Hin & Htf).
  induction specs as [|[test factory] specs IH];
    [by apply elem_of_nil in Hin|].
  cbn [create_loop app]. destruct (test f) eqn:Htest.
  - split; [|done]. run. by destruct (factory _ _ _ _ _ _) as [[?|?] ?].
  - apply IH. apply elem_of_cons in Hin as [->|?]; [|done].
    cbn in Htf. congruence.
Qed.

(** X15. Once the module has made its five registrations, [create] never
    falls off the end of its loop, whatever is registered later: it returns
    a filter spec (or raises what the chosen factory raises), never
    [None]. *)
Theorem create_never_none (regs : list (Test * Factory * bool)) (f : Field)
    (request : Request) (params : loc) (model : Model)
    (field_path : option string) (h : heap) :
  (create (register_all regs builtin_registry) f request params model
     field_path h).1 ≠ inr None.
Proof.
  apply create_loop_accepting.
  exists (all_values_test, all_values_factory). split; [|done].
  apply register_all_keeps, builtin_accepts.
Qed.

(** X16. A registration of low priority that comes after those of the module
    is never used: [AllValuesFilterSpec], which takes every field, stands
    before it. *)
Theorem low_priority_registration_unused
    (regs : list (Test * Factory * bool)) (test : Test) (factory : Factory)
    (f : Field) (request : Request) (params : loc) (model : Model)
    (field_path : option string) (h : heap) :
  create (register (register_all regs builtin_registry) test factory false)
    f request params model field_path h
  = create (register_all regs builtin_registry) f request params model
      field_path h.
Proof.
  unfold create. cbn [register field_filter_specs].
  apply create_loop_accepting.
  exists (all_values_test, all_values_factory). split; [|done].
  apply register_all_keeps, builtin_accepts.
Qed.




(** ** Following the links of a filter *)

Lemma append_inj_l (s x y : string) : s +:+ x = s +:+ y → x = y.
Proof.
  induction s as [|a s IH]; [done|].
  change (String a (s +:+ x) = String a (s +:+ y) → x = y).
  intros [= ?]. by apply IH.
Qed.

Lemma append_nil_r (s : string) : s +:+ "" = s.
Proof.
  induction s as [|a s IH]; [done|].
  change (String a (s +:+ "") = String a s). by rewrite IH.
Qed.

Lemma append_ne_self (s x : string) : x ≠ "" → s +:+ x ≠ s.
Proof.
  intros Hx Heq. apply Hx, (append_inj_l s). by rewrite append_nil_r.
Qed.

Lemma startswith_refl (k : string) : Py.startswith k k = true.
Proof.
  unfold Py.startswith. induction k as [|a k IH]; cbn; [done|].
  by destruct (Ascii.ascii_dec a a).
Qed.

Lemma starts_with_any_self (k : string) (remove : list string) :
  k ∈ remove → starts_with_any remove k = true.
Proof.
  intros Hk. unfold starts_with_any. apply existsb_exists.
  exists k. split; [by apply list_elem_of_In|apply startswith_refl].
Qed.

(** The parameters of the request for a link. *)
Lemma link_lookup (cl : ChangeList)
    (new_params : option (gmap string pyval)) (remove : option (list string))
    (h h1 : heap) (d : gmap string pyval) (q k : string) :
  h !! params cl = Some d →
  get_query_string cl new_params remove h = (inr q, h1) →
  GET (request_of_link (deref h1 (fresh (dom h)))) !! k
  = smart_unicode
    <$> match default ∅ new_params !! k with
        | Some PNone => None
        | Some v => Some v
        | None =>
            if starts_with_any (default [] remove) k then None else d !! k
        end.
Proof.
  intros Hd Hq.
  destruct (get_query_string_run cl new_params remove h d Hd) as [Hrun _].
  rewrite Hrun in Hq. injection Hq as _ <-.
  rewrite deref_insert. cbn [request_of_link GET].
  by rewrite lookup_fmap, query_string_dict_lookup.
Qed.

Lemma elem_of_filter_bool {A} (P : A → bool) (l : list A) (x : A) :
  x ∈ l → P x = true → x ∈ List.filter P l.
Proof.
  intros Hx HP. apply list_elem_of_In, filter_In.
  split; [by apply list_elem_of_In|done].
Qed.

(** X18. Following a link of an [AllValuesFilterSpec] selects the choice that
    carries the link. In the request for the link of [All], of a value or
    of the empty choice, the filter spec of the same field yields that
    choice as selected, and for the latter two [All] as not selected. *)
Theorem all_values_links_round_trip (f : Field) (request : Request)
    (prm : loc) (model : Model) (field_path : option string)
    (cl cl' : ChangeList) (h h' : heap) (d d' : gmap string pyval) :
  (∀ s, smart_unicode (PStr s) = s) →
  h !! params cl = Some d → h' !! params cl' = Some d' →
  let self := AllValuesFilterSpec_init f request prm model field_path in
  let followed (h1 : heap) :=
    AllValuesFilterSpec_init f
      (request_of_link (deref h1 (fresh (dom h)))) prm model field_path in
  (∀ q h1,
     get_query_string cl (Some ∅)
       (Some [all_lookup_kwarg self; all_lookup_kwarg_isnull self]) h
     = (inr q, h1) →
     ∃ cs h'',
       AllValuesFilterSpec_choices (followed h1) cl' h' = (inr cs, h'')
       ∧ (flag <$> cs) !! 0 = Some (ugettext "All", true))
  ∧ (∀ v q h1,
       v ∈ all_lookup_choices self → v ≠ PNone →
       get_query_string cl
         (Some {[all_lookup_kwarg self := PStr (smart_unicode v)]})
         (Some [all_lookup_kwarg_isnull self]) h
       = (inr q, h1) →
       ∃ cs h'',
         AllValuesFilterSpec_choices (followed h1) cl' h' = (inr cs, h'')
         ∧ (smart_unicode v, true) ∈ flag <$> cs
         ∧ (flag <$> cs) !! 0 = Some (ugettext "All", false))
  ∧ (∀ q h1,
       PNone ∈ all_lookup_choices self →
       get_query_string cl
         (Some {[all_lookup_kwarg_isnull self := PStr "True"]})
         (Some [all_lookup_kwarg self]) h
       = (inr q, h1) →
       ∃ cs h'',
         AllValuesFilterSpec_choices (followed h1) cl' h' = (inr cs, h'')
         ∧ last (flag <$> cs) = Some ("(None)", true)
         ∧ (flag <$> cs) !! 0 = Some (ugettext "All", false)).
Proof.
  intros Hsu Hd Hd' self followed.
  set (fp := init_field_path f field_path).
  assert (fp +:+ "__isnull" ≠ fp) as Hne by (by apply append_ne_self).
  split; [|split].
  - intros q h1 Hq.
    destruct (AllValuesFilterSpec_choices_flags (followed h1) cl' h' d' Hd')
      as (cs & h'' & Hrun & _ & Hflags).
    exists cs, h''. split; [done|]. rewrite Hflags.
    unfold all_values_flags, followed. cbn -[request_of_link].
    rewrite !(link_lookup _ _ _ _ _ _ _ _ Hd Hq). unfold self.
    cbn [default id AllValuesFilterSpec_init all_lookup_kwarg
         all_lookup_kwarg_isnull].
    rewrite !lookup_empty.
    rewrite !starts_with_any_self by set_solver. done.
  - intros v q h1 Hv Hnone Hq.
    destruct (AllValuesFilterSpec_choices_flags (followed h1) cl' h' d' Hd')
      as (cs & h'' & Hrun & _ & Hflags).
    exists cs, h''. split; [done|]. rewrite Hflags.
    unfold all_values_flags, followed. cbn -[request_of_link].
    rewrite !(link_lookup _ _ _ _ _ _ _ _ Hd Hq). unfold self.
    cbn [default id AllValuesFilterSpec_init all_lookup_kwarg
         all_lookup_kwarg_isnull].
    fold fp. rewrite lookup_singleton_eq, lookup_singleton_ne by done.
    rewrite starts_with_any_self by set_solver. cbn. rewrite Hsu.
    split; [|done]. right. apply elem_of_app. left.
    apply list_elem_of_fmap. exists v. split.
    + by rewrite bool_decide_eq_true_2.
    + apply elem_of_filter_bool; [done|]. by rewrite bool_decide_eq_false_2.
  - intros q h1 Hv Hq.
    destruct (AllValuesFilterSpec_choices_flags (followed h1) cl' h' d' Hd')
      as (cs & h'' & Hrun & _ & Hflags).
    exists cs, h''. split; [done|]. rewrite Hflags.
    unfold all_values_flags, followed. cbn -[request_of_link].
    rewrite !(link_lookup _ _ _ _ _ _ _ _ Hd Hq). unfold self.
    cbn [default id AllValuesFilterSpec_init all_lookup_kwarg
         all_lookup_kwarg_isnull].
    fold fp. rewrite lookup_singleton_eq, lookup_singleton_ne by done.
    rewrite starts_with_any_self by set_solver. cbn. rewrite Hsu.
    rewrite bool_decide_eq_true_2 by done. split; [|done].
    rewrite app_comm_cons, last_snoc. done.
Qed.

Lemma length_append (s1 s2 : string) :
  String.length (s1 +:+ s2) = String.length s1 + String.length s2.
Proof.
  induction s1 as [|a s1 IH]; [done|].
  change (S (String.length (s1 +:+ s2))
          = S (String.length s1 + String.length s2)).
  by rewrite IH.
Qed.

Lemma related_kwargs_differ (fp pk : string) :
  fp +:+ "__" +:+ pk +:+ "__exact" ≠ fp +:+ "__isnull".
Proof.
  intros Heq%append_inj_l. apply (f_equal String.length) in Heq.
  rewrite !length_append in Heq. cbn in Heq. lia.
Qed.

(** X19. Following a link of a [RelatedFilterSpec] selects the choice that
    carries the link: [All], a related object, or the empty choice of a
    relation that can be null. *)
Theorem related_links_round_trip (f : Field) (request : Request)
    (prm : loc) (model : Model) (field_path : option string)
    (cl cl' : ChangeList) (h h' : heap) (d d' : gmap string pyval) :
  (∀ s, smart_unicode (PStr s) = s) →
  h !! params cl = Some d → h' !! params cl' = Some d' →
  let self := RelatedFilterSpec_init f request prm model field_path in
  let followed (h1 : heap) :=
    RelatedFilterSpec_init f
      (request_of_link (deref h1 (fresh (dom h)))) prm model field_path in
  (∀ q h1,
     get_query_string cl (Some ∅)
       (Some [rel_lookup_kwarg self; rel_lookup_kwarg_isnull self]) h
     = (inr q, h1) →
     ∃ cs h'',
       RelatedFilterSpec_choices (followed h1) cl' h' = (inr cs, h'')
       ∧ (flag <$> cs) !! 0 = Some (ugettext "All", true))
  ∧ (∀ pk_val val q h1,
       (pk_val, val) ∈ rel_lookup_choices self → pk_val ≠ PNone →
       get_query_string cl (Some {[rel_lookup_kwarg self := pk_val]})
         (Some [rel_lookup_kwarg_isnull self]) h
       = (inr q, h1) →
       ∃ cs h'',
         RelatedFilterSpec_choices (followed h1) cl' h' = (inr cs, h'')
         ∧ (val, true) ∈ flag <$> cs
         ∧ (flag <$> cs) !! 0 = Some (ugettext "All", false))
  ∧ (∀ q h1,
       nullable_relation f = true →
       get_query_string cl
         (Some {[rel_lookup_kwarg_isnull self := PStr "True"]})
         (Some [rel_lookup_kwarg self]) h
       = (inr q, h1) →
       ∃ cs h'',
         RelatedFilterSpec_choices (followed h1) cl' h' = (inr cs, h'')
         ∧ last (flag <$> cs) = Some ("(None)", true)
         ∧ (flag <$> cs) !! 0 = Some (ugettext "All", false)).
Proof.
  intros Hsu Hd Hd' self followed.
  set (fp := init_field_path f field_path).
  pose proof (related_kwargs_differ fp (other_pk_name f)) as Hne.
  split; [|split].
  - intros q h1 Hq.
    destruct (RelatedFilterSpec_choices_flags (followed h1) cl' h' d' Hd')
      as (cs & h'' & Hrun & _ & Hflags).
    exists cs, h''. split; [done|]. rewrite Hflags.
    unfold related_flags, followed. cbn -[request_of_link].
    rewrite !(link_lookup _ _ _ _ _ _ _ _ Hd Hq). unfold self.
    cbn [default id RelatedFilterSpec_init rel_lookup_kwarg
         rel_lookup_kwarg_isnull].
    rewrite !lookup_empty.
    rewrite !starts_with_any_self by set_solver. done.
  - intros pk_val val q h1 Hv Hnone Hq.
    destruct (RelatedFilterSpec_choices_flags (followed h1) cl' h' d' Hd')
      as (cs & h'' & Hrun & _ & Hflags).
    exists cs, h''. split; [done|]. rewrite Hflags.
    unfold related_flags, followed. cbn -[request_of_link].
    rewrite !(link_lookup _ _ _ _ _ _ _ _ Hd Hq). unfold self.
    cbn [default id RelatedFilterSpec_init rel_lookup_kwarg
         rel_lookup_kwarg_isnull].
    fold fp. rewrite lookup_singleton_eq, lookup_singleton_ne by done.
    rewrite starts_with_any_self by set_solver.
    replace (match pk_val with PNone => None | _ => Some pk_val end)
      with (Some pk_val) by (by destruct pk_val).
    cbn. split; [|done]. right. apply elem_of_app. left.
    apply list_elem_of_fmap. exists (pk_val, val). split; [|done].
    cbn. by rewrite bool_decide_eq_true_2.
  - intros q h1 Hnull Hq.
    destruct (RelatedFilterSpec_choices_flags (followed h1) cl' h' d' Hd')
      as (cs & h'' & Hrun & _ & Hflags).
    exists cs, h''. split; [done|]. rewrite Hflags.
    unfold related_flags, followed. cbn -[request_of_link].
    rewrite !(link_lookup _ _ _ _ _ _ _ _ Hd Hq). unfold self.
    cbn [default id RelatedFilterSpec_init rel_lookup_kwarg
         rel_lookup_kwarg_isnull].
    fold fp. rewrite lookup_singleton_eq, lookup_singleton_ne by done.
    rewrite starts_with_any_self by set_solver. cbn. rewrite Hsu, Hnull.
    split; [|done]. rewrite app_comm_cons, last_snoc. done.
Qed.

Lemma boolean_kwargs_differ (fp : string) :
  fp +:+ "__exact" ≠ fp +:+ "__isnull".
Proof. by intros Heq%append_inj_l. Qed.

(** X20. Following a link of a [BooleanFieldFilterSpec] selects the choice that
    carries the link: [All], [Yes] or [No], or [Unknown] for a
    [NullBooleanField]. *)
Theorem boolean_links_round_trip (f : Field) (request : Request)
    (prm : loc) (model : Model) (field_path : option string)
    (cl cl' : ChangeList) (h h' : heap) (d d' : gmap string pyval) :
  (∀ s, smart_unicode (PStr s) = s) →
  h !! params cl = Some d → h' !! params cl' = Some d' →
  let self := BooleanFieldFilterSpec_init f request prm model field_path in
  let followed (h1 : heap) :=
    BooleanFieldFilterSpec_init f
      (request_of_link (deref h1 (fresh (dom h)))) prm model field_path in
  (∀ i k v q h1,
     [(ugettext "All", None); (ugettext "Yes", Some "1");
      (ugettext "No", Some "0")] !! i = Some (k, v) →
     get_query_string cl (Some {[bool_lookup_kwarg self := opt_val v]})
       (Some [bool_lookup_kwarg2 self]) h
     = (inr q, h1) →
     ∃ cs h'',
       BooleanFieldFilterSpec_choices (followed h1) cl' h' = (inr cs, h'')
       ∧ (flag <$> cs) !! i = Some (k, true))
  ∧ (∀ q h1,
       is_NullBooleanField f = true →
       get_query_string cl (Some {[bool_lookup_kwarg2 self := PStr "True"]})
         (Some [bool_lookup_kwarg self]) h
       = (inr q, h1) →
       ∃ cs h'',
         BooleanFieldFilterSpec_choices (followed h1) cl' h' = (inr cs, h'')
         ∧ (flag <$> cs) !! 3 = Some (ugettext "Unknown", true)
         ∧ (flag <$> cs) !! 0 = Some (ugettext "All", false)).
Proof.
  intros Hsu Hd Hd' self followed.
  set (fp := init_field_path f field_path).
  pose proof (boolean_kwargs_differ fp) as Hne.
  split.
  - intros i k v q h1 Hi Hq.
    destruct (BooleanFieldFilterSpec_choices_flags (followed h1) cl' h' d'
                Hd') as (cs & h'' & Hrun & _ & Hflags).
    exists cs, h''. split; [done|]. rewrite Hflags.
    unfold boolean_flags, followed. cbn -[request_of_link].
    rewrite !(link_lookup _ _ _ _ _ _ _ _ Hd Hq). unfold self.
    cbn [default id BooleanFieldFilterSpec_init bool_lookup_kwarg
         bool_lookup_kwarg2].
    fold fp.
    rewrite lookup_singleton_eq, lookup_singleton_ne
      by (by apply not_eq_sym).
    rewrite starts_with_any_self by set_solver.
    destruct i as [|[|[|i]]]; [..|done]; injection Hi as <- <-; cbn;
      by rewrite ?Hsu.
  - intros q h1 Hnull Hq.
    destruct (BooleanFieldFilterSpec_choices_flags (followed h1) cl' h' d'
                Hd') as (cs & h'' & Hrun & _ & Hflags).
    exists cs, h''. split; [done|]. rewrite Hflags.
    unfold boolean_flags, followed. cbn -[request_of_link].
    rewrite !(link_lookup _ _ _ _ _ _ _ _ Hd Hq). unfold self.
    cbn [default id BooleanFieldFilterSpec_init bool_lookup_kwarg
         bool_lookup_kwarg2].
    fold fp. rewrite lookup_singleton_eq, lookup_singleton_ne by done.
    rewrite starts_with_any_self by set_solver. cbn. rewrite Hsu, Hnull.
    done.
Qed.


(** X22. A [RelatedFilterSpec] has output exactly when its [choices] yields
    more than two choices, that is, when there is something to choose
    besides [All] and one other choice. *)
Theorem related_has_output_choices (self : RelatedFilterSpec)
    (cl : ChangeList) (h : heap) (d : gmap string pyval) :
  h !! params cl = Some d →
  ∃ cs h', RelatedFilterSpec_choices self cl h = (inr cs, h')
         ∧ (RelatedFilterSpec_has_output self = true ↔ 2 < length cs).
Proof.
  intros Hd.
  destruct (RelatedFilterSpec_choices_flags self cl h d Hd)
    as (cs & h' & Hrun & _ & Hflags).
  exists cs, h'. split; [done|].
  apply (f_equal length) in Hflags. rewrite length_fmap in Hflags.
  rewrite Hflags. unfold related_flags, RelatedFilterSpec_has_output.
  cbn [length]. rewrite length_app, length_fmap.
  rewrite Nat.ltb_lt. destruct (nullable_relation (rel_field self)); cbn; lia.
Qed.

Lemma selected_flags (cs : list Choice) :
  length (List.filter selected cs)
  = length (List.filter snd (flag <$> cs)).
Proof.
  induction cs as [|c cs IH]; cbn; [done|].
  destruct (selected c); cbn; by rewrite IH.
Qed.

(** X23. A [BooleanFieldFilterSpec] never shows two choices as selected. *)
Theorem boolean_at_most_one_selected (self : BooleanFieldFilterSpec)
    (cl : ChangeList) (h : heap) (d : gmap string pyval) :
  h !! params cl = Some d →
  ∃ cs h', BooleanFieldFilterSpec_choices self cl h = (inr cs, h')
         ∧ length (List.filter selected cs) ≤ 1.
Proof.
  intros Hd.
  destruct (BooleanFieldFilterSpec_choices_flags self cl h d Hd)
    as (cs & h' & Hrun & _ & Hflags).
  exists cs, h'. split; [done|].
  rewrite selected_flags, Hflags. unfold boolean_flags, absent, unset.
  destruct (bool_lookup_val2 self) as [s2|] eqn:H2; cbn.
  - destruct (Py.truthy_str s2) eqn:Hs2; cbn.
    + rewrite !andb_false_r. cbn.
      destruct (is_NullBooleanField _); cbn; [|lia].
      case_bool_decide; cbn; lia.
    + rewrite !andb_true_r.
      assert (s2 = "") as -> by (by destruct s2).
      destruct (bool_lookup_val self) as [s|];
        repeat (case_bool_decide; simplify_eq; cbn);
        destruct (is_NullBooleanField _); cbn; lia.
  - rewrite !andb_true_r.
    destruct (bool_lookup_val self) as [s|];
      repeat (case_bool_decide; simplify_eq; cbn);
      destruct (is_NullBooleanField _); cbn; lia.
Qed.

(** ** The date filter *)

Lemma filter_bool_Prop {A} (p : A → bool) (l : list A) :
  List.filter p l = filter (λ x, p x = true) l.
Proof.
  induction l as [|x l IH]; [done|]. cbn [List.filter].
  rewrite filter_cons, IH. destruct (p x); by case_decide.
Qed.

Lemma DateFieldFilterSpec_init_run (f : Field) (request : Request)
    (prm : loc) (model : Model) (field_path : option string) (h : heap)
    (dp : gmap string pyval) :
  h !! prm = Some dp →
  let fp := init_field_path f field_path in
  DateFieldFilterSpec_init f request prm model field_path h
  = (inr {| date_params_ref := prm;
            date_field := f;
            date_field_path := fp;
            field_generic := fp +:+ "__";
            date_params :=
              filter (λ kv, Py.startswith kv.1 (fp +:+ "__") = true) dp |},
     h).
Proof.
  intros Hdp fp. unfold DateFieldFilterSpec_init. run.
  rewrite (deref_lookup _ _ _ Hdp). fold fp.
  by rewrite filter_bool_Prop, <-map_filter_alt.
Qed.

Lemma DateFieldFilterSpec_choices_flags (self : DateFieldFilterSpec)
    (today : Today) (cl : ChangeList) (h : heap) (d : gmap string pyval) :
  h !! params cl = Some d →
  ∃ cs h', DateFieldFilterSpec_choices self today cl h = (inr cs, h')
         ∧ h' !! params cl = Some d
         ∧ flag <$> cs
           = (λ l : string * gmap string pyval,
                (l.1, bool_decide (date_params self = l.2)))
             <$> DateFieldFilterSpec_links self today.
Proof.
  intros Hd. unfold DateFieldFilterSpec_choices.
  apply (for_yield_flags cl d); [|done].
  intros [title param_dict] h0 Hd0.
  destruct (get_query_string_returns cl (Some param_dict)
              (Some [field_generic self]) h0 d Hd0) as (q & h1 & Hq & Hd1).
  run. rewrite Hq. by eexists _, _.
Qed.

Lemma startswith_append (s x y : string) :
  Py.startswith (s +:+ x) (s +:+ y) = Py.startswith x y.
Proof.
  unfold Py.startswith. induction s as [|a s IH]; [done|].
  change (String.prefix (String a (s +:+ y)) (String a (s +:+ x))
          = String.prefix y x).
  cbn. by destruct (Ascii.ascii_dec a a).
Qed.

(** X24. The choices of a date filter. [choices] yields the five links of the
    filter spec, and [Any date], the first, is selected exactly when no
    parameter of the change list starts with the field path followed by
    [__]. *)
Theorem date_any_date_selected (f : Field) (request : Request) (prm : loc)
    (model : Model) (field_path : option string) (today : Today)
    (cl : ChangeList) (h : heap) (dp d : gmap string pyval) :
  h !! prm = Some dp → h !! params cl = Some d →
  ∃ self cs h' b,
    DateFieldFilterSpec_init f request prm model field_path h = (inr self, h)
    ∧ DateFieldFilterSpec_choices self today cl h = (inr cs, h')
    ∧ display <$> cs
      = [ugettext "Any date"; ugettext "Today"; ugettext "Past 7 days";
         ugettext "This month"; ugettext "This year"]
    ∧ (selected <$> cs) !! 0 = Some b
    ∧ (b = true
       ↔ ∀ k, is_Some (dp !! k) →
           Py.startswith k (init_field_path f field_path +:+ "__") = false).
Proof.
  intros Hdp Hd.
  pose proof (DateFieldFilterSpec_init_run f request prm model field_path
                h dp Hdp) as Hinit. cbn zeta in Hinit.
  set (self := {| date_params_ref := prm |}) in Hinit.
  destruct (DateFieldFilterSpec_choices_flags self today cl h d Hd)
    as (cs & h' & Hrun & _ & Hflags).
  exists self, cs, h', (bool_decide (date_params self = ∅)).
  split; [done|]. split; [done|].
  assert (display <$> cs = fst <$> (flag <$> cs)) as ->
    by (by rewrite <-list_fmap_compose).
  assert (selected <$> cs = snd <$> (flag <$> cs)) as ->
    by (by rewrite <-list_fmap_compose).
  rewrite Hflags. split; [done|]. split; [done|].
  rewrite bool_decide_eq_true. cbn [self date_params]. split.
  - intros Hempty k [v Hk].
    destruct (Py.startswith k _) eqn:Hstart; [|done].
    apply (f_equal (λ m : gmap string pyval, m !! k)) in Hempty.
    rewrite lookup_empty in Hempty.
    apply map_lookup_filter_None in Hempty as [Hnone|Hall]; [congruence|].
    by specialize (Hall v Hk).
  - intros Hall. apply map_eq. intros k. rewrite lookup_empty.
    apply map_lookup_filter_None. right. intros v Hk. cbn.
    rewrite (Hall k); [done|by eexists].
Qed.

Lemma DateFieldFilterSpec_links_wf (self : DateFieldFilterSpec)
    (today : Today) (title : string) (param_dict : gmap string pyval)
    (k : string) (v : pyval) :
  (title, param_dict) ∈ DateFieldFilterSpec_links self today →
  param_dict !! k = Some v →
  Py.startswith k (date_field_path self +:+ "__") = true ∧ is_text v = true.
Proof.
  unfold DateFieldFilterSpec_links. intros Hin Hk.
  repeat (apply elem_of_cons in Hin as [[= -> ->]|Hin]);
    [..|by apply elem_of_nil in Hin];
    repeat (apply lookup_insert_Some in Hk as [[<- <-]|[_ Hk]];
            [by rewrite startswith_append|]);
    first [by rewrite lookup_empty in Hk
          |apply lookup_singleton_Some in Hk as [<- <-];
           by rewrite startswith_append].
Qed.

Lemma startswith_length (k r : string) :
  Py.startswith k r = true → String.length r ≤ String.length k.
Proof.
  unfold Py.startswith. revert k. induction r as [|a r IH]; intros k.
  - cbn. lia.
  - destruct k as [|b k]; cbn; [done|].
    destruct (Ascii.ascii_dec a b); [|done]. intros ?%IH. lia.
Qed.

(** X25. Following a link of a date filter selects the choice that carries
    the link, on the day the link was made. The parameters that
    [__init__] builds from the request for the link give a filter spec of
    the same field whose date parameters are those of the link, and its
    [choices] yields the choice of that link as selected. *)
Theorem date_links_round_trip (self : DateFieldFilterSpec) (today : Today)
    (request' : Request) (model : Model) (cl cl' : ChangeList)
    (h h1 h' h2 : heap) (d : gmap string pyval) (i : nat)
    (title q : string) (param_dict : gmap string pyval) :
  (∀ s, smart_unicode (PStr s) = s) →
  h !! params cl = Some d →
  field_generic self = date_field_path self +:+ "__" →
  DateFieldFilterSpec_links self today !! i = Some (title, param_dict) →
  get_query_string cl (Some param_dict) (Some [field_generic self]) h
  = (inr q, h1) →
  init_params (request_of_link (deref h1 (fresh (dom h)))) h'
  = (inr (params cl'), h2) →
  ∃ self' cs h3,
    DateFieldFilterSpec_init (date_field self) request' (params cl') model
      (Some (date_field_path self)) h2 = (inr self', h2)
    ∧ date_params self' = param_dict
    ∧ DateFieldFilterSpec_choices self' today cl' h2 = (inr cs, h3)
    ∧ (flag <$> cs) !! i = Some (title, true).
Proof.
  intros Hsu Hd Hfg Hi Hq Hinit.
  destruct (get_query_string_run cl (Some param_dict)
              (Some [field_generic self]) h d Hd) as [Hrun _].
  rewrite Hrun in Hq. injection Hq as _ <-. rewrite deref_insert in Hinit.
  cbn [default id] in Hinit. rewrite init_params_run in Hinit.
  injection Hinit as Hprm <-.
  set (fp := date_field_path self) in *.
  set (d2 := filter _ _) in *.
  assert (<[fresh (dom h') := d2]> h' !! params cl' = Some d2) as Hd2
    by (by rewrite <-Hprm, lookup_insert_eq).
  pose proof (DateFieldFilterSpec_init_run (date_field self) request'
                (params cl') model (Some fp) _ d2 Hd2) as Hspec.
  cbn [init_field_path] in Hspec. cbn zeta in Hspec.
  set (self' := {| date_params_ref := params cl' |}) in Hspec.
  assert (date_params self' = param_dict) as Hparams.
  { cbn [self' date_params]. apply map_eq. intros k.
    rewrite map_lookup_filter. unfold d2.
    rewrite map_lookup_filter, lookup_fmap. cbn [request_of_link GET].
    rewrite lookup_fmap, query_string_dict_lookup.
    destruct (param_dict !! k) as [v|] eqn:Hk.
    - destruct (DateFieldFilterSpec_links_wf self today title param_dict k v)
        as [Hstart Htext]; [by eapply list_elem_of_lookup_2|done|].
      destruct v as [| | |s|]; try done. cbn. rewrite Hsu.
      rewrite option_guard_True.
      2:{ apply startswith_length in Hstart.
          rewrite length_append in Hstart. cbn in Hstart.
          unfold request_params. intros Hin.
          repeat (apply elem_of_cons in Hin as [->|Hin];
                  [cbn in Hstart; lia|]).
          by apply elem_of_nil in Hin. }
      cbn. by rewrite option_guard_True.
    - rewrite Hfg. fold fp. unfold starts_with_any. cbn [existsb].
      destruct (Py.startswith k (fp +:+ "__")) eqn:Hstart; cbn; [done|].
      destruct (smart_unicode <$> d !! k) as [s|]; cbn; [|done].
      destruct (guard (k ∉ request_params)) as [?|]; cbn; [|done].
      rewrite option_guard_False; [done|]. by rewrite Hstart. }
  destruct (DateFieldFilterSpec_choices_flags self' today cl' _ d2 Hd2)
    as (cs & h3 & Hchoices & _ & Hflags).
  exists self', cs, h3. split; [done|]. split; [done|]. split; [done|].
  rewrite Hflags, list_lookup_fmap.
  replace (DateFieldFilterSpec_links self' today)
    with (DateFieldFilterSpec_links self today) by done.
  rewrite Hi.
  change (Some (title, bool_decide (date_params self' = param_dict))
          = Some (title, true)).
  by rewrite Hparams, bool_decide_eq_true_2.
Qed.

(** ** [get_filters] *)

Section GetFiltersProperties.
Variable get_fields_from_path : Model → string → exn + list Field.

Lemma get_filters_loop (cls : Registry) (self : ChangeList)
    (request : Request) (items : list ListFilterItem)
    (acc specs : list SpecObject) (h h' : heap) :
  for_fold items acc (get_filters_step get_fields_from_path cls self request)
    h = (inr specs, h') →
  Forall (λ spec, SpecObject_has_output spec = true) acc →
  Forall (λ spec, SpecObject_has_output spec = true) specs
  ∧ length specs ≤ length acc + length items.
Proof.
  revert acc h. induction items as [|item items IH]; intros acc h.
  - cbn. unfold ret. intros [= <- <-] Hacc. split; [done|lia].
  - cbn [for_fold]. run. unfold get_filters_step at 1. run.
    destruct (make_spec _ _ _ _ _ h) as [[e|[spec|]] h1]; [done|..].
    + destruct (SpecObject_has_output spec) eqn:Hout.
      * intros Hrun Hacc. apply IH in Hrun as [Hspecs Hlen].
        -- split; [done|]. rewrite length_app in Hlen. cbn in *. lia.
        -- apply Forall_app. split; [done|]. by apply Forall_singleton.
      * intros Hrun Hacc. apply IH in Hrun as [Hspecs Hlen]; [|done].
        split; [done|]. cbn. lia.
    + intros Hrun Hacc. apply IH in Hrun as [Hspecs Hlen]; [|done].
      split; [done|]. cbn. lia.
Qed.

(** X26. What [get_filters] returns, when it returns: filter specs that all
    have output, at most one per item of [list_filter], and the flag
    [has_filters], which is true exactly when there is a filter spec. *)
Theorem get_filters_invariants (cls : Registry)
    (list_filter : list ListFilterItem) (self : ChangeList)
    (request : Request) (h h' : heap) (filter_specs : list SpecObject)
    (has_filters : bool) :
  get_filters get_fields_from_path cls list_filter self request h
  = (inr (filter_specs, has_filters), h') →
  Forall (λ spec, SpecObject_has_output spec = true) filter_specs
  ∧ length filter_specs ≤ length list_filter
  ∧ (has_filters = true ↔ filter_specs ≠ []).
Proof.
  unfold get_filters. run.
  destruct (for_fold _ _ _ h) as [[e|specs] h1] eqn:Hloop; [done|].
  intros [= <- <- <-].
  apply get_filters_loop in Hloop as [Hspecs Hlen]; [|done].
  split; [done|]. split; [done|]. by destruct specs.
Qed.

Lemma get_filters_loop_raises (cls : Registry) (self : ChangeList)
    (request : Request) (items : list ListFilterItem) (item : ListFilterItem)
    (acc : list SpecObject) (h : heap) :
  item ∈ items →
  (∀ acc h, ∃ e,
     (get_filters_step get_fields_from_path cls self request acc item h).1
     = inl e) →
  ∃ e, (for_fold items acc
          (get_filters_step get_fields_from_path cls self request) h).1
       = inl e.
Proof.
  intros Hin Hitem. revert acc h.
  induction items as [|item' items IH]; intros acc h;
    [by apply elem_of_nil in Hin|].
  cbn [for_fold]. run.
  apply elem_of_cons in Hin as [<-|Hin].
  - destruct (Hitem acc h) as [e He].
    destruct (get_filters_step _ _ _ _ _ _ _) as [[e'|?] h1]; [|done].
    by exists e'.
  - destruct (get_filters_step _ _ _ _ _ item' _) as [[e'|acc'] h1].
    + by exists e'.
    + by apply IH.
Qed.

(** X27. A field of [list_filter] that is named by text of two characters makes
    [get_filters] raise: the text is unpacked into its two characters, and
    the second is called as the factory. *)
Theorem two_character_field_raises (cls : Registry)
    (list_filter : list ListFilterItem) (self : ChangeList)
    (request : Request) (h : heap) (a b : Ascii.ascii) :
  ItemField (FieldPath (String a (String b ""))) ∈ list_filter →
  ∃ e, (get_filters get_fields_from_path cls list_filter self request h).1
       = inl e.
Proof.
  intros Hin. unfold get_filters. run.
  destruct (get_filters_loop_raises cls self request list_filter _ [] h Hin)
    as [e He].
  - intros acc h0. unfold get_filters_step, make_spec, resolve_field, lift.
    run. destruct (get_fields_from_path _ _) as [e|fields]; [by eexists|].
    destruct (last fields); by eexists.
  - destruct (for_fold _ _ _ h) as [[e'|?] h1]; [|done]. by exists e'.
Qed.




End GetFiltersProperties.

(** ** A link of a link *)



End MoreProperties.

(** * Further runs *)

Section MoreRuns.
#[local] Existing Instance Sym.framework.

Ltac by_evaluation :=
  unfold text_values, plain_keys;
  apply (bool_decide_unpack _); vm_compute; exact I.

(** An equation between closed terms, by evaluation of its two sides. *)
Ltac by_vm :=
  lazymatch goal with
  | |- ?l = ?r => exact (@eq_refl _ r <: l = r)
  end.

Lemma get_query_string_edge_cases_witness :
  get_query_string (Demo.book_changelist []) None None
    (Demo.store Demo.request_order)
  = (inr ("?" +:+ urlencode Demo.request_order),
     <[fresh (dom (Demo.store Demo.request_order)) := Demo.request_order]>
       (Demo.store Demo.request_order)).
Proof.
  refine (proj1 (get_query_string_edge_cases (Demo.book_changelist [])
                   (Demo.store Demo.request_order) Demo.request_order _)).
  by_vm.
Defined.

Lemma get_ordering_reads_only_o_witness :
  (get_ordering (Demo.person_changelist [] Demo.people false 0)
     (Demo.store {[ "o" := PStr "-1"; "ot" := PStr "asc" ]})).1
  = (get_ordering (Demo.person_changelist [] Demo.people false 0)
       (Demo.store {[ "o" := PStr "-1" ]})).1.
Proof.
  refine (proj1 (get_ordering_reads_only_o
                   (Demo.person_changelist [] Demo.people false 0)
                   (Demo.store {[ "o" := PStr "-1"; "ot" := PStr "asc" ]})
                   (Demo.store {[ "o" := PStr "-1" ]})
                   {[ "o" := PStr "-1"; "ot" := PStr "asc" ]}
                   {[ "o" := PStr "-1" ]} _ _ _));
    by_vm.
Defined.

Lemma get_ordering_names_columns_witness :
  ∃ l, get_ordering (Demo.person_changelist [] Demo.people false 0)
         (Demo.store {[ "o" := PStr "-1,7,x,0" ]})
       = (inr l, Demo.store {[ "o" := PStr "-1,7,x,0" ]})
     ∧ length l ≤ length (Py.split "," "-1,7,x,0").
Proof.
  destruct (get_ordering_names_columns
              (Demo.person_changelist [] Demo.people false 0)
              (Demo.store {[ "o" := PStr "-1,7,x,0" ]})
              {[ "o" := PStr "-1,7,x,0" ]} "-1,7,x,0")
    as (l & Hl & Hlen & _); [by_vm..|].
  exists l. split; [exact Hl|exact Hlen].
Defined.


Lemma get_query_set_store_witness :
  ∃ dl,
    (get_query_set (Demo.book_changelist [Demo.DjangoBookFilterSpec])
       (Demo.store Demo.request_lookups)).2
    = <[fresh (dom (Demo.store Demo.request_lookups)) := dl]>
        (Demo.store Demo.request_lookups).
Proof.
  destruct (get_query_set_store
              (Demo.book_changelist [Demo.DjangoBookFilterSpec])
              (Demo.store Demo.request_lookups) Demo.request_lookups)
    as (dl & Hdl & _); [by_vm|by_evaluation|].
  exists dl. exact Hdl.
Defined.





Lemma reserved_params_never_filtered_witness :
  let self := Demo.book_changelist [] in
  let h1 := (init_params Examples.request_page ∅).2 in
  let h2 := (prepare_lookup_params self h1).2 in
  deref h2 1 !! "p" = None ∧ deref h2 1 !! "all" = None.
Proof.
  intros self h1 h2.
  assert (∀ k, k ∈ reserved_params → deref h2 1 !! k = None) as Hk.
  { apply (reserved_params_never_filtered self Examples.request_page ∅ h1 h2
             Demo.books 1).
    - by_evaluation.
    - by_vm.
    - by_vm. }
  split; apply Hk; [left|do 3 right; left].
Defined.

Lemma all_values_links_round_trip_witness :
  let cl := Demo.book_changelist [] in
  let d : gmap string pyval := {[ "year__isnull" := PStr "True" ]} in
  let h := Demo.store d in
  let h1 :=
    (get_query_string cl (Some {[ "year" := PStr "1999" ]})
       (Some ["year__isnull"]) h).2 in
  ∃ cs h'',
    AllValuesFilterSpec_choices
      (AllValuesFilterSpec_init Demo.year
         (request_of_link (deref h1 (fresh (dom h)))) 0 Demo.Book None)
      cl h = (inr cs, h'')
    ∧ (smart_unicode (PInt 1999), true) ∈ flag <$> cs
    ∧ (flag <$> cs) !! 0 = Some (ugettext "All", false).
Proof.
  intros cl d h h1.
  refine (proj1 (proj2 (all_values_links_round_trip Demo.year
                          {| GET := ∅ |} 0 Demo.Book None cl cl h h d d
                          _ _ _))
            (PInt 1999) "?year=1999" h1 _ _ _).
  - intros s. reflexivity.
  - by_vm.
  - by_vm.
  - right. left.
  - discriminate.
  - by_vm.
Defined.

Lemma related_links_round_trip_witness :
  let cl := Demo.book_changelist [] in
  let d : gmap string pyval := {[ "author__isnull" := PStr "True" ]} in
  let h := Demo.store d in
  let h1 :=
    (get_query_string cl (Some {[ "author__id__exact" := PInt 2 ]})
       (Some ["author__isnull"]) h).2 in
  ∃ cs h'',
    RelatedFilterSpec_choices
      (RelatedFilterSpec_init Demo.author
         (request_of_link (deref h1 (fresh (dom h)))) 0 Demo.Book None)
      cl h = (inr cs, h'')
    ∧ ("bob", true) ∈ flag <$> cs
    ∧ (flag <$> cs) !! 0 = Some (ugettext "All", false).
Proof.
  intros cl d h h1.
  refine (proj1 (proj2 (related_links_round_trip Demo.author
                          {| GET := ∅ |} 0 Demo.Book None cl cl h h d d
                          _ _ _))
            (PInt 2) "bob" "?author__id__exact=2" h1 _ _ _).
  - intros s. reflexivity.
  - by_vm.
  - by_vm.
  - right. left.
  - discriminate.
  - by_vm.
Defined.

Lemma boolean_links_round_trip_witness :
  let cl := Demo.booltest_changelist in
  let d : gmap string pyval := {[ "completed__isnull" := PStr "True" ]} in
  let h := Demo.store d in
  let h1 :=
    (get_query_string cl (Some {[ "completed__exact" := PStr "1" ]})
       (Some ["completed__isnull"]) h).2 in
  ∃ cs h'',
    BooleanFieldFilterSpec_choices
      (BooleanFieldFilterSpec_init Demo.completed
         (request_of_link (deref h1 (fresh (dom h)))) 0 Demo.BoolTest None)
      cl h = (inr cs, h'')
    ∧ (flag <$> cs) !! 1 = Some (ugettext "Yes", true).
Proof.
  intros cl d h h1.
  refine (proj1 (boolean_links_round_trip Demo.completed
                   {| GET := ∅ |} 0 Demo.BoolTest None cl cl h h d d
                   _ _ _)
            1 (ugettext "Yes") (Some "1") "?completed__exact=1" h1 _ _).
  - intros s. reflexivity.
  - by_vm.
  - by_vm.
  - reflexivity.
  - by_vm.
Defined.


Lemma related_has_output_choices_witness :
  let self :=
    RelatedFilterSpec_init Demo.author {| GET := ∅ |} 0 Demo.Book None in
  ∃ cs h',
    RelatedFilterSpec_choices self (Demo.book_changelist [])
      (Demo.store ∅) = (inr cs, h')
    ∧ (RelatedFilterSpec_has_output self = true ↔ 2 < length cs).
Proof.
  intros self.
  apply (related_has_output_choices self (Demo.book_changelist [])
           (Demo.store ∅) ∅).
  by_vm.
Defined.

Lemma boolean_at_most_one_selected_witness :
  ∃ cs h',
    BooleanFieldFilterSpec_choices Demo.completed_spec
      Demo.booltest_changelist
      (Demo.store {[ "completed__exact" := PStr "1" ]}) = (inr cs, h')
    ∧ length (List.filter selected cs) ≤ 1.
Proof.
  apply (boolean_at_most_one_selected Demo.completed_spec
           Demo.booltest_changelist
           (Demo.store {[ "completed__exact" := PStr "1" ]})
           {[ "completed__exact" := PStr "1" ]}).
  by_vm.
Defined.

Lemma date_any_date_selected_witness :
  ∃ self cs h' b,
    DateFieldFilterSpec_init Examples.pub_date {| GET := ∅ |} 0 Demo.Book
      None (Demo.store Examples.request_dates)
    = (inr self, Demo.store Examples.request_dates)
    ∧ DateFieldFilterSpec_choices self Examples.today
        (Demo.book_changelist []) (Demo.store Examples.request_dates)
      = (inr cs, h')
    ∧ display <$> cs
      = [ugettext "Any date"; ugettext "Today"; ugettext "Past 7 days";
         ugettext "This month"; ugettext "This year"]
    ∧ (selected <$> cs) !! 0 = Some b
    ∧ (b = true
       ↔ ∀ k, is_Some (Examples.request_dates !! k) →
           Py.startswith k (init_field_path Examples.pub_date None +:+ "__")
           = false).
Proof.
  apply (date_any_date_selected Examples.pub_date {| GET := ∅ |} 0 Demo.Book
           None Examples.today (Demo.book_changelist [])
           (Demo.store Examples.request_dates) Examples.request_dates
           Examples.request_dates);
    by_vm.
Defined.

Lemma date_links_round_trip_witness :
  let cl := Demo.book_changelist [] in
  let h := Demo.store Examples.request_dates in
  let param_dict : gmap string pyval :=
    {[ "pub_date__year" := PStr "2011"; "pub_date__month" := PStr "3" ]} in
  let h1 := (get_query_string cl (Some param_dict)
               (Some ["pub_date__"]) h).2 in
  let h2 :=
    (init_params (request_of_link (deref h1 (fresh (dom h)))) ∅).2 in
  ∃ self' cs h3,
    DateFieldFilterSpec_init Examples.pub_date {| GET := ∅ |} 0 Demo.Book
      (Some "pub_date") h2 = (inr self', h2)
    ∧ date_params self' = param_dict
    ∧ DateFieldFilterSpec_choices self' Examples.today cl h2 = (inr cs, h3)
    ∧ (flag <$> cs) !! 3 = Some (ugettext "This month", true).
Proof.
  intros cl h param_dict h1 h2.
  apply (date_links_round_trip Examples.pub_date_spec Examples.today
           {| GET := ∅ |} Demo.Book cl cl h h1 ∅ h2 Examples.request_dates
           3 (ugettext "This month")
           (match (get_query_string cl (Some param_dict)
                     (Some ["pub_date__"]) h).1 with
            | inr q => q
            | inl _ => ""
            end)
           param_dict).
  - intros s. reflexivity.
  - by_vm.
  - reflexivity.
  - reflexivity.
  - by_vm.
  - by_vm.
Defined.

Lemma get_filters_invariants_witness :
  let result :=
    (get_filters Examples.get_fields_from_path builtin_registry
       Examples.list_filter (Demo.book_changelist []) {| GET := ∅ |}
       (Demo.store ∅)).1 in
  let filter_specs :=
    match result with inr r => r.1 | inl _ => [] end in
  let has_filters :=
    match result with inr r => r.2 | inl _ => false end in
  Forall (λ spec, SpecObject_has_output spec = true) filter_specs
  ∧ length filter_specs ≤ length Examples.list_filter
  ∧ (has_filters = true ↔ filter_specs ≠ []).
Proof.
  intros result filter_specs has_filters.
  apply (get_filters_invariants Examples.get_fields_from_path
           builtin_registry Examples.list_filter (Demo.book_changelist [])
           {| GET := ∅ |} (Demo.store ∅) (Demo.store ∅) filter_specs
           has_filters).
  by_vm.
Defined.

Lemma two_character_field_raises_witness :
  ∃ e,
    (get_filters Examples.get_fields_from_path builtin_registry
       [ItemField (FieldPath "id")] (Demo.book_changelist [])
       {| GET := ∅ |} (Demo.store ∅)).1 = inl e.
Proof.
  apply (two_character_field_raises Examples.get_fields_from_path
           builtin_registry [ItemField (FieldPath "id")]
           (Demo.book_changelist []) {| GET := ∅ |} (Demo.store ∅)
           "i" "d").
  left.
Defined.



(** ** Runs *)

(** A field named [id] in [list_filter] is unpacked into [i] and [d]; here
    no field is called [i]. *)
Example list_filter_id :
  (get_filters Examples.get_fields_from_path builtin_registry
     [ItemField (FieldPath "id")] (Demo.book_changelist [])
     {| GET := ∅ |} (Demo.store ∅)).1
  = inl (OtherError "FieldDoesNotExist").
Proof. by_vm. Qed.

(** The page number of [?p=2&all=&year=1999], and its parameters. *)
Example page_of_request :
  init_page_num Examples.request_page = 2%Z
  ∧ init_show_all Examples.request_page = true
  ∧ deref (init_params Examples.request_page ∅).2 0
    = {[ "all" := PStr ""; "year" := PStr "1999" ]}.
Proof. repeat split; by_vm. Qed.

(** The links of a date filter on the 14th of March 2011, for a request that
    filters on the year and on [pub_date__gte]: every link drops the
    parameter of the date field and keeps the other. *)
Example date_choices :
  (DateFieldFilterSpec_choices Examples.pub_date_spec Examples.today
     (Demo.book_changelist []) (Demo.store Examples.request_dates)).1
  = inr [ {| selected := true; display := "Any date";
             query_string := "?year__isnull=True" |};
          {| selected := false; display := "Today";
             query_string :=
               "?year__isnull=True&pub_date__month=3&pub_date__year=2011"
               +:+ "&pub_date__day=14" |};
          {| selected := false; display := "Past 7 days";
             query_string :=
               "?year__isnull=True&pub_date__gte=2011-03-07"
               +:+ "&pub_date__lte=2011-03-14" |};
          {| selected := false; display := "This month";
             query_string :=
               "?year__isnull=True&pub_date__month=3&pub_date__year=2011" |};
          {| selected := false; display := "This year";
             query_string := "?year__isnull=True&pub_date__year=2011" |} ].
Proof. by_vm. Qed.

End MoreRuns.
